(** * Heuristic 3D online packing: guillotine and max-rects packers

    A shallow embedding of the free-space management engine of the
    repository (Rect3d.h, Rect3d.cpp, GuillotineBinPack3d.cpp,
    MaxRectsBinPack.h/.cpp) and the properties of its specification.

    Conventions of the embedding.
    - A C++ [int] is a [Z].  Where the source multiplies [int]s (the
      sort key, the scores, the split rules, the two occupancies) or
      subtracts arbitrary ones (the scores, [CommonIntervalLength]), the
      result is wrapped to 32 bits by [wrap_int], as the two's complement
      hardware does; the [unsigned long] accumulator of the occupancies is
      wrapped to 64 bits by [to_ulong].  The theorems about these values
      state the range in which nothing wraps.  Sums and differences of the
      coordinates and extents of one box are exact.  [INT_MAX] and
      [INT_MIN] are the sentinels of <limits>.
    - A [std::vector] is a [list]; [push_back] appends at the end and
      [erase(begin()+i)] removes position [i].
    - [std::sort] is modelled by a stable insertion sort on the comparator
      of the source.  C++ leaves the order of the entries the comparator
      does not distinguish open, so the theorems say of a sorted list only
      what every ordered permutation satisfies ([sorted_by]).
    - Reading a vector past its end is undefined behaviour; the batch
      [Insert] of the guillotine packer, whose selection can do it, returns
      [OutOfBounds] there.
    - The console tracing of the source is not modelled; that includes the
      print of [freeRectangles[0]] at the head of the search of the
      guillotine packer.
    - [GuillotineBinPack3d.h] is not among the sources; the constructors of
      its two rule enumerations are the case labels of the [.cpp]. *)

From Stdlib Require Import ZArith List Lia Bool QArith Permutation.
Import ListNotations.
Local Open Scope Z_scope.

(** ** Data model (Rect3d.h) *)

Module RectSize3d.
Record t : Type := mk { width : Z; height : Z; depth : Z }.
End RectSize3d.

Module Rect3d.
Record t : Type := mk { x : Z; y : Z; z : Z; width : Z; height : Z; depth : Z }.
End Rect3d.

Module FreeRect3d.
Record t : Type := mk {
  x : Z; y : Z; z : Z; width : Z; height : Z; depth : Z;
  supportx0 : Z; supportx1 : Z; supporty0 : Z; supporty1 : Z }.
End FreeRect3d.

(** The caller contract on a requested size: every extent is positive. *)
Definition positive_size (r : RectSize3d.t) : bool :=
  (0 <? RectSize3d.width r) && (0 <? RectSize3d.height r) && (0 <? RectSize3d.depth r).

Definition INT_MAX : Z := 2147483647.
Definition INT_MIN : Z := -2147483648.

(** The value of an [int] expression: the exact result wrapped to 32 bits,
    two's complement. *)
Definition wrap_int (z : Z) : Z := (z + 2147483648) mod 4294967296 - 2147483648.

Definition to_ulong (z : Z) : Z := z mod 18446744073709551616.

(** [memset(&bestNode, 0, sizeof(Rect3d))] *)
Definition zeroRect : Rect3d.t := Rect3d.mk 0 0 0 0 0 0.

(** [v.erase(v.begin() + i)] *)
Fixpoint erase {A : Type} (l : list A) (i : nat) : list A :=
  match l, i with
  | [], _ => []
  | _ :: t, O => t
  | a :: t, S i' => a :: erase t i'
  end.

(** [std::sort(v.begin(), v.end(), lt)]: stable insertion sort. *)
Fixpoint insert_sorted {A : Type} (lt : A -> A -> bool) (a : A) (l : list A) : list A :=
  match l with
  | [] => [a]
  | b :: t => if lt a b then a :: b :: t else b :: insert_sorted lt a t
  end.

Definition sort_by {A : Type} (lt : A -> A -> bool) (l : list A) : list A :=
  fold_left (fun acc a => insert_sorted lt a acc) l [].

(** ** Geometry primitives (Rect3d.cpp) *)

Definition IsContainedIn3d (a b : Rect3d.t) : bool :=
  (Rect3d.x a >=? Rect3d.x b) && (Rect3d.y a >=? Rect3d.y b)
  && (Rect3d.x a + Rect3d.width a <=? Rect3d.x b + Rect3d.width b)
  && (Rect3d.y a + Rect3d.height a <=? Rect3d.y b + Rect3d.height b)
  && (Rect3d.z a + Rect3d.depth a <=? Rect3d.z b + Rect3d.depth b).

Definition IsContainedInFree3d (a b : FreeRect3d.t) : bool :=
  (FreeRect3d.x a >=? FreeRect3d.x b) && (FreeRect3d.y a >=? FreeRect3d.y b)
  && (FreeRect3d.x a + FreeRect3d.width a <=? FreeRect3d.x b + FreeRect3d.width b)
  && (FreeRect3d.y a + FreeRect3d.height a <=? FreeRect3d.y b + FreeRect3d.height b)
  && (FreeRect3d.z a >=? FreeRect3d.z b)
  && (FreeRect3d.z a + FreeRect3d.depth a >=? FreeRect3d.z b + FreeRect3d.depth b).

(** ** Disjointness invariant checker (Rect3d.h) *)

Module DisjointRectCollection3d.

(** The collection is its vector [rects]. *)
Definition t : Type := list Rect3d.t.

(** [static bool Disjoint(const Rect3d &a, const Rect3d &b)] *)
Definition Disjoint (a b : Rect3d.t) : bool :=
  (Rect3d.x a + Rect3d.width a <=? Rect3d.x b)
  || (Rect3d.x b + Rect3d.width b <=? Rect3d.x a)
  || (Rect3d.y a + Rect3d.height a <=? Rect3d.y b)
  || (Rect3d.y b + Rect3d.height b <=? Rect3d.y a)
  || (Rect3d.z a + Rect3d.depth a <=? Rect3d.z b)
  || (Rect3d.z b + Rect3d.depth b <=? Rect3d.z a).

Definition degenerate (r : Rect3d.t) : bool :=
  (Rect3d.width r =? 0) || (Rect3d.height r =? 0) || (Rect3d.depth r =? 0).

(** [bool Disjoint(const Rect3d &r) const], the member overload. *)
Definition DisjointFromAll (rects : t) (r : Rect3d.t) : bool :=
  if degenerate r then true
  else forallb (fun a => Disjoint a r) rects.

(** [bool Add(const Rect3d &r)]: the result and the collection afterwards. *)
Definition Add (rects : t) (r : Rect3d.t) : bool * t :=
  if degenerate r then (true, rects)
  else if negb (DisjointFromAll rects r) then (false, rects)
  else (true, rects ++ [r]).

Definition Clear (rects : t) : t := [].

End DisjointRectCollection3d.

(** Every pair of a list, in order of position, satisfies [R]. *)
Fixpoint pairwise {A : Type} (R : A -> A -> Prop) (l : list A) : Prop :=
  match l with
  | [] => True
  | a :: t => Forall (R a) t /\ pairwise R t
  end.

(** The executable form of [pairwise] for a boolean relation. *)
Fixpoint pairwiseb {A : Type} (R : A -> A -> bool) (l : list A) : bool :=
  match l with
  | [] => true
  | a :: t => forallb (R a) t && pairwiseb R t
  end.

(** What [std::sort] guarantees of its result, besides being a permutation
    of its input: no entry is strictly before an entry that precedes it. *)
Definition sorted_by {A : Type} (lt : A -> A -> bool) (l : list A) : Prop :=
  pairwise (fun a b => lt b a = false) l.

(** ** Guillotine packer (GuillotineBinPack3d.cpp) *)

Module GuillotineBinPack3d.

Inductive FreeRectChoiceHeuristic : Type :=
  | RectBestAreaFit | RectBestShortSideFit | RectBestLongSideFit
  | RectWorstAreaFit | RectWorstShortSideFit | RectWorstLongSideFit.

Inductive GuillotineSplitHeuristic : Type :=
  | SplitShorterLeftoverAxis | SplitLongerLeftoverAxis
  | SplitMinimizeArea | SplitMaximizeArea
  | SplitShorterAxis | SplitLongerAxis.

Record t : Type := mk {
  binWidth : Z;
  binHeight : Z;
  binDepth : Z;
  usedRectangles : list Rect3d.t;
  freeRectangles : list Rect3d.t }.

Definition Init (width height depth : Z) : t :=
  mk width height depth [] [Rect3d.mk 0 0 0 width height depth].

Definition with_free (s : t) (free : list Rect3d.t) : t :=
  mk (binWidth s) (binHeight s) (binDepth s) (usedRectangles s) free.

Definition volume (r : Rect3d.t) : Z :=
  Rect3d.width r * Rect3d.height r * Rect3d.depth r.

Definition sumZ (l : list Z) : Z := fold_right Z.add 0 l.

(** The exact volume of the placed boxes. *)
Definition placed_volume (s : t) : Z := sumZ (map volume (usedRectangles s)).

(** [width * height * depth] as the source evaluates it, in [int]. *)
Definition int_volume (width height depth : Z) : Z :=
  wrap_int (wrap_int (width * height) * depth).

(** The loop of [Occupancy]: every product is an [int], converted to
    [unsigned long] and added to the [unsigned long] accumulator. *)
Definition usedSurfaceArea (s : t) : Z :=
  fold_left
    (fun acc r =>
       to_ulong (acc + to_ulong (int_volume (Rect3d.width r) (Rect3d.height r)
                                   (Rect3d.depth r))))
    (usedRectangles s) 0.

(** [Occupancy], as the exact quotient the [float] division rounds; the
    divisor is the [int] product of the three extents. *)
Definition Occupancy (s : t) : Q :=
  (inject_Z (usedSurfaceArea s)
   / inject_Z (int_volume (binWidth s) (binHeight s) (binDepth s)))%Q.

Definition ScoreBestAreaFit (width height depth : Z) (freeRect : Rect3d.t) : Z :=
  wrap_int
    (int_volume (Rect3d.width freeRect) (Rect3d.height freeRect) (Rect3d.depth freeRect)
     - int_volume width height depth).

(** [abs(a - b)] on [int]s. *)
Definition int_abs_diff (a b : Z) : Z := wrap_int (Z.abs (wrap_int (a - b))).

Definition ScoreBestShortSideFit (width height depth : Z) (freeRect : Rect3d.t) : Z :=
  let leftoverHoriz := int_abs_diff (Rect3d.width freeRect) width in
  let leftoverVert := int_abs_diff (Rect3d.height freeRect) height in
  let leftoverDepth := int_abs_diff (Rect3d.depth freeRect) depth in
  let leftover := Z.min leftoverHoriz leftoverVert in
  Z.min leftover leftoverDepth.

Definition ScoreBestLongSideFit (width height depth : Z) (freeRect : Rect3d.t) : Z :=
  let leftoverHoriz := int_abs_diff (Rect3d.width freeRect) width in
  let leftoverVert := int_abs_diff (Rect3d.height freeRect) height in
  let leftoverDepth := int_abs_diff (Rect3d.depth freeRect) depth in
  let leftover := Z.max leftoverHoriz leftoverVert in
  Z.max leftover leftoverDepth.

Definition ScoreWorstAreaFit (width height depth : Z) (freeRect : Rect3d.t) : Z :=
  wrap_int (- ScoreBestAreaFit width height depth freeRect).

Definition ScoreWorstShortSideFit (width height depth : Z) (freeRect : Rect3d.t) : Z :=
  wrap_int (- ScoreBestShortSideFit width height depth freeRect).

Definition ScoreWorstLongSideFit (width height depth : Z) (freeRect : Rect3d.t) : Z :=
  wrap_int (- ScoreBestLongSideFit width height depth freeRect).

Definition ScoreByHeuristic (width height depth : Z) (freeRect : Rect3d.t)
    (rectChoice : FreeRectChoiceHeuristic) : Z :=
  match rectChoice with
  | RectBestAreaFit => ScoreBestAreaFit width height depth freeRect
  | RectBestShortSideFit => ScoreBestShortSideFit width height depth freeRect
  | RectBestLongSideFit => ScoreBestLongSideFit width height depth freeRect
  | RectWorstAreaFit => ScoreWorstAreaFit width height depth freeRect
  | RectWorstShortSideFit => ScoreWorstShortSideFit width height depth freeRect
  | RectWorstLongSideFit => ScoreWorstLongSideFit width height depth freeRect
  end.

(** The four tests of the selection loops, on one free volume. *)
Definition perfect_upright (width height depth : Z) (f : Rect3d.t) : bool :=
  (width =? Rect3d.width f) && (height =? Rect3d.height f) && (depth =? Rect3d.depth f).

Definition perfect_sideways (width height depth : Z) (f : Rect3d.t) : bool :=
  (height =? Rect3d.width f) && (width =? Rect3d.height f) && (depth =? Rect3d.depth f).

Definition fits_upright (width height depth : Z) (f : Rect3d.t) : bool :=
  (width <=? Rect3d.width f) && (height <=? Rect3d.height f) && (depth <=? Rect3d.depth f).

Definition fits_sideways (width height depth : Z) (f : Rect3d.t) : bool :=
  (height <=? Rect3d.width f) && (width <=? Rect3d.height f) && (depth <=? Rect3d.depth f).

(** The comparator [sortFreeRectsByZ] of [FindPositionForNewNode]; the key
    is evaluated in [int] before it is stored in a [long]. *)
Definition rect_hash_val (s : t) (r : Rect3d.t) : Z :=
  wrap_int
    (wrap_int (Rect3d.x r + wrap_int (Rect3d.y r * binWidth s))
     + wrap_int (wrap_int (Rect3d.z r * binWidth s) * binHeight s)).

Definition sortFreeRectsByZ (s : t) (rect1 rect2 : Rect3d.t) : bool :=
  rect_hash_val s rect1 <? rect_hash_val s rect2.

Definition at_origin_of (f : Rect3d.t) (width height depth : Z) : Rect3d.t :=
  Rect3d.mk (Rect3d.x f) (Rect3d.y f) (Rect3d.z f) width height depth.

(** The [for] loop of [FindPositionForNewNode] from index [i] on: the node
    and the index it leaves at the first [break], [None] when the loop runs
    to its end.  The scoring of the source is commented out there, every
    branch breaks. *)
Fixpoint find_loop (width height depth : Z) (l : list Rect3d.t) (i : nat)
    : option (Rect3d.t * nat) :=
  match l with
  | [] => None
  | f :: rest =>
      if perfect_upright width height depth f then
        Some (at_origin_of f width height depth, i)
      else if perfect_sideways width height depth f then
        Some (at_origin_of f height width depth, i)
      else if fits_upright width height depth f then
        Some (at_origin_of f width height depth, i)
      else if fits_sideways width height depth f then
        Some (at_origin_of f height width depth, i)
      else find_loop width height depth rest (S i)
  end.

(** [FindPositionForNewNode]: the packer with its free list sorted in place,
    the node returned and the value left in [*nodeIndex] (the caller
    initialises it to 0). *)
Definition FindPositionForNewNode (s : t) (width height depth : Z)
    (rectChoice : FreeRectChoiceHeuristic) : t * Rect3d.t * nat :=
  let sorted := sort_by (sortFreeRectsByZ s) (freeRectangles s) in
  match find_loop width height depth sorted 0 with
  | Some (bestNode, nodeIndex) => (with_free s sorted, bestNode, nodeIndex)
  | None => (with_free s sorted, zeroRect, O)
  end.

(** The three volumes [SplitFreeRectAlongAxis] forms. *)
Definition split_bottom (freeRect placedRect : Rect3d.t) (splitHorizontal : bool) : Rect3d.t :=
  Rect3d.mk (Rect3d.x freeRect) (Rect3d.y freeRect + Rect3d.height placedRect)
    (Rect3d.z freeRect)
    (if splitHorizontal then Rect3d.width freeRect else Rect3d.width placedRect)
    (Rect3d.height freeRect - Rect3d.height placedRect)
    (Rect3d.depth freeRect).

Definition split_right (freeRect placedRect : Rect3d.t) (splitHorizontal : bool) : Rect3d.t :=
  Rect3d.mk (Rect3d.x freeRect + Rect3d.width placedRect) (Rect3d.y freeRect)
    (Rect3d.z freeRect)
    (Rect3d.width freeRect - Rect3d.width placedRect)
    (if splitHorizontal then Rect3d.height placedRect else Rect3d.height freeRect)
    (Rect3d.depth freeRect).

Definition split_up (freeRect placedRect : Rect3d.t) : Rect3d.t :=
  Rect3d.mk (Rect3d.x freeRect) (Rect3d.y freeRect)
    (Rect3d.z freeRect + Rect3d.depth placedRect)
    (Rect3d.width placedRect) (Rect3d.height placedRect)
    (Rect3d.depth freeRect - Rect3d.depth placedRect).

Definition nondegenerate (r : Rect3d.t) : bool :=
  (Rect3d.width r >? 0) && (Rect3d.height r >? 0) && (Rect3d.depth r >? 0).

Definition push_if_nondegenerate (r : Rect3d.t) : list Rect3d.t :=
  if nondegenerate r then [r] else [].

(** [SplitFreeRectAlongAxis]: the volumes pushed, in the order of the pushes. *)
Definition SplitFreeRectAlongAxis (freeRect placedRect : Rect3d.t) (splitHorizontal : bool)
    : list Rect3d.t :=
  push_if_nondegenerate (split_up freeRect placedRect)
  ++ push_if_nondegenerate (split_bottom freeRect placedRect splitHorizontal)
  ++ push_if_nondegenerate (split_right freeRect placedRect splitHorizontal).

(** The choice of axis of [SplitFreeRectByHeuristic]. *)
Definition splitHorizontal_of (freeRect placedRect : Rect3d.t)
    (method : GuillotineSplitHeuristic) : bool :=
  let w := Rect3d.width freeRect - Rect3d.width placedRect in
  let h := Rect3d.height freeRect - Rect3d.height placedRect in
  match method with
  | SplitShorterLeftoverAxis => w <=? h
  | SplitLongerLeftoverAxis => w >? h
  | SplitMinimizeArea =>
      wrap_int (Rect3d.width placedRect * h) >? wrap_int (w * Rect3d.height placedRect)
  | SplitMaximizeArea =>
      wrap_int (Rect3d.width placedRect * h) <=? wrap_int (w * Rect3d.height placedRect)
  | SplitShorterAxis => Rect3d.width freeRect <=? Rect3d.height freeRect
  | SplitLongerAxis => Rect3d.width freeRect >? Rect3d.height freeRect
  end.

Definition SplitFreeRectByHeuristic (freeRect placedRect : Rect3d.t)
    (method : GuillotineSplitHeuristic) : list Rect3d.t :=
  SplitFreeRectAlongAxis freeRect placedRect (splitHorizontal_of freeRect placedRect method).

(** The inner loop of [MergeFreeList] for a fixed [i]: [ri] is
    [freeRectangles[i]], [l] the entries after it; the result is the
    updated [freeRectangles[i]] and the entries that were not erased. *)
Fixpoint merge_inner (ri : Rect3d.t) (l : list Rect3d.t) : Rect3d.t * list Rect3d.t :=
  match l with
  | [] => (ri, [])
  | rj :: rest =>
      let keep := let (r, l') := merge_inner ri rest in (r, rj :: l') in
      if (Rect3d.width ri =? Rect3d.width rj) && (Rect3d.x ri =? Rect3d.x rj)
         && (Rect3d.z ri =? Rect3d.z rj) && (Rect3d.depth ri =? Rect3d.depth rj) then
        if Rect3d.y ri =? Rect3d.y rj + Rect3d.height rj then
          merge_inner
            (Rect3d.mk (Rect3d.x ri) (Rect3d.y ri - Rect3d.height rj) (Rect3d.z ri)
               (Rect3d.width ri) (Rect3d.height ri + Rect3d.height rj) (Rect3d.depth ri))
            rest
        else if Rect3d.y ri + Rect3d.height ri =? Rect3d.y rj then
          merge_inner
            (Rect3d.mk (Rect3d.x ri) (Rect3d.y ri) (Rect3d.z ri)
               (Rect3d.width ri) (Rect3d.height ri + Rect3d.height rj) (Rect3d.depth ri))
            rest
        else keep
      else if (Rect3d.height ri =? Rect3d.height rj) && (Rect3d.y ri =? Rect3d.y rj)
              && (Rect3d.z ri =? Rect3d.z rj) && (Rect3d.depth ri =? Rect3d.depth rj) then
        if Rect3d.x ri =? Rect3d.x rj + Rect3d.width rj then
          merge_inner
            (Rect3d.mk (Rect3d.x ri - Rect3d.width rj) (Rect3d.y ri) (Rect3d.z ri)
               (Rect3d.width ri + Rect3d.width rj) (Rect3d.height ri) (Rect3d.depth ri))
            rest
        else if Rect3d.x ri + Rect3d.width ri =? Rect3d.x rj then
          merge_inner
            (Rect3d.mk (Rect3d.x ri) (Rect3d.y ri) (Rect3d.z ri)
               (Rect3d.width ri + Rect3d.width rj) (Rect3d.height ri) (Rect3d.depth ri))
            rest
        else keep
      else if (Rect3d.width ri =? Rect3d.width rj) && (Rect3d.height ri =? Rect3d.height rj)
              && (Rect3d.x ri =? Rect3d.x rj) && (Rect3d.y ri =? Rect3d.y rj) then
        if Rect3d.z ri =? Rect3d.z rj + Rect3d.depth rj then
          merge_inner
            (Rect3d.mk (Rect3d.x ri) (Rect3d.y ri) (Rect3d.z ri - Rect3d.depth rj)
               (Rect3d.width ri) (Rect3d.height ri) (Rect3d.depth ri + Rect3d.depth rj))
            rest
        else if Rect3d.x ri + Rect3d.depth ri =? Rect3d.x ri then
          merge_inner
            (Rect3d.mk (Rect3d.x ri) (Rect3d.y ri) (Rect3d.z ri)
               (Rect3d.width ri) (Rect3d.height ri) (Rect3d.depth ri + Rect3d.depth rj))
            rest
        else keep
      else keep
  end.

(** The outer loop of [MergeFreeList]; every round fixes one entry, so
    [length l] rounds are enough. *)
Fixpoint merge_outer (fuel : nat) (l : list Rect3d.t) : list Rect3d.t :=
  match fuel with
  | O => l
  | S fuel' =>
      match l with
      | [] => []
      | ri :: rest =>
          let (ri', rest') := merge_inner ri rest in
          ri' :: merge_outer fuel' rest'
      end
  end.

Definition MergeFreeList (free : list Rect3d.t) : list Rect3d.t :=
  merge_outer (length free) free.

(** What [Insert] does after the position is known: split the chosen free
    volume, erase it, merge on demand, remember the placed box. *)
Definition place (s : t) (freeIndex : nat) (newNode : Rect3d.t) (merge : bool)
    (splitMethod : GuillotineSplitHeuristic) : t :=
  let freeRect := nth freeIndex (freeRectangles s) zeroRect in
  let free1 := freeRectangles s ++ SplitFreeRectByHeuristic freeRect newNode splitMethod in
  let free2 := erase free1 freeIndex in
  let free3 := if merge then MergeFreeList free2 else free2 in
  mk (binWidth s) (binHeight s) (binDepth s) (usedRectangles s ++ [newNode]) free3.

(** [Insert] of one box: the box returned and the packer afterwards. *)
Definition Insert (s : t) (width height depth : Z) (merge : bool)
    (rectChoice : FreeRectChoiceHeuristic) (splitMethod : GuillotineSplitHeuristic)
    : Rect3d.t * t :=
  let '(s1, newRect, freeNodeIndex) :=
    FindPositionForNewNode s width height depth rectChoice in
  if Rect3d.height newRect =? 0 then (newRect, s1)
  else (newRect, place s1 freeNodeIndex newRect merge splitMethod).

(** *** Batch insertion *)

(** The outcome of code that indexes a vector: a value, or a read past the
    end of the vector (undefined behaviour in C++). *)
Inductive result (A : Type) : Type :=
  | Ok (a : A)
  | OutOfBounds.
Arguments Ok {A} a.
Arguments OutOfBounds {A}.

(** The variables the batch [Insert] keeps about its best choice. *)
Record best : Type := mkBest {
  bestFreeRect : nat;
  bestRect : nat;
  bestFlipped : bool;
  bestScore : Z }.

(** The sideways branch of the inner loop, the last of the [else if] chain. *)
Definition batch_sideways (fi : Rect3d.t) (i j : nat) (r : RectSize3d.t)
    (rectChoice : FreeRectChoiceHeuristic) (b : best) : best :=
  if fits_sideways (RectSize3d.width r) (RectSize3d.height r) (RectSize3d.depth r) fi then
    let score := ScoreByHeuristic (RectSize3d.height r) (RectSize3d.width r)
                   (RectSize3d.depth r) fi rectChoice in
    if score <? bestScore b then mkBest i j true score else b
  else b.

(** The loop over [j] for the free volume [fi] at index [i]; [free] is the
    whole free list, which the upright test indexes by [j].  The flag of
    the result tells that the loop left by [break] (an instant fit). *)
Fixpoint batch_inner (free : list Rect3d.t) (rectChoice : FreeRectChoiceHeuristic)
    (fi : Rect3d.t) (i : nat) (rects : list RectSize3d.t) (j : nat) (b : best)
    : result (best * bool) :=
  match rects with
  | [] => Ok (b, false)
  | r :: rest =>
      let w := RectSize3d.width r in
      let h := RectSize3d.height r in
      let d := RectSize3d.depth r in
      if perfect_upright w h d fi then Ok (mkBest i j false INT_MIN, true)
      else if perfect_sideways w h d fi then Ok (mkBest i j true INT_MIN, true)
      else if (w <=? Rect3d.width fi) && (h <=? Rect3d.height fi) then
        (* [rects[j].depth <= freeRectangles[j].depth] *)
        match nth_error free j with
        | None => OutOfBounds
        | Some fj =>
            if d <=? Rect3d.depth fj then
              let score := ScoreByHeuristic w h d fi rectChoice in
              batch_inner free rectChoice fi i rest (S j)
                (if score <? bestScore b then mkBest i j false score else b)
            else
              batch_inner free rectChoice fi i rest (S j)
                (batch_sideways fi i j r rectChoice b)
        end
      else
        batch_inner free rectChoice fi i rest (S j)
          (batch_sideways fi i j r rectChoice b)
  end.

(** The loop over [i], on the free volumes [l] that start at index [i]. *)
Fixpoint batch_outer (free : list Rect3d.t) (rectChoice : FreeRectChoiceHeuristic)
    (rects : list RectSize3d.t) (l : list Rect3d.t) (i : nat) (b : best) : result best :=
  match l with
  | [] => Ok b
  | fi :: rest =>
      match batch_inner free rectChoice fi i rects 0 b with
      | OutOfBounds => OutOfBounds
      | Ok (b', true) => Ok b'
      | Ok (b', false) => batch_outer free rectChoice rects rest (S i) b'
      end
  end.

(** The [while] loop of the batch [Insert]; every round that does not
    return erases one entry of [rects], so [length rects] rounds are
    enough.  [b0] holds the three indices the previous round left. *)
Fixpoint batch_while (fuel : nat) (s : t) (rects : list RectSize3d.t) (b0 : best)
    (merge : bool) (rectChoice : FreeRectChoiceHeuristic)
    (splitMethod : GuillotineSplitHeuristic) : result (t * list RectSize3d.t) :=
  match fuel with
  | O => Ok (s, rects)
  | S fuel' =>
      match rects with
      | [] => Ok (s, rects)
      | _ :: _ =>
          let start := mkBest (bestFreeRect b0) (bestRect b0) (bestFlipped b0) INT_MAX in
          match batch_outer (freeRectangles s) rectChoice rects (freeRectangles s) 0 start with
          | OutOfBounds => OutOfBounds
          | Ok b =>
              if bestScore b =? INT_MAX then Ok (s, rects)
              else
                let f := nth (bestFreeRect b) (freeRectangles s) zeroRect in
                let r := nth (bestRect b) rects (RectSize3d.mk 0 0 0) in
                let newNode :=
                  if bestFlipped b
                  then at_origin_of f (RectSize3d.height r) (RectSize3d.width r) (RectSize3d.depth r)
                  else at_origin_of f (RectSize3d.width r) (RectSize3d.height r) (RectSize3d.depth r) in
                batch_while fuel' (place s (bestFreeRect b) newNode merge splitMethod)
                  (erase rects (bestRect b)) b merge rectChoice splitMethod
          end
      end
  end.

(** The batch [Insert]: the packer afterwards and what is left of [rects]. *)
Definition InsertBatch (s : t) (rects : list RectSize3d.t) (merge : bool)
    (rectChoice : FreeRectChoiceHeuristic) (splitMethod : GuillotineSplitHeuristic)
    : result (t * list RectSize3d.t) :=
  batch_while (length rects) s rects (mkBest 0 0 false INT_MAX) merge rectChoice splitMethod.

(** *** Runs of the packer *)

Inductive op : Type :=
  | InsertOne (width height depth : Z) (merge : bool)
      (rectChoice : FreeRectChoiceHeuristic) (splitMethod : GuillotineSplitHeuristic)
  | InsertMany (rects : list RectSize3d.t) (merge : bool)
      (rectChoice : FreeRectChoiceHeuristic) (splitMethod : GuillotineSplitHeuristic).

Definition step (s : t) (o : op) : result t :=
  match o with
  | InsertOne w h d merge rc sm => Ok (snd (Insert s w h d merge rc sm))
  | InsertMany rects merge rc sm =>
      match InsertBatch s rects merge rc sm with
      | Ok (s', _) => Ok s'
      | OutOfBounds => OutOfBounds
      end
  end.

(** The packer after a sequence of calls, from the packer [s]. *)
Fixpoint run (s : t) (ops : list op) : result t :=
  match ops with
  | [] => Ok s
  | o :: rest =>
      match step s o with
      | Ok s' => run s' rest
      | OutOfBounds => OutOfBounds
      end
  end.

(** The caller contract on a call: every requested extent is positive. *)
Definition positive_op (o : op) : bool :=
  match o with
  | InsertOne w h d _ _ _ => (0 <? w) && (0 <? h) && (0 <? d)
  | InsertMany rects _ _ _ => forallb positive_size rects
  end.

Definition is_InsertOne (o : op) : bool :=
  match o with InsertOne _ _ _ _ _ _ => true | InsertMany _ _ _ _ => false end.

End GuillotineBinPack3d.

(** ** Max-rects packer with support footprints (MaxRectsBinPack.h/.cpp) *)

Module MaxRectsBinPack.

Inductive FreeRectChoiceHeuristic : Type :=
  | RectBestShortSideFit | RectBestLongSideFit | RectBestAreaFit
  | RectBottomLeftRule | RectContactPointRule.

(** [int supportTh = 0.8f;]: the member is an [int], so the initialiser is
    converted by truncation toward zero. *)
Definition supportTh : Z := Z.quot 8 10.

Record t : Type := mk {
  binWidth : Z;
  binHeight : Z;
  binDepth : Z;
  binAllowFlip : bool;
  usedRectangles : list Rect3d.t;
  freeRectangles : list FreeRect3d.t }.

Definition Init (width height depth : Z) (allowFlip : bool) : t :=
  mk width height depth allowFlip []
     [FreeRect3d.mk 0 0 0 width height depth 0 width 0 height].

Definition with_free (s : t) (free : list FreeRect3d.t) : t :=
  mk (binWidth s) (binHeight s) (binDepth s) (binAllowFlip s) (usedRectangles s) free.



(** The loop of [Occupancy]: every product is an [int], converted to
    [unsigned long] and added to the [unsigned long] accumulator. *)
Definition usedSurfaceArea (s : t) : Z :=
  fold_left
    (fun acc r => to_ulong (acc + to_ulong (wrap_int (Rect3d.width r * Rect3d.height r))))
    (usedRectangles s) 0.

(** [Occupancy], as the exact quotient the [float] division rounds; the
    divisor is the [int] product of width and height. *)
Definition Occupancy (s : t) : Q :=
  (inject_Z (usedSurfaceArea s) / inject_Z (wrap_int (binWidth s * binHeight s)))%Q.

(** The comparator of [sortFreeSpace]: (y, z, x) ascending. *)
Definition sortFreeSpace_lt (r1 r2 : FreeRect3d.t) : bool :=
  if FreeRect3d.y r1 <? FreeRect3d.y r2 then true
  else if (FreeRect3d.y r1 =? FreeRect3d.y r2) && (FreeRect3d.z r1 <? FreeRect3d.z r2) then true
  else if (FreeRect3d.y r1 =? FreeRect3d.y r2) && (FreeRect3d.z r1 =? FreeRect3d.z r2)
          && (FreeRect3d.x r1 <? FreeRect3d.x r2) then true
  else false.

Definition sortFreeSpace (s : t) : t :=
  with_free s (sort_by sortFreeSpace_lt (freeRectangles s)).

Definition isBlocked (usedRect newNode : Rect3d.t) : bool :=
  if (Rect3d.x newNode <? Rect3d.x usedRect + Rect3d.width usedRect)
     && (Rect3d.x usedRect <? Rect3d.x newNode + Rect3d.width newNode)
     && (Rect3d.y newNode <? Rect3d.y usedRect + Rect3d.height usedRect)
     && (Rect3d.y usedRect <? Rect3d.y newNode + Rect3d.height newNode)
  then Rect3d.z newNode <? Rect3d.z usedRect + Rect3d.depth usedRect
  else false.

Definition supportWidth (f : FreeRect3d.t) : Z := FreeRect3d.supportx1 f - FreeRect3d.supportx0 f.
Definition supportHeight (f : FreeRect3d.t) : Z := FreeRect3d.supporty1 f - FreeRect3d.supporty0 f.

(** The test of the upright branch of [FindPositionForNewNodeBottomLeft]. *)
Definition accepts_upright (f : FreeRect3d.t) (width height depth : Z) : bool :=
  (FreeRect3d.width f >=? width) && (FreeRect3d.height f >=? height)
  && (FreeRect3d.depth f >=? depth)
  && (supportHeight f >=? height * supportTh) && (supportWidth f >=? width * supportTh).

(** The test of the flipped branch. *)
Definition accepts_flipped (allowFlip : bool) (f : FreeRect3d.t) (width height depth : Z) : bool :=
  allowFlip && (FreeRect3d.width f >=? height) && (FreeRect3d.height f >=? width)
  && (FreeRect3d.depth f >=? depth)
  && (supportHeight f >=? width * supportTh) && (supportWidth f >=? height * supportTh).

(** The node both branches form: anchored at the support footprint. *)
Definition at_support_of (f : FreeRect3d.t) (width height depth : Z) : Rect3d.t :=
  Rect3d.mk (FreeRect3d.supportx0 f) (FreeRect3d.supporty0 f) (FreeRect3d.z f)
    width height depth.

(** The [for] loop of [FindPositionForNewNodeBottomLeft].  [blocked] is the
    local flag of the source: the upright branch does not reset it, the
    flipped branch does. *)
Fixpoint bottomLeft_loop (allowFlip : bool) (used : list Rect3d.t)
    (width height depth : Z) (l : list FreeRect3d.t) (blocked : bool) : Rect3d.t :=
  match l with
  | [] => zeroRect
  | f :: rest =>
      let upright := at_support_of f width height depth in
      let up := accepts_upright f width height depth in
      let blocked1 :=
        if up then blocked || existsb (fun u => isBlocked u upright) used else blocked in
      if up && negb blocked1 then upright
      else
        let flipped := at_support_of f height width depth in
        let fl := accepts_flipped allowFlip f width height depth in
        let blocked2 :=
          if fl then existsb (fun u => isBlocked u flipped) used else blocked1 in
        if fl && negb blocked2 then flipped
        else bottomLeft_loop allowFlip used width height depth rest blocked2
  end.

Definition FindPositionForNewNodeBottomLeft (s : t) (width height depth : Z) : Rect3d.t :=
  bottomLeft_loop (binAllowFlip s) (usedRectangles s) width height depth
    (freeRectangles s) false.

Definition set_y_top (f : FreeRect3d.t) (u : Rect3d.t) : FreeRect3d.t :=
  FreeRect3d.mk (FreeRect3d.x f) (FreeRect3d.y f) (FreeRect3d.z f)
    (FreeRect3d.width f) (Rect3d.y u - FreeRect3d.y f) (FreeRect3d.depth f)
    (FreeRect3d.supportx0 f) (FreeRect3d.supportx1 f)
    (FreeRect3d.supporty0 f) (Z.min (FreeRect3d.supporty1 f) (Rect3d.y u)).

Definition set_y_bottom (f : FreeRect3d.t) (u : Rect3d.t) : FreeRect3d.t :=
  FreeRect3d.mk (FreeRect3d.x f) (Rect3d.y u + Rect3d.height u) (FreeRect3d.z f)
    (FreeRect3d.width f)
    (FreeRect3d.y f + FreeRect3d.height f - (Rect3d.y u + Rect3d.height u))
    (FreeRect3d.depth f)
    (FreeRect3d.supportx0 f) (FreeRect3d.supportx1 f)
    (Z.max (FreeRect3d.supporty0 f) (Rect3d.y u + Rect3d.height u)) (FreeRect3d.supporty1 f).

Definition set_x_left (f : FreeRect3d.t) (u : Rect3d.t) : FreeRect3d.t :=
  FreeRect3d.mk (FreeRect3d.x f) (FreeRect3d.y f) (FreeRect3d.z f)
    (Rect3d.x u - FreeRect3d.x f) (FreeRect3d.height f) (FreeRect3d.depth f)
    (FreeRect3d.supportx0 f) (Z.min (FreeRect3d.supportx1 f) (Rect3d.x u))
    (FreeRect3d.supporty0 f) (FreeRect3d.supporty1 f).

Definition set_x_right (f : FreeRect3d.t) (u : Rect3d.t) : FreeRect3d.t :=
  FreeRect3d.mk (Rect3d.x u + Rect3d.width u) (FreeRect3d.y f) (FreeRect3d.z f)
    (FreeRect3d.x f + FreeRect3d.width f - (Rect3d.x u + Rect3d.width u))
    (FreeRect3d.height f) (FreeRect3d.depth f)
    (Z.max (FreeRect3d.supportx0 f) (Rect3d.x u + Rect3d.width u)) (FreeRect3d.supportx1 f)
    (FreeRect3d.supporty0 f) (FreeRect3d.supporty1 f).

Definition set_z_bottom (f : FreeRect3d.t) (u : Rect3d.t) : FreeRect3d.t :=
  FreeRect3d.mk (FreeRect3d.x f) (FreeRect3d.y f) (FreeRect3d.z f)
    (FreeRect3d.width f) (FreeRect3d.height f) (Rect3d.z u - FreeRect3d.z f)
    (FreeRect3d.supportx0 f) (FreeRect3d.supportx1 f)
    (FreeRect3d.supporty0 f) (FreeRect3d.supporty1 f).

Definition set_z_top (f : FreeRect3d.t) (u : Rect3d.t) : FreeRect3d.t :=
  FreeRect3d.mk (FreeRect3d.x f) (FreeRect3d.y f) (Rect3d.z u + Rect3d.depth u)
    (FreeRect3d.width f) (FreeRect3d.height f)
    (FreeRect3d.z f + FreeRect3d.depth f - (Rect3d.z u + Rect3d.depth u))
    (Rect3d.x u) (Rect3d.x u + Rect3d.width u)
    (Rect3d.y u) (Rect3d.y u + Rect3d.height u).

(** The separating-axis test at the head of [SplitFreeNode]. *)
Definition separated (freeNode : FreeRect3d.t) (usedNode : Rect3d.t) : bool :=
  (Rect3d.x usedNode >=? FreeRect3d.x freeNode + FreeRect3d.width freeNode)
  || (Rect3d.x usedNode + Rect3d.width usedNode <=? FreeRect3d.x freeNode)
  || (Rect3d.y usedNode >=? FreeRect3d.y freeNode + FreeRect3d.height freeNode)
  || (Rect3d.y usedNode + Rect3d.height usedNode <=? FreeRect3d.y freeNode)
  || (Rect3d.z usedNode >=? FreeRect3d.z freeNode + FreeRect3d.depth freeNode)
  || (Rect3d.z usedNode + Rect3d.depth usedNode <=? FreeRect3d.z freeNode).

(** [SplitFreeNode]: [None] when it returns false, otherwise the volumes it
    pushes, in the order of the pushes. *)
Definition SplitFreeNode (freeNode : FreeRect3d.t) (usedNode : Rect3d.t)
    : option (list FreeRect3d.t) :=
  if separated freeNode usedNode then None
  else Some (
    (if (Rect3d.y usedNode >? FreeRect3d.y freeNode)
        && (Rect3d.y usedNode <? FreeRect3d.y freeNode + FreeRect3d.height freeNode)
     then [set_y_top freeNode usedNode] else [])
    ++ (if Rect3d.y usedNode + Rect3d.height usedNode
           <? FreeRect3d.y freeNode + FreeRect3d.height freeNode
        then [set_y_bottom freeNode usedNode] else [])
    ++ (if (Rect3d.x usedNode >? FreeRect3d.x freeNode)
           && (Rect3d.x usedNode <? FreeRect3d.x freeNode + FreeRect3d.width freeNode)
        then [set_x_left freeNode usedNode] else [])
    ++ (if Rect3d.x usedNode + Rect3d.width usedNode
           <? FreeRect3d.x freeNode + FreeRect3d.width freeNode
        then [set_x_right freeNode usedNode] else [])
    ++ (if (Rect3d.z usedNode >? FreeRect3d.z freeNode)
           && (Rect3d.z usedNode <? FreeRect3d.z freeNode + FreeRect3d.depth freeNode)
        then [set_z_bottom freeNode usedNode] else [])
    ++ (if Rect3d.z usedNode + Rect3d.depth usedNode
           <? FreeRect3d.z freeNode + FreeRect3d.depth freeNode
        then [set_z_top freeNode usedNode] else [])).

(** The splitting loop of [Insert] over the free volumes present at its
    start: the ones it leaves in place and the ones pushed at the end. *)
Fixpoint split_loop (usedNode : Rect3d.t) (l : list FreeRect3d.t)
    : list FreeRect3d.t * list FreeRect3d.t :=
  match l with
  | [] => ([], [])
  | f :: rest =>
      let (kept, pushed) := split_loop usedNode rest in
      match SplitFreeNode f usedNode with
      | Some pieces => (kept, pieces ++ pushed)
      | None => (f :: kept, pushed)
      end
  end.

(** The inner loop of [PruneFreeList] for a fixed [i]: whether
    [freeRectangles[i]] stays, and the entries after it that are left. *)
Fixpoint prune_inner (fi : FreeRect3d.t) (l : list FreeRect3d.t)
    : bool * list FreeRect3d.t :=
  match l with
  | [] => (true, [])
  | fj :: rest =>
      if IsContainedInFree3d fi fj then (false, fj :: rest)
      else if IsContainedInFree3d fj fi then prune_inner fi rest
      else let (stays, l') := prune_inner fi rest in (stays, fj :: l')
  end.

(** The outer loop of [PruneFreeList]; every round settles one entry. *)
Fixpoint prune_outer (fuel : nat) (l : list FreeRect3d.t) : list FreeRect3d.t :=
  match fuel with
  | O => l
  | S fuel' =>
      match l with
      | [] => []
      | fi :: rest =>
          let (stays, rest') := prune_inner fi rest in
          if stays then fi :: prune_outer fuel' rest' else prune_outer fuel' rest'
      end
  end.

Definition PruneFreeList (free : list FreeRect3d.t) : list FreeRect3d.t :=
  prune_outer (length free) free.

(** [Insert]: the box returned and the packer afterwards.  The [switch] of
    the source has a case for [RectBottomLeftRule] only; under any other
    rule [newNode] is read uninitialised, and the model gives no result. *)
Definition Insert (s : t) (width height depth : Z) (method : FreeRectChoiceHeuristic)
    : option (Rect3d.t * t) :=
  let s1 := sortFreeSpace s in
  match method with
  | RectBottomLeftRule =>
      let newNode := FindPositionForNewNodeBottomLeft s1 width height depth in
      if Rect3d.height newNode =? 0 then Some (newNode, s1)
      else
        let (kept, pushed) := split_loop newNode (freeRectangles s1) in
        Some (newNode,
              mk (binWidth s) (binHeight s) (binDepth s) (binAllowFlip s)
                 (usedRectangles s ++ [newNode])
                 (PruneFreeList (kept ++ pushed)))
  | _ => None
  end.

(** The packer after a sequence of [Insert] calls under the bottom-left
    rule, each given by its (width, height, depth). *)
Fixpoint run (s : t) (sizes : list RectSize3d.t) : t :=
  match sizes with
  | [] => s
  | r :: rest =>
      match Insert s (RectSize3d.width r) (RectSize3d.height r) (RectSize3d.depth r)
              RectBottomLeftRule with
      | Some (_, s') => run s' rest
      | None => s
      end
  end.

End MaxRectsBinPack.

(** ** Invariants of the guillotine packer *)

Definition positive (r : Rect3d.t) : Prop :=
  0 < Rect3d.width r /\ 0 < Rect3d.height r /\ 0 < Rect3d.depth r.

(** The x-y footprints of [a] and [b] are separated along x or along y. *)
Definition xy_disjoint (a b : Rect3d.t) : Prop :=
  Rect3d.x a + Rect3d.width a <= Rect3d.x b
  \/ Rect3d.x b + Rect3d.width b <= Rect3d.x a
  \/ Rect3d.y a + Rect3d.height a <= Rect3d.y b
  \/ Rect3d.y b + Rect3d.height b <= Rect3d.y a.

(** The placed box [u] is beside the free volume [f], or ends below it. *)
Definition beside_or_below (f u : Rect3d.t) : Prop :=
  xy_disjoint u f \/ Rect3d.z u + Rect3d.depth u <= Rect3d.z f.

Definition disjoint (a b : Rect3d.t) : Prop :=
  DisjointRectCollection3d.Disjoint a b = true.

(** A free volume is in order with respect to the placed boxes [used]. *)
Definition free_ok (used : list Rect3d.t) (f : Rect3d.t) : Prop :=
  positive f /\ Forall (beside_or_below f) used.

(** The free volumes are non-degenerate columns with pairwise separated
    footprints, every placed box is beside or below every free volume, and
    the placed boxes are pairwise disjoint. *)
Record guillotine_inv (s : GuillotineBinPack3d.t) : Prop := {
  inv_free_ok : Forall (free_ok (GuillotineBinPack3d.usedRectangles s))
                  (GuillotineBinPack3d.freeRectangles s);
  inv_free_xy : pairwise xy_disjoint (GuillotineBinPack3d.freeRectangles s);
  inv_used_pos : Forall positive (GuillotineBinPack3d.usedRectangles s);
  inv_used : pairwise disjoint (GuillotineBinPack3d.usedRectangles s) }.

(** The volume the packer accounts for: free plus placed. *)
Definition total_volume (s : GuillotineBinPack3d.t) : Z :=
  GuillotineBinPack3d.sumZ (map GuillotineBinPack3d.volume (GuillotineBinPack3d.freeRectangles s))
  + GuillotineBinPack3d.placed_volume s.

(** The box [r] lies in the container of extents [W], [H], [D]. *)
Definition within (W H D : Z) (r : Rect3d.t) : Prop :=
  0 <= Rect3d.x r /\ 0 <= Rect3d.y r /\ 0 <= Rect3d.z r
  /\ Rect3d.x r + Rect3d.width r <= W
  /\ Rect3d.y r + Rect3d.height r <= H
  /\ Rect3d.z r + Rect3d.depth r <= D.

(** The box of extents (width, height, depth) fits the free volume [f],
    upright or with width and height exchanged. *)
Definition fits (width height depth : Z) (f : Rect3d.t) : bool :=
  GuillotineBinPack3d.fits_upright width height depth f
  || GuillotineBinPack3d.fits_sideways width height depth f.

(** The node [n] is a box of extents (width, height, depth), upright or
    with width and height exchanged, at the minimum corner of [f] and
    inside the footprint of [f]. *)
Definition placed_in_footprint (width height depth : Z) (f n : Rect3d.t) : Prop :=
  Rect3d.x n = Rect3d.x f /\ Rect3d.y n = Rect3d.y f /\ Rect3d.z n = Rect3d.z f
  /\ Rect3d.depth n = depth
  /\ ((Rect3d.width n = width /\ Rect3d.height n = height)
      \/ (Rect3d.width n = height /\ Rect3d.height n = width))
  /\ Rect3d.width n <= Rect3d.width f /\ Rect3d.height n <= Rect3d.height f.

(** What the batch [Insert] knows about its best choice while it scans
    [free] and [rects]: once a score is recorded, the indices are in range
    and the recorded orientation fits the footprint of the free volume. *)
Definition best_ok (free : list Rect3d.t) (rects : list RectSize3d.t)
    (b : GuillotineBinPack3d.best) : Prop :=
  GuillotineBinPack3d.bestScore b <= INT_MAX
  /\ (GuillotineBinPack3d.bestScore b < INT_MAX ->
      exists f r,
        nth_error free (GuillotineBinPack3d.bestFreeRect b) = Some f
        /\ nth_error rects (GuillotineBinPack3d.bestRect b) = Some r
        /\ if GuillotineBinPack3d.bestFlipped b
           then RectSize3d.height r <= Rect3d.width f /\ RectSize3d.width r <= Rect3d.height f
           else RectSize3d.width r <= Rect3d.width f /\ RectSize3d.height r <= Rect3d.height f).

(** The geometric part of the two tests of the max-rects search: the box
    fits the extent of [f], upright or (when flipping is allowed) flipped. *)
Definition maxrects_fits (allowFlip : bool) (width height depth : Z) (f : FreeRect3d.t) : bool :=
  ((FreeRect3d.width f >=? width) && (FreeRect3d.height f >=? height)
   && (FreeRect3d.depth f >=? depth))
  || (allowFlip && (FreeRect3d.width f >=? height) && (FreeRect3d.height f >=? width)
      && (FreeRect3d.depth f >=? depth)).

(** The packer after one box (2,2,2) in a 10 x 10 x 10 container. *)
Definition guillotine_one_box : GuillotineBinPack3d.t :=
  snd (GuillotineBinPack3d.Insert (GuillotineBinPack3d.Init 10 10 10) 2 2 2 false
         GuillotineBinPack3d.RectBestAreaFit GuillotineBinPack3d.SplitShorterLeftoverAxis).

(** ** Auxiliary notions of the proofs *)

(** [r] covers no more footprint than [a] and [b] together, as far as a
    volume of positive width and height can tell. *)
Definition xy_covered (a b r : Rect3d.t) : Prop :=
  forall k, 0 < Rect3d.width k -> 0 < Rect3d.height k ->
    xy_disjoint a k -> xy_disjoint b k -> xy_disjoint r k.

(** What the inner loop of [MergeFreeList] guarantees about its result [m]
    when it starts from the entry [ri] and the entries [rest] after it. *)
Definition merge_post (used : list Rect3d.t) (ri : Rect3d.t) (rest : list Rect3d.t)
    (m : Rect3d.t * list Rect3d.t) : Prop :=
  free_ok used (fst m)
  /\ incl (snd m) rest
  /\ pairwise xy_disjoint (snd m)
  /\ Forall (xy_disjoint (fst m)) (snd m)
  /\ (forall k, 0 < Rect3d.width k -> 0 < Rect3d.height k ->
        xy_disjoint ri k -> Forall (fun j => xy_disjoint j k) rest ->
        xy_disjoint (fst m) k).

(** A run of three calls, used to exercise the theorems on the guillotine
    packer. *)
Definition sample_calls : list GuillotineBinPack3d.op :=
  [GuillotineBinPack3d.InsertOne 2 3 4 true GuillotineBinPack3d.RectBestAreaFit
     GuillotineBinPack3d.SplitShorterLeftoverAxis;
   GuillotineBinPack3d.InsertMany [RectSize3d.mk 5 5 5] false
     GuillotineBinPack3d.RectWorstLongSideFit GuillotineBinPack3d.SplitMinimizeArea;
   GuillotineBinPack3d.InsertOne 5 8 6 true GuillotineBinPack3d.RectBestShortSideFit
     GuillotineBinPack3d.SplitLongerAxis].

(** The packer after one box (2,2,2) in a 10 x 10 x 10 container. *)
Definition one_small_box : MaxRectsBinPack.t :=
  MaxRectsBinPack.run (MaxRectsBinPack.Init 10 10 10 true) [RectSize3d.mk 2 2 2].

(** Three batch calls of one box each on a 10 x 10 x 10 container. *)
Definition three_batches : list GuillotineBinPack3d.op :=
  [GuillotineBinPack3d.InsertMany [RectSize3d.mk 5 5 10] false
     GuillotineBinPack3d.RectBestAreaFit GuillotineBinPack3d.SplitShorterLeftoverAxis;
   GuillotineBinPack3d.InsertMany [RectSize3d.mk 5 5 5] false
     GuillotineBinPack3d.RectBestAreaFit GuillotineBinPack3d.SplitShorterLeftoverAxis;
   GuillotineBinPack3d.InsertMany [RectSize3d.mk 5 5 8] false
     GuillotineBinPack3d.RectBestAreaFit GuillotineBinPack3d.SplitShorterLeftoverAxis].

(** What a run of single-box inserts keeps on a container W x H x D. *)
Definition single_inv (W H D : Z) (s : GuillotineBinPack3d.t) : Prop :=
  guillotine_inv s
  /\ total_volume s = W * H * D
  /\ GuillotineBinPack3d.binWidth s = W
  /\ GuillotineBinPack3d.binHeight s = H
  /\ GuillotineBinPack3d.binDepth s = D.

(** A non-degenerate volume inside the container. *)
Definition boxed (W H D : Z) (r : Rect3d.t) : Prop := positive r /\ within W H D r.

(** ** Free functions of the two packers *)

(** [Fits] of GuillotineBinPack3d.cpp: [r] fits inside [freeRect],
    possibly rotated. *)
Definition Fits (r : RectSize3d.t) (freeRect : Rect3d.t) : bool :=
  ((RectSize3d.width r <=? Rect3d.width freeRect)
   && (RectSize3d.height r <=? Rect3d.height freeRect)
   && (RectSize3d.depth r <=? Rect3d.depth freeRect))
  || ((RectSize3d.height r <=? Rect3d.width freeRect)
      && (RectSize3d.width r <=? Rect3d.height freeRect)
      && (RectSize3d.depth r <=? Rect3d.depth freeRect)).

(** [FitsPerfectly] of GuillotineBinPack3d.cpp. *)
Definition FitsPerfectly (r : RectSize3d.t) (freeRect : Rect3d.t) : bool :=
  ((RectSize3d.width r =? Rect3d.width freeRect)
   && (RectSize3d.height r =? Rect3d.height freeRect)
   && (RectSize3d.depth r =? Rect3d.depth freeRect))
  || ((RectSize3d.height r =? Rect3d.width freeRect)
      && (RectSize3d.width r =? Rect3d.height freeRect)
      && (RectSize3d.depth r =? Rect3d.depth freeRect)).

(** [CommonIntervalLength] of MaxRectsBinPack.cpp. *)
Definition CommonIntervalLength (i1start i1end i2start i2end : Z) : Z :=
  if (i1end <? i2start) || (i2end <? i1start) then 0
  else wrap_int (Z.min i1end i2end - Z.max i1start i2start).

(** ** Notions of the further properties *)

(** The free volume [f] has positive extents and lies in the container. *)
Definition free_boxed (W H D : Z) (f : FreeRect3d.t) : Prop :=
  0 < FreeRect3d.width f /\ 0 < FreeRect3d.height f /\ 0 < FreeRect3d.depth f
  /\ 0 <= FreeRect3d.x f /\ 0 <= FreeRect3d.y f /\ 0 <= FreeRect3d.z f
  /\ FreeRect3d.x f + FreeRect3d.width f <= W
  /\ FreeRect3d.y f + FreeRect3d.height f <= H
  /\ FreeRect3d.z f + FreeRect3d.depth f <= D.

(** The extent of [p] lies in the extent of [f], axis by axis. *)
Definition inside_free (f p : FreeRect3d.t) : Prop :=
  FreeRect3d.x f <= FreeRect3d.x p
  /\ FreeRect3d.x p + FreeRect3d.width p <= FreeRect3d.x f + FreeRect3d.width f
  /\ FreeRect3d.y f <= FreeRect3d.y p
  /\ FreeRect3d.y p + FreeRect3d.height p <= FreeRect3d.y f + FreeRect3d.height f
  /\ FreeRect3d.z f <= FreeRect3d.z p
  /\ FreeRect3d.z p + FreeRect3d.depth p <= FreeRect3d.z f + FreeRect3d.depth f.

(** The extent of [p] lies in the extent of [f], axis by axis. *)
Definition inside (f p : Rect3d.t) : Prop :=
  Rect3d.x f <= Rect3d.x p
  /\ Rect3d.x p + Rect3d.width p <= Rect3d.x f + Rect3d.width f
  /\ Rect3d.y f <= Rect3d.y p
  /\ Rect3d.y p + Rect3d.height p <= Rect3d.y f + Rect3d.height f
  /\ Rect3d.z f <= Rect3d.z p
  /\ Rect3d.z p + Rect3d.depth p <= Rect3d.z f + Rect3d.depth f.

(** [l'] is [l] with some entries left out, the others in their order. *)
Inductive sublist {A : Type} : list A -> list A -> Prop :=
  | sublist_nil : sublist [] []
  | sublist_skip (a : A) (l' l : list A) : sublist l' l -> sublist l' (a :: l)
  | sublist_keep (a : A) (l' l : list A) : sublist l' l -> sublist (a :: l') (a :: l).

(** A sequence of [Add] calls on a checker collection. *)
Definition add_all (rects : DisjointRectCollection3d.t) (rs : list Rect3d.t)
    : DisjointRectCollection3d.t :=
  fold_left (fun c r => snd (DisjointRectCollection3d.Add c r)) rs rects.

(** Two single-box inserts, the first with merge. *)
Definition two_inserts : list GuillotineBinPack3d.op :=
  [GuillotineBinPack3d.InsertOne 2 3 4 true GuillotineBinPack3d.RectBestAreaFit
     GuillotineBinPack3d.SplitShorterLeftoverAxis;
   GuillotineBinPack3d.InsertOne 5 8 6 false GuillotineBinPack3d.RectBestShortSideFit
     GuillotineBinPack3d.SplitLongerAxis].

(** A box placed for a requested size: same depth, width and height in
    this or the exchanged order. *)
Definition placed_for (r : RectSize3d.t) (p : Rect3d.t) : Prop :=
  Rect3d.depth p = RectSize3d.depth r
  /\ ((Rect3d.width p = RectSize3d.width r /\ Rect3d.height p = RectSize3d.height r)
      \/ (Rect3d.width p = RectSize3d.height r /\ Rect3d.height p = RectSize3d.width r)).

(** Neither volume is contained in the other. *)
Definition unrelated (a b : FreeRect3d.t) : Prop :=
  IsContainedInFree3d a b = false /\ IsContainedInFree3d b a = false.

(** No placed box of [used] meets the free volume [f], by the test at the
    head of [SplitFreeNode]. *)
Definition clear_of (used : list Rect3d.t) (f : FreeRect3d.t) : Prop :=
  Forall (fun u => MaxRectsBinPack.separated f u = true) used.

(** The max-rects packer after three boxes in a 10 x 10 x 10 container,
    without flipping, sorted as the next [Insert] sorts it. *)
Definition after_three_boxes : MaxRectsBinPack.t :=
  MaxRectsBinPack.sortFreeSpace
    (MaxRectsBinPack.run (MaxRectsBinPack.Init 10 10 10 false)
       [RectSize3d.mk 4 4 2; RectSize3d.mk 3 2 5; RectSize3d.mk 3 2 9]).

(** The placed box [u] starts in the container and ends below its top. *)
Definition based (D : Z) (u : Rect3d.t) : Prop :=
  0 <= Rect3d.x u /\ 0 <= Rect3d.y u /\ 0 <= Rect3d.z u
  /\ Rect3d.z u + Rect3d.depth u <= D.

(** The support corner of the free volume [f] has no negative coordinate. *)
Definition support_based (f : FreeRect3d.t) : Prop :=
  0 <= FreeRect3d.supportx0 f /\ 0 <= FreeRect3d.supporty0 f.






(** * Properties *)

(** ** Lists: [pairwise], [erase], [sort_by] *)

Section ListFacts.
Context {A : Type}.
Variable R : A -> A -> Prop.
Hypothesis R_sym : forall a b, R a b -> R b a.

Lemma pairwise_app (l1 l2 : list A) :
  pairwise R (l1 ++ l2) <->
  pairwise R l1 /\ pairwise R l2 /\ Forall (fun a => Forall (R a) l2) l1.
Proof.
  induction l1 as [|a l1 IH]; simpl.
  - intuition.
  - rewrite Forall_app, IH. split.
    + intros [[H1 H2] (H3 & H4 & H5)]. repeat split; auto.
    + intros [[H1 H2] [H3 H4]]. inversion H4; subst. repeat split; auto.
Qed.

Lemma pairwise_perm (l l' : list A) :
  Permutation l l' -> pairwise R l -> pairwise R l'.
Proof.
  induction 1 as [|a l l' HP IH|a b l|l l' l'' HP1 IH1 HP2 IH2]; simpl; auto.
  - intros [H1 H2]. split; auto.
    eapply Permutation_Forall; eauto.
  - intros [H1 [H2 H3]]. inversion H1; subst. repeat split; auto.
Qed.

Lemma pairwise_erase (l : list A) (i : nat) :
  pairwise R l -> pairwise R (erase l i).
Proof.
  revert i; induction l as [|a l IH]; intros [|i]; simpl; auto.
  - tauto.
  - intros [H1 H2]. split; auto.
    clear - H1. revert i. induction l as [|b l IH]; intros [|i]; simpl; auto.
    + inversion H1; auto.
    + inversion H1; subst. constructor; auto.
Qed.

Lemma pairwise_nth_erase (l : list A) (i : nat) (d : A) :
  (i < length l)%nat -> pairwise R l -> Forall (R (nth i l d)) (erase l i).
Proof.
  revert i; induction l as [|a l IH]; intros [|i]; simpl; try lia.
  - tauto.
  - intros Hi [H1 H2]. constructor.
    + apply R_sym. rewrite Forall_forall in H1. apply H1. apply nth_In. lia.
    + apply IH; auto. lia.
Qed.

End ListFacts.

Lemma erase_In {A : Type} (l : list A) (i : nat) (a : A) :
  In a (erase l i) -> In a l.
Proof.
  revert i; induction l as [|b l IH]; intros [|i]; simpl; auto.
  intros [H|H]; eauto.
Qed.

Lemma Forall_erase {A : Type} (P : A -> Prop) (l : list A) (i : nat) :
  Forall P l -> Forall P (erase l i).
Proof.
  rewrite !Forall_forall. intros H a Ha. apply H. eapply erase_In; eauto.
Qed.

Lemma erase_app_l {A : Type} (l l' : list A) (i : nat) :
  (i < length l)%nat -> erase (l ++ l') i = erase l i ++ l'.
Proof.
  revert i; induction l as [|a l IH]; intros [|i]; simpl; try lia; auto.
  intros Hi. rewrite IH; auto. lia.
Qed.

Lemma erase_perm {A : Type} (l : list A) (i : nat) (d : A) :
  (i < length l)%nat -> Permutation l (nth i l d :: erase l i).
Proof.
  revert i; induction l as [|a l IH]; intros [|i]; simpl; try lia; auto.
  intros Hi. rewrite perm_swap. constructor. apply IH. lia.
Qed.

Lemma insert_sorted_perm {A : Type} (lt : A -> A -> bool) (a : A) (l : list A) :
  Permutation (insert_sorted lt a l) (a :: l).
Proof.
  induction l as [|b l IH]; simpl; auto.
  destruct (lt a b); auto.
  rewrite IH. apply perm_swap.
Qed.

Lemma sort_by_perm {A : Type} (lt : A -> A -> bool) (l : list A) :
  Permutation (sort_by lt l) l.
Proof.
  unfold sort_by.
  assert (H : forall acc, Permutation (fold_left (fun acc a => insert_sorted lt a acc) l acc)
                            (acc ++ l)).
  { induction l as [|a l IH]; intros acc; simpl.
    - rewrite app_nil_r. reflexivity.
    - rewrite IH, insert_sorted_perm. apply Permutation_middle. }
  apply (H []).
Qed.

Lemma pairwiseb_spec {A : Type} (R : A -> A -> bool) (l : list A) :
  pairwiseb R l = true <-> pairwise (fun a b => R a b = true) l.
Proof.
  induction l as [|a l IH]; simpl.
  - tauto.
  - rewrite andb_true_iff, forallb_forall, Forall_forall, IH. tauto.
Qed.

Lemma pairwise_snoc {A : Type} (R : A -> A -> Prop) (l : list A) (a : A) :
  pairwise R l -> Forall (fun b => R b a) l -> pairwise R (l ++ [a]).
Proof.
  induction l as [|b l IH]; simpl.
  - auto.
  - intros [H1 H2] H3. inversion H3; subst. split; auto.
    apply Forall_app. auto.
Qed.

Lemma pairwise_nth {A : Type} (R : A -> A -> Prop) (l : list A) :
  pairwise R l ->
  forall i k a b, (i < k)%nat -> nth_error l i = Some a -> nth_error l k = Some b -> R a b.
Proof.
  induction l as [|c l IH]; intros Hp i k a b Hik Ha Hb.
  - destruct i; discriminate.
  - destruct Hp as [Hc Hl]. destruct k as [|k]; [lia|]. simpl in Hb.
    destruct i as [|i]; simpl in Ha.
    + injection Ha as <-. rewrite Forall_forall in Hc. apply Hc.
      eapply nth_error_In; eauto.
    + apply (IH Hl i k a b); [lia|exact Ha|exact Hb].
Qed.

(** *** The sort leaves an ordered list *)

Section SortFacts.

Context {A : Type} (lt : A -> A -> bool).
Hypothesis lt_asym : forall a b, lt a b = true -> lt b a = false.
Hypothesis lt_trans : forall a b c, lt a b = true -> lt b c = true -> lt a c = true.

Lemma insert_sorted_sorted (a : A) (l : list A) :
  sorted_by lt l -> sorted_by lt (insert_sorted lt a l).
Proof.
  unfold sorted_by. induction l as [|b t IH]; intros Hs; simpl.
  - split; [constructor|exact I].
  - destruct Hs as [Hb Ht]. destruct (lt a b) eqn:Eab.
    + split; [|split; assumption].
      constructor; [apply lt_asym; exact Eab|].
      eapply Forall_impl; [|exact Hb]. cbv beta. intros x Hx.
      destruct (lt x a) eqn:Exa; [|reflexivity].
      rewrite (lt_trans x a b Exa Eab) in Hx. discriminate.
    + split; [|apply IH; exact Ht].
      eapply Permutation_Forall; [apply Permutation_sym, insert_sorted_perm|].
      constructor; assumption.
Qed.

Lemma sort_by_sorted (l : list A) : sorted_by lt (sort_by lt l).
Proof.
  unfold sort_by.
  assert (H : forall acc, sorted_by lt acc ->
                sorted_by lt (fold_left (fun acc a => insert_sorted lt a acc) l acc)).
  { induction l as [|a l IH]; intros acc Hacc; simpl; [exact Hacc|].
    apply IH. apply insert_sorted_sorted. exact Hacc. }
  apply H. exact I.
Qed.

(** In an ordered list an entry strictly before [f] stands before [f]. *)
Lemma sorted_by_before (l : list A) (i : nat) (f g : A) :
  sorted_by lt l -> nth_error l i = Some f -> In g l -> lt g f = true ->
  exists k, (k < i)%nat /\ nth_error l k = Some g.
Proof.
  intros Hs Hf Hg Hlt. apply In_nth_error in Hg. destruct Hg as [k Hk].
  exists k. split; [|exact Hk].
  destruct (Nat.lt_trichotomy k i) as [Hki|[Hki|Hki]]; [exact Hki| |].
  - subst k. rewrite Hf in Hk. injection Hk as <-.
    rewrite (lt_asym _ _ Hlt) in Hlt. discriminate.
  - pose proof (pairwise_nth _ l Hs i k f g Hki Hf Hk) as Hfg. cbv beta in Hfg.
    rewrite Hfg in Hlt. discriminate.
Qed.

End SortFacts.

(** *** 32-bit and 64-bit values *)

Lemma wrap_int_small (z : Z) : INT_MIN <= z <= INT_MAX -> wrap_int z = z.
Proof.
  unfold wrap_int, INT_MIN, INT_MAX. intros H. rewrite Z.mod_small by lia. lia.
Qed.

Lemma wrap_int_range (z : Z) : INT_MIN <= wrap_int z <= INT_MAX.
Proof.
  unfold wrap_int, INT_MIN, INT_MAX.
  pose proof (Z.mod_pos_bound (z + 2147483648) 4294967296 ltac:(lia)). lia.
Qed.




(** ** Geometry of the guillotine split and merge *)

Ltac bool_to_prop :=
  repeat match goal with
  | H : _ && _ = true |- _ => apply andb_true_iff in H; destruct H
  | H : _ || _ = true |- _ => apply orb_true_iff in H
  | H : _ || _ = false |- _ => apply orb_false_iff in H; destruct H
  | H : negb _ = true |- _ => apply negb_true_iff in H
  | H : negb _ = false |- _ => apply negb_false_iff in H
  | H : (_ =? _) = true |- _ => apply Z.eqb_eq in H
  | H : (_ =? _) = false |- _ => apply Z.eqb_neq in H
  | H : (_ <=? _) = true |- _ => apply Z.leb_le in H
  | H : (_ <=? _) = false |- _ => apply Z.leb_gt in H
  | H : (_ <? _) = true |- _ => apply Z.ltb_lt in H
  | H : (_ <? _) = false |- _ => apply Z.ltb_ge in H
  | H : (_ >? _) = true |- _ => rewrite Z.gtb_ltb in H
  | H : (_ >? _) = false |- _ => rewrite Z.gtb_ltb in H
  | H : (_ >=? _) = true |- _ => rewrite Z.geb_leb in H
  | H : (_ >=? _) = false |- _ => rewrite Z.geb_leb in H
  end.

Lemma Disjoint_true_iff (a b : Rect3d.t) :
  disjoint a b <->
  Rect3d.x a + Rect3d.width a <= Rect3d.x b
  \/ Rect3d.x b + Rect3d.width b <= Rect3d.x a
  \/ Rect3d.y a + Rect3d.height a <= Rect3d.y b
  \/ Rect3d.y b + Rect3d.height b <= Rect3d.y a
  \/ Rect3d.z a + Rect3d.depth a <= Rect3d.z b
  \/ Rect3d.z b + Rect3d.depth b <= Rect3d.z a.
Proof.
  unfold disjoint, DisjointRectCollection3d.Disjoint.
  rewrite !orb_true_iff, !Z.leb_le. tauto.
Qed.

Lemma xy_disjoint_sym (a b : Rect3d.t) : xy_disjoint a b -> xy_disjoint b a.
Proof. unfold xy_disjoint. tauto. Qed.

Lemma disjoint_sym (a b : Rect3d.t) : disjoint a b -> disjoint b a.
Proof. rewrite !Disjoint_true_iff. tauto. Qed.

(** A volume inside the footprint of [f] and not lower than [f] inherits
    what [f] has against the placed boxes. *)
Lemma beside_or_below_inside (f g u : Rect3d.t) :
  Rect3d.x f <= Rect3d.x g -> Rect3d.x g + Rect3d.width g <= Rect3d.x f + Rect3d.width f ->
  Rect3d.y f <= Rect3d.y g -> Rect3d.y g + Rect3d.height g <= Rect3d.y f + Rect3d.height f ->
  Rect3d.z f <= Rect3d.z g ->
  beside_or_below f u -> beside_or_below g u.
Proof. unfold beside_or_below, xy_disjoint. lia. Qed.

Lemma xy_disjoint_inside (f g k : Rect3d.t) :
  Rect3d.x f <= Rect3d.x g -> Rect3d.x g + Rect3d.width g <= Rect3d.x f + Rect3d.width f ->
  Rect3d.y f <= Rect3d.y g -> Rect3d.y g + Rect3d.height g <= Rect3d.y f + Rect3d.height f ->
  xy_disjoint f k -> xy_disjoint g k.
Proof. unfold xy_disjoint. lia. Qed.

Section Split.
Variables (f n : Rect3d.t) (used : list Rect3d.t).
Variable method : GuillotineBinPack3d.GuillotineSplitHeuristic.
Hypothesis n_x : Rect3d.x n = Rect3d.x f.
Hypothesis n_y : Rect3d.y n = Rect3d.y f.
Hypothesis n_z : Rect3d.z n = Rect3d.z f.
Hypothesis n_pos : positive n.
Hypothesis n_w : Rect3d.width n <= Rect3d.width f.
Hypothesis n_h : Rect3d.height n <= Rect3d.height f.
Hypothesis f_ok : free_ok used f.

Let pieces := GuillotineBinPack3d.SplitFreeRectByHeuristic f n method.

Lemma split_pieces_cases (p : Rect3d.t) :
  In p pieces ->
  GuillotineBinPack3d.nondegenerate p = true /\
  (p = GuillotineBinPack3d.split_up f n
   \/ p = GuillotineBinPack3d.split_bottom f n (GuillotineBinPack3d.splitHorizontal_of f n method)
   \/ p = GuillotineBinPack3d.split_right f n (GuillotineBinPack3d.splitHorizontal_of f n method)).
Proof.
  unfold pieces, GuillotineBinPack3d.SplitFreeRectByHeuristic,
    GuillotineBinPack3d.SplitFreeRectAlongAxis, GuillotineBinPack3d.push_if_nondegenerate.
  rewrite !in_app_iff.
  intros [H|[H|H]];
    match type of H with
    | In _ (if ?c then _ else _) => destruct c eqn:E; simpl in H; [|tauto]
    end; destruct H as [ <- | [] ]; auto.
Qed.

Lemma nondegenerate_positive (p : Rect3d.t) :
  GuillotineBinPack3d.nondegenerate p = true -> positive p.
Proof.
  unfold GuillotineBinPack3d.nondegenerate, positive. intros H. bool_to_prop. lia.
Qed.

(** Every piece is inside the footprint of [f], not lower than [f], and
    beside or above the placed box. *)
Lemma split_piece_geometry (p : Rect3d.t) :
  In p pieces ->
  positive p
  /\ Rect3d.x f <= Rect3d.x p /\ Rect3d.x p + Rect3d.width p <= Rect3d.x f + Rect3d.width f
  /\ Rect3d.y f <= Rect3d.y p /\ Rect3d.y p + Rect3d.height p <= Rect3d.y f + Rect3d.height f
  /\ Rect3d.z f <= Rect3d.z p
  /\ beside_or_below p n.
Proof.
  intros Hp. destruct (split_pieces_cases p Hp) as [Hnd Hc].
  pose proof (nondegenerate_positive p Hnd) as Hpos.
  destruct n_pos as (Hw & Hh & Hd).
  split; [exact Hpos|].
  unfold positive in Hpos. unfold beside_or_below, xy_disjoint.
  destruct Hc as [ -> | [ -> | -> ] ];
    destruct (GuillotineBinPack3d.splitHorizontal_of f n method);
    simpl in *; lia.
Qed.

Lemma split_pieces_free_ok : Forall (free_ok (used ++ [n])) pieces.
Proof.
  apply Forall_forall. intros p Hp.
  destruct (split_piece_geometry p Hp) as (Hpos & Hx1 & Hx2 & Hy1 & Hy2 & Hz & Hn).
  split; [exact Hpos|].
  apply Forall_app. split.
  - destruct f_ok as [_ Hu]. eapply Forall_impl; [|exact Hu].
    intros u. apply beside_or_below_inside; auto.
  - constructor; auto.
Qed.

Lemma split_pieces_xy_other (k : Rect3d.t) :
  xy_disjoint f k -> Forall (fun p => xy_disjoint p k) pieces.
Proof.
  intros Hk. apply Forall_forall. intros p Hp.
  destruct (split_piece_geometry p Hp) as (Hpos & Hx1 & Hx2 & Hy1 & Hy2 & Hz & Hn).
  eapply xy_disjoint_inside; eauto.
Qed.

Lemma split_pieces_pairwise : pairwise xy_disjoint pieces.
Proof.
  unfold pieces, GuillotineBinPack3d.SplitFreeRectByHeuristic,
    GuillotineBinPack3d.SplitFreeRectAlongAxis, GuillotineBinPack3d.push_if_nondegenerate.
  destruct n_pos as (Hw & Hh & Hd).
  destruct (GuillotineBinPack3d.splitHorizontal_of f n method);
  repeat match goal with
  | |- context [if ?c then _ else _] => destruct c
  end; simpl;
  repeat match goal with
  | |- _ /\ _ => split
  | |- Forall _ (_ :: _) => apply Forall_cons
  | |- Forall _ [] => apply Forall_nil
  | |- True => exact I
  end; unfold xy_disjoint; simpl; lia.
Qed.

(** The placed box is beside or below every other free volume, and
    disjoint from every box placed before. *)
Lemma placed_beside_other (k : Rect3d.t) :
  xy_disjoint f k -> beside_or_below k n.
Proof.
  destruct n_pos as (Hw & Hh & Hd).
  unfold beside_or_below, xy_disjoint. lia.
Qed.

Lemma placed_disjoint_used : Forall (fun u => disjoint u n) used.
Proof.
  destruct f_ok as [_ Hu]. eapply Forall_impl; [|exact Hu].
  intros u. rewrite Disjoint_true_iff.
  destruct n_pos as (Hw & Hh & Hd).
  unfold beside_or_below, xy_disjoint. lia.
Qed.

End Split.

(** ** The merge step keeps the free volumes in order *)

Lemma covered_free_ok (used : list Rect3d.t) (a b r : Rect3d.t) :
  xy_covered a b r -> positive r ->
  Rect3d.z r = Rect3d.z a -> Rect3d.z a = Rect3d.z b ->
  Forall positive used -> free_ok used a -> free_ok used b -> free_ok used r.
Proof.
  intros Hc Hr Hz1 Hz2 Hu [_ Ha] [_ Hb]. split; auto.
  rewrite Forall_forall in *. intros u Hin.
  specialize (Ha u Hin). specialize (Hb u Hin). destruct (Hu u Hin) as (Hw & Hh & _).
  unfold beside_or_below in *.
  destruct Ha as [Ha|Ha]; [|right; lia].
  destruct Hb as [Hb|Hb]; [|right; lia].
  left. apply xy_disjoint_sym. apply Hc; auto using xy_disjoint_sym.
Qed.

Lemma covered_Forall (used : list Rect3d.t) (a b r : Rect3d.t) (l : list Rect3d.t) :
  xy_covered a b r -> Forall (free_ok used) l ->
  Forall (xy_disjoint a) l -> Forall (xy_disjoint b) l -> Forall (xy_disjoint r) l.
Proof.
  intros Hc Hl Ha Hb. rewrite Forall_forall in *. intros k Hin.
  destruct (Hl k Hin) as [(Hw & Hh & _) _]. apply Hc; auto.
Qed.

Lemma merge_post_keep (used : list Rect3d.t) (ri rj : Rect3d.t) (rest : list Rect3d.t)
    (m : Rect3d.t * list Rect3d.t) :
  free_ok used rj -> xy_disjoint ri rj -> Forall (xy_disjoint rj) rest ->
  merge_post used ri rest m ->
  merge_post used ri (rj :: rest) (let (r, l') := m in (r, rj :: l')).
Proof.
  intros [(Hw & Hh & _) _] Hij Hj (H1 & H2 & H3 & H4 & H5).
  destruct m as [r l']. simpl in *.
  assert (Hjl : Forall (xy_disjoint rj) l').
  { rewrite Forall_forall in *. auto. }
  unfold merge_post; simpl. split; [exact H1|].
  split; [apply incl_cons; [left; reflexivity | apply incl_tl; exact H2]|].
  split; [split; assumption|].
  split.
  - constructor; [|exact H4].
    apply H5; auto.
    eapply Forall_impl; [|exact Hj]. intros; apply xy_disjoint_sym; assumption.
  - intros k Hkw Hkh Hik Hk. inversion Hk; subst. apply H5; auto.
Qed.

Lemma merge_post_merged (used : list Rect3d.t) (ri rj r : Rect3d.t) (rest : list Rect3d.t) :
  Forall positive used ->
  free_ok used ri -> free_ok used rj -> Forall (free_ok used) rest ->
  Forall (xy_disjoint ri) rest -> Forall (xy_disjoint rj) rest ->
  xy_covered ri rj r -> positive r ->
  Rect3d.z r = Rect3d.z ri -> Rect3d.z ri = Rect3d.z rj ->
  (free_ok used r -> Forall (xy_disjoint r) rest ->
     merge_post used r rest (GuillotineBinPack3d.merge_inner r rest)) ->
  merge_post used ri (rj :: rest) (GuillotineBinPack3d.merge_inner r rest).
Proof.
  intros Hu Hri Hrj Hrest Hi Hj Hc Hr Hz1 Hz2 IH.
  assert (Hok : free_ok used r) by (eapply covered_free_ok; eauto).
  assert (Hxy : Forall (xy_disjoint r) rest) by (eapply covered_Forall; eauto).
  destruct (IH Hok Hxy) as (H1 & H2 & H3 & H4 & H5).
  unfold merge_post. split; [exact H1|].
    split; [apply incl_tl; exact H2|].
    split; [exact H3|]. split; [exact H4|].
    intros k Hkw Hkh Hik Hk. inversion Hk; subst. apply H5; auto.
Qed.

Lemma merge_inner_inv (used : list Rect3d.t) (l : list Rect3d.t) :
  Forall positive used ->
  forall ri,
  free_ok used ri -> Forall (free_ok used) l ->
  Forall (xy_disjoint ri) l -> pairwise xy_disjoint l ->
  merge_post used ri l (GuillotineBinPack3d.merge_inner ri l).
Proof.
  intros Hu. induction l as [|rj rest IH]; intros ri Hri Hl Hxy Hpw.
  - unfold merge_post; simpl.
    split; [exact Hri|]. split; [apply incl_nil_l|].
    split; [exact I|]. split; [constructor|]. auto.
  - inversion Hl as [|? ? Hrj Hrest]; subst.
    inversion Hxy as [|? ? Hij Hirest]; subst.
    destruct Hpw as [Hjrest Hpw].
    pose proof (merge_post_keep used ri rj rest _ Hrj Hij Hjrest
                  (IH ri Hri Hrest Hirest Hpw)) as Hkeep.
    pose proof Hri as [Hpi _]. pose proof Hrj as [Hpj _].
    simpl.
    repeat match goal with
    | |- context [if ?c then _ else _] => destruct c eqn:?
    end; bool_to_prop; try exact Hkeep;
    try (exfalso; unfold xy_disjoint, positive in *; lia);
    (apply merge_post_merged; auto;
     [ unfold xy_covered, xy_disjoint; simpl; intros; lia
     | unfold positive in *; simpl; lia ]).
Qed.

Lemma merge_outer_inv (used : list Rect3d.t) (fuel : nat) :
  Forall positive used ->
  forall l,
  Forall (free_ok used) l -> pairwise xy_disjoint l ->
  Forall (free_ok used) (GuillotineBinPack3d.merge_outer fuel l)
  /\ pairwise xy_disjoint (GuillotineBinPack3d.merge_outer fuel l)
  /\ (forall k, 0 < Rect3d.width k -> 0 < Rect3d.height k ->
        Forall (fun j => xy_disjoint j k) l ->
        Forall (fun j => xy_disjoint j k) (GuillotineBinPack3d.merge_outer fuel l)).
Proof.
  intros Hu. induction fuel as [|fuel IH]; intros l Hl Hpw; simpl; auto.
  destruct l as [|ri rest]; auto.
  inversion Hl as [|? ? Hri Hrest]; subst. destruct Hpw as [Hirest Hpw].
  pose proof (merge_inner_inv used rest Hu ri Hri Hrest Hirest Hpw) as Hm.
  destruct (GuillotineBinPack3d.merge_inner ri rest) as [r l'].
  destruct Hm as (H1 & H2 & H3 & H4 & H5). simpl in *.
  assert (Hl' : Forall (free_ok used) l').
  { rewrite Forall_forall in *. auto. }
  destruct (IH l' Hl' H3) as (H6 & H7 & H8).
  split; [constructor; auto|]. split.
  - split; auto.
    destruct H1 as [(Hw & Hh & _) _].
    eapply Forall_impl; [|apply (H8 r Hw Hh)].
    + intros; apply xy_disjoint_sym; assumption.
    + eapply Forall_impl; [|exact H4]. intros; apply xy_disjoint_sym; assumption.
  - intros k Hkw Hkh Hk. inversion Hk as [|? ? Hik Hkrest]; subst.
    constructor.
    + apply H5; auto.
    + apply H8; auto. rewrite Forall_forall in *. auto.
Qed.

(** ** Selection and placement in the guillotine packer *)

Lemma perfect_fits (w h d : Z) (f : Rect3d.t) :
  (GuillotineBinPack3d.perfect_upright w h d f = true ->
   GuillotineBinPack3d.fits_upright w h d f = true)
  /\ (GuillotineBinPack3d.perfect_sideways w h d f = true ->
      GuillotineBinPack3d.fits_sideways w h d f = true).
Proof.
  unfold GuillotineBinPack3d.perfect_upright, GuillotineBinPack3d.perfect_sideways,
    GuillotineBinPack3d.fits_upright, GuillotineBinPack3d.fits_sideways.
  split; intros H; bool_to_prop; rewrite !andb_true_iff, !Z.leb_le; lia.
Qed.

(** The loop of [FindPositionForNewNode] is a first-fit search. *)
Lemma find_loop_spec (w h d : Z) (l : list Rect3d.t) :
  forall i0,
  match GuillotineBinPack3d.find_loop w h d l i0 with
  | None => forall f, In f l -> fits w h d f = false
  | Some (n, i) =>
      (i0 <= i)%nat /\
      exists f, nth_error l (i - i0) = Some f
        /\ fits w h d f = true
        /\ (forall k g, (k < i - i0)%nat -> nth_error l k = Some g -> fits w h d g = false)
        /\ placed_in_footprint w h d f n
        /\ Rect3d.depth n <= Rect3d.depth f
  end.
Proof.
  induction l as [|f rest IH]; intros i0; simpl.
  - tauto.
  - pose proof (perfect_fits w h d f) as [Hpu Hps].
    assert (Hhere : forall n,
      fits w h d f = true -> placed_in_footprint w h d f n ->
      Rect3d.depth n <= Rect3d.depth f ->
      (i0 <= i0)%nat /\
      exists f0, nth_error (f :: rest) (i0 - i0) = Some f0
        /\ fits w h d f0 = true
        /\ (forall k g, (k < i0 - i0)%nat -> nth_error (f :: rest) k = Some g ->
              fits w h d g = false)
        /\ placed_in_footprint w h d f0 n
        /\ Rect3d.depth n <= Rect3d.depth f0).
    { intros n Hf Hn Hd. split; [lia|]. exists f. rewrite Nat.sub_diag. simpl.
      repeat split; auto; try apply Hn. intros; lia. }
    unfold fits in *.
    destruct (GuillotineBinPack3d.perfect_upright w h d f) eqn:E1.
    { apply Hhere; [rewrite Hpu; auto| |];
      unfold GuillotineBinPack3d.perfect_upright, placed_in_footprint in *;
      bool_to_prop; simpl; lia. }
    destruct (GuillotineBinPack3d.perfect_sideways w h d f) eqn:E2.
    { apply Hhere; [rewrite Hps; auto using orb_true_r| |];
      unfold GuillotineBinPack3d.perfect_sideways, placed_in_footprint in *;
      bool_to_prop; simpl; lia. }
    destruct (GuillotineBinPack3d.fits_upright w h d f) eqn:E3.
    { apply Hhere; [auto| |];
      unfold GuillotineBinPack3d.fits_upright, placed_in_footprint in *;
      bool_to_prop; simpl; lia. }
    destruct (GuillotineBinPack3d.fits_sideways w h d f) eqn:E4.
    { apply Hhere; [auto| |];
      unfold GuillotineBinPack3d.fits_sideways, placed_in_footprint in *;
      bool_to_prop; simpl; lia. }
    specialize (IH (S i0)).
    destruct (GuillotineBinPack3d.find_loop w h d rest (S i0)) as [[n i]|].
    + destruct IH as (Hi & g & Hg & Hfit & Hbefore & Hn & Hd).
      split; [lia|]. exists g.
      replace (i - i0)%nat with (S (i - S i0)) by lia. simpl.
      repeat split; auto; try apply Hn.
      intros [|k] g' Hk Hg'; simpl in Hg'.
      * inversion Hg'; subst. rewrite E3, E4. reflexivity.
      * eapply Hbefore; eauto. lia.
    + intros g [<-|Hg]; [rewrite E3, E4; reflexivity|auto].
Qed.

Lemma place_inv (s : GuillotineBinPack3d.t) (i : nat) (n : Rect3d.t) (merge : bool)
    (sm : GuillotineBinPack3d.GuillotineSplitHeuristic) (w h d : Z) :
  guillotine_inv s ->
  (i < length (GuillotineBinPack3d.freeRectangles s))%nat ->
  placed_in_footprint w h d (nth i (GuillotineBinPack3d.freeRectangles s) zeroRect) n ->
  positive n ->
  guillotine_inv (GuillotineBinPack3d.place s i n merge sm).
Proof.
  intros [Hok Hxy Hup Hu] Hi (Hx & Hy & Hz & _ & _ & Hw & Hh) Hpos.
  set (f := nth i (GuillotineBinPack3d.freeRectangles s) zeroRect) in *.
  assert (Hf : free_ok (GuillotineBinPack3d.usedRectangles s) f).
  { rewrite Forall_forall in Hok. apply Hok. apply nth_In. exact Hi. }
  assert (Hothers : Forall (xy_disjoint f)
                      (erase (GuillotineBinPack3d.freeRectangles s) i)).
  { apply pairwise_nth_erase; auto using xy_disjoint_sym. }
  assert (Hup' : Forall positive (GuillotineBinPack3d.usedRectangles s ++ [n])).
  { apply Forall_app. split; auto. }
  assert (Hfree :
    Forall (free_ok (GuillotineBinPack3d.usedRectangles s ++ [n]))
      (erase (GuillotineBinPack3d.freeRectangles s) i
       ++ GuillotineBinPack3d.SplitFreeRectByHeuristic f n sm)
    /\ pairwise xy_disjoint
      (erase (GuillotineBinPack3d.freeRectangles s) i
       ++ GuillotineBinPack3d.SplitFreeRectByHeuristic f n sm)).
  { split.
    - apply Forall_app. split.
      + pose proof (Forall_erase _ _ i Hok) as Hok'.
        rewrite Forall_forall in *. intros k Hk.
        destruct (Hok' k Hk) as [Hkpos Hku]. split; auto.
        apply Forall_app. split; auto. constructor; auto.
        eapply placed_beside_other; eauto.
      + eapply split_pieces_free_ok; eauto.
    - apply pairwise_app. split; [apply pairwise_erase; auto|].
      split; [eapply split_pieces_pairwise; eauto|].
      apply Forall_forall. intros k Hk.
      assert (Hfk : xy_disjoint f k).
      { rewrite Forall_forall in Hothers. auto. }
      eapply Forall_impl; [|eapply split_pieces_xy_other with (f := f) (n := n); eauto].
      intros; apply xy_disjoint_sym; assumption. }
  destruct Hfree as [Hfree1 Hfree2].
  unfold GuillotineBinPack3d.place. fold f.
  rewrite erase_app_l by exact Hi.
  assert (Hmerged :
    Forall (free_ok (GuillotineBinPack3d.usedRectangles s ++ [n]))
      (GuillotineBinPack3d.MergeFreeList
         (erase (GuillotineBinPack3d.freeRectangles s) i
          ++ GuillotineBinPack3d.SplitFreeRectByHeuristic f n sm))
    /\ pairwise xy_disjoint
      (GuillotineBinPack3d.MergeFreeList
         (erase (GuillotineBinPack3d.freeRectangles s) i
          ++ GuillotineBinPack3d.SplitFreeRectByHeuristic f n sm))).
  { unfold GuillotineBinPack3d.MergeFreeList.
    edestruct merge_outer_inv as (H1 & H2 & _); eauto. }
  destruct Hmerged as [Hm1 Hm2].
  constructor; simpl; auto.
  - destruct merge; auto.
  - destruct merge; auto.
  - apply pairwise_snoc; auto.
    eapply placed_disjoint_used; eauto.
Qed.

Lemma Init_inv (W H D : Z) :
  0 < W -> 0 < H -> 0 < D -> guillotine_inv (GuillotineBinPack3d.Init W H D).
Proof.
  intros HW HH HD. constructor; simpl; auto.
  constructor; auto. split; [unfold positive; simpl; lia | constructor].
Qed.

Lemma with_free_inv (s : GuillotineBinPack3d.t) (l : list Rect3d.t) :
  guillotine_inv s -> Permutation (GuillotineBinPack3d.freeRectangles s) l ->
  guillotine_inv (GuillotineBinPack3d.with_free s l).
Proof.
  intros [Hok Hxy Hup Hu] HP. constructor; simpl; auto.
  - eapply Permutation_Forall; eauto.
  - eapply pairwise_perm; eauto using xy_disjoint_sym.
Qed.

Lemma Insert_inv (s : GuillotineBinPack3d.t) (w h d : Z) (merge : bool)
    (rc : GuillotineBinPack3d.FreeRectChoiceHeuristic)
    (sm : GuillotineBinPack3d.GuillotineSplitHeuristic) :
  guillotine_inv s -> 0 < w -> 0 < h -> 0 < d ->
  guillotine_inv (snd (GuillotineBinPack3d.Insert s w h d merge rc sm)).
Proof.
  intros Hinv Hw Hh Hd.
  unfold GuillotineBinPack3d.Insert, GuillotineBinPack3d.FindPositionForNewNode.
  set (sorted := sort_by (GuillotineBinPack3d.sortFreeRectsByZ s)
                   (GuillotineBinPack3d.freeRectangles s)).
  assert (Hs : guillotine_inv (GuillotineBinPack3d.with_free s sorted)).
  { apply with_free_inv; auto. symmetry. apply sort_by_perm. }
  pose proof (find_loop_spec w h d sorted 0) as Hspec.
  destruct (GuillotineBinPack3d.find_loop w h d sorted 0) as [[n i]|]; simpl; auto.
  destruct (Rect3d.height n =? 0); simpl; auto.
  destruct Hspec as (_ & f & Hf & _ & _ & Hn & _).
  rewrite Nat.sub_0_r in Hf.
  eapply place_inv with (w := w) (h := h) (d := d); auto; simpl.
  - apply nth_error_Some. congruence.
  - rewrite (nth_error_nth _ _ zeroRect Hf). exact Hn.
  - destruct Hn as (_ & _ & _ & Hnd & Hwh & _). unfold positive. lia.
Qed.

(** *** The batch search records only choices that fit the footprint *)

Lemma batch_sideways_ok (free : list Rect3d.t) (rects : list RectSize3d.t)
    (fi : Rect3d.t) (i j : nat) (r : RectSize3d.t)
    (rc : GuillotineBinPack3d.FreeRectChoiceHeuristic) (b : GuillotineBinPack3d.best) :
  nth_error free i = Some fi -> nth_error rects j = Some r ->
  best_ok free rects b ->
  best_ok free rects (GuillotineBinPack3d.batch_sideways fi i j r rc b).
Proof.
  intros Hi Hj Hb. unfold GuillotineBinPack3d.batch_sideways.
  destruct (GuillotineBinPack3d.fits_sideways _ _ _ fi) eqn:E; auto.
  match goal with |- context [if ?c then _ else _] => destruct c eqn:E2 end; auto.
  unfold GuillotineBinPack3d.fits_sideways in E. bool_to_prop.
  destruct Hb as [Hb _]. split; simpl; [lia|].
  intros _. exists fi, r. auto.
Qed.

Lemma batch_inner_ok (free : list Rect3d.t) (rects : list RectSize3d.t)
    (rc : GuillotineBinPack3d.FreeRectChoiceHeuristic) (fi : Rect3d.t) (i : nat) :
  nth_error free i = Some fi ->
  forall rs j b b' flag,
  (forall k, nth_error rects (j + k) = nth_error rs k) ->
  best_ok free rects b ->
  GuillotineBinPack3d.batch_inner free rc fi i rs j b = GuillotineBinPack3d.Ok (b', flag) ->
  best_ok free rects b'.
Proof.
  intros Hi. induction rs as [|r rest IH]; intros j b b' flag Hidx Hb E; simpl in E.
  - inversion E; subst; auto.
  - assert (Hj : nth_error rects j = Some r).
    { specialize (Hidx O). rewrite Nat.add_0_r in Hidx. exact Hidx. }
    assert (Hidx' : forall k, nth_error rects (S j + k) = nth_error rest k).
    { intros k. specialize (Hidx (S k)). rewrite Nat.add_succ_r in Hidx. exact Hidx. }
    pose proof (batch_sideways_ok free rects fi i j r rc b Hi Hj Hb) as Hside.
    destruct (GuillotineBinPack3d.perfect_upright _ _ _ fi) eqn:E1.
    { inversion E; subst. unfold GuillotineBinPack3d.perfect_upright in E1. bool_to_prop.
      split; simpl; [unfold INT_MIN, INT_MAX; lia|]. intros _. exists fi, r.
      repeat split; auto; lia. }
    destruct (GuillotineBinPack3d.perfect_sideways _ _ _ fi) eqn:E2.
    { inversion E; subst. unfold GuillotineBinPack3d.perfect_sideways in E2. bool_to_prop.
      split; simpl; [unfold INT_MIN, INT_MAX; lia|]. intros _. exists fi, r.
      repeat split; auto; lia. }
    destruct ((RectSize3d.width r <=? Rect3d.width fi)
              && (RectSize3d.height r <=? Rect3d.height fi)) eqn:E3.
    + destruct (nth_error free j) as [fj|]; [|discriminate].
      destruct (RectSize3d.depth r <=? Rect3d.depth fj).
      * eapply IH; [exact Hidx'| |exact E].
        match goal with |- context [if ?c then _ else _] => destruct c eqn:E4 end; auto.
        bool_to_prop. destruct Hb as [Hb _]. split; simpl; [lia|].
        intros _. exists fi, r. auto.
      * eapply IH; eauto.
    + eapply IH; eauto.
Qed.

Lemma batch_outer_ok (free : list Rect3d.t) (rects : list RectSize3d.t)
    (rc : GuillotineBinPack3d.FreeRectChoiceHeuristic) :
  forall l i b b',
  (forall k, nth_error free (i + k) = nth_error l k) ->
  best_ok free rects b ->
  GuillotineBinPack3d.batch_outer free rc rects l i b = GuillotineBinPack3d.Ok b' ->
  best_ok free rects b'.
Proof.
  induction l as [|fi rest IH]; intros i b b' Hidx Hb E; simpl in E.
  - inversion E; subst; auto.
  - assert (Hi : nth_error free i = Some fi).
    { specialize (Hidx O). rewrite Nat.add_0_r in Hidx. exact Hidx. }
    destruct (GuillotineBinPack3d.batch_inner free rc fi i rects 0 b)
      as [[b1 flag]|] eqn:E1; [|discriminate].
    assert (Hb1 : best_ok free rects b1).
    { eapply (batch_inner_ok free rects rc fi i Hi rects 0%nat b b1 flag); auto. }
    destruct flag.
    + inversion E; subst; auto.
    + eapply IH; [|exact Hb1|exact E].
      intros k. specialize (Hidx (S k)). rewrite Nat.add_succ_r in Hidx. exact Hidx.
Qed.

Lemma forallb_erase {A : Type} (P : A -> bool) (l : list A) (i : nat) :
  forallb P l = true -> forallb P (erase l i) = true.
Proof.
  rewrite !forallb_forall. intros H a Ha. apply H. eapply erase_In; eauto.
Qed.

Lemma batch_while_inv (merge : bool) (rc : GuillotineBinPack3d.FreeRectChoiceHeuristic)
    (sm : GuillotineBinPack3d.GuillotineSplitHeuristic) (fuel : nat) :
  forall s rects b0 s' rects',
  guillotine_inv s ->
  forallb positive_size rects = true ->
  GuillotineBinPack3d.batch_while fuel s rects b0 merge rc sm
    = GuillotineBinPack3d.Ok (s', rects') ->
  guillotine_inv s'.
Proof.
  induction fuel as [|fuel IH]; intros s rects b0 s' rects' Hinv Hpos E; simpl in E.
  - inversion E; subst; auto.
  - destruct rects as [|r0 rects0]; [inversion E; subst; auto|].
    set (rects := r0 :: rects0) in *.
    match type of E with
    | match ?m with _ => _ end = _ => destruct m as [b|] eqn:Eb; [|discriminate]
    end.
    assert (Hb : best_ok (GuillotineBinPack3d.freeRectangles s) rects b).
    { eapply batch_outer_ok; [| |exact Eb].
      - intros k. reflexivity.
      - split; simpl; [lia|]. intros H; lia. }
    destruct (GuillotineBinPack3d.bestScore b =? INT_MAX) eqn:Es.
    { inversion E; subst; auto. }
    bool_to_prop. destruct Hb as [Hle Hb].
    destruct Hb as (f & r & Hf & Hr & Hfit); [lia|].
    rewrite (nth_error_nth _ _ zeroRect Hf) in E.
    rewrite (nth_error_nth _ _ (RectSize3d.mk 0 0 0) Hr) in E.
    assert (Hrpos : positive_size r = true).
    { rewrite forallb_forall in Hpos. apply Hpos. eapply nth_error_In; eauto. }
    unfold positive_size in Hrpos. bool_to_prop.
    eapply IH; [| |exact E].
    + eapply place_inv with (w := RectSize3d.width r) (h := RectSize3d.height r)
        (d := RectSize3d.depth r); auto.
      * apply nth_error_Some. congruence.
      * rewrite (nth_error_nth _ _ zeroRect Hf).
        unfold placed_in_footprint.
        destruct (GuillotineBinPack3d.bestFlipped b); simpl; lia.
      * unfold positive. destruct (GuillotineBinPack3d.bestFlipped b); simpl; lia.
    + apply forallb_erase. exact Hpos.
Qed.

(** Every call with positive extents keeps the invariant. *)
Lemma step_inv (s s' : GuillotineBinPack3d.t) (o : GuillotineBinPack3d.op) :
  guillotine_inv s -> GuillotineBinPack3d.positive_op o = true ->
  GuillotineBinPack3d.step s o = GuillotineBinPack3d.Ok s' -> guillotine_inv s'.
Proof.
  intros Hinv Hpos E. destruct o as [w h d merge rc sm|rects merge rc sm]; simpl in *.
  - inversion E; subst. bool_to_prop. apply Insert_inv; auto.
  - destruct (GuillotineBinPack3d.InsertBatch s rects merge rc sm) as [[s1 rest]|] eqn:E1;
      [|discriminate].
    inversion E; subst. eapply batch_while_inv; eauto.
Qed.

Lemma run_inv (ops : list GuillotineBinPack3d.op) :
  forall s s',
  guillotine_inv s -> forallb GuillotineBinPack3d.positive_op ops = true ->
  GuillotineBinPack3d.run s ops = GuillotineBinPack3d.Ok s' -> guillotine_inv s'.
Proof.
  induction ops as [|o ops IH]; intros s s' Hinv Hpos E; simpl in *.
  - inversion E; subst; auto.
  - bool_to_prop.
    destruct (GuillotineBinPack3d.step s o) as [s1|] eqn:E1; [|discriminate].
    eapply (IH s1); eauto. eapply step_inv; eauto.
Qed.

(** ** The max-rects packer accepts only unblocked nodes *)






(** ** Non-overlap of the placed boxes *)



(** ** The guillotine split *)

(** C7 (as stated, refuted).  A box of extents (2,2,2) placed into the
    free volume (0,0,0,10,10,10): the volume pushed above the box has the
    footprint of the box, 2 by 2, not the footprint of the free volume. *)
Lemma split_up_not_full_footprint :
  exists up,
    hd_error (GuillotineBinPack3d.SplitFreeRectAlongAxis
                (Rect3d.mk 0 0 0 10 10 10) (Rect3d.mk 0 0 0 2 2 2) true) = Some up
    /\ Rect3d.z up = 2
    /\ Rect3d.width up <> Rect3d.width (Rect3d.mk 0 0 0 10 10 10)
    /\ Rect3d.height up <> Rect3d.height (Rect3d.mk 0 0 0 10 10 10).
Proof.
  exists (Rect3d.mk 0 0 2 2 2 8). repeat split; simpl; discriminate.
Qed.

(** C7 (amended).  A box of positive extents, no wider and no higher than
    the free volume and less deep, is placed at its minimum corner.  The
    "up" volume is the first volume the split pushes; it starts at the x, y
    of the free volume, sits on top of the placed box in z, has the width
    and height of the placed box, and its depth is the depth of the free
    volume minus the depth of the placed box.  The volumes pushed after it
    (at most two, "bottom" and "right") keep the z and the full depth of
    the free volume, lie in its footprint beside the footprint of the box,
    and their footprints and the footprint of the box add up to the
    footprint of the free volume. *)
Theorem split_up_over_placed_box (freeRect placedRect : Rect3d.t) (splitHorizontal : bool) :
  positive placedRect ->
  Rect3d.width placedRect <= Rect3d.width freeRect ->
  Rect3d.height placedRect <= Rect3d.height freeRect ->
  Rect3d.depth placedRect < Rect3d.depth freeRect ->
  exists up rest,
    GuillotineBinPack3d.SplitFreeRectAlongAxis freeRect placedRect splitHorizontal = up :: rest
    /\ Rect3d.x up = Rect3d.x freeRect
    /\ Rect3d.y up = Rect3d.y freeRect
    /\ Rect3d.z up = Rect3d.z freeRect + Rect3d.depth placedRect
    /\ Rect3d.width up = Rect3d.width placedRect
    /\ Rect3d.height up = Rect3d.height placedRect
    /\ Rect3d.depth up = Rect3d.depth freeRect - Rect3d.depth placedRect
    /\ (length rest <= 2)%nat
    /\ Forall (fun p =>
                 Rect3d.z p = Rect3d.z freeRect
                 /\ Rect3d.depth p = Rect3d.depth freeRect
                 /\ 0 < Rect3d.width p /\ 0 < Rect3d.height p
                 /\ Rect3d.x freeRect <= Rect3d.x p
                 /\ Rect3d.x p + Rect3d.width p <= Rect3d.x freeRect + Rect3d.width freeRect
                 /\ Rect3d.y freeRect <= Rect3d.y p
                 /\ Rect3d.y p + Rect3d.height p <= Rect3d.y freeRect + Rect3d.height freeRect
                 /\ (Rect3d.x freeRect + Rect3d.width placedRect <= Rect3d.x p
                     \/ Rect3d.y freeRect + Rect3d.height placedRect <= Rect3d.y p)) rest
    /\ GuillotineBinPack3d.sumZ (map (fun p => Rect3d.width p * Rect3d.height p) rest)
       + Rect3d.width placedRect * Rect3d.height placedRect
       = Rect3d.width freeRect * Rect3d.height freeRect.
Proof.
  intros (Hw & Hh & Hd) Hfw Hfh Hfd.
  unfold GuillotineBinPack3d.SplitFreeRectAlongAxis, GuillotineBinPack3d.push_if_nondegenerate.
  assert (Hup : GuillotineBinPack3d.nondegenerate
                  (GuillotineBinPack3d.split_up freeRect placedRect) = true).
  { unfold GuillotineBinPack3d.nondegenerate. simpl.
    rewrite !andb_true_iff, !Z.gtb_lt. lia. }
  rewrite Hup.
  exists (GuillotineBinPack3d.split_up freeRect placedRect).
  eexists. split; [reflexivity|].
  do 6 (split; [reflexivity|]).
  unfold GuillotineBinPack3d.nondegenerate.
  destruct splitHorizontal; cbn [GuillotineBinPack3d.split_bottom GuillotineBinPack3d.split_right
                                 Rect3d.x Rect3d.y Rect3d.z Rect3d.width Rect3d.height
                                 Rect3d.depth];
    repeat match goal with
    | |- context [if ?c then _ else _] => destruct c eqn:?
    end; bool_to_prop;
    repeat match goal with
    | H : _ && _ = false |- _ => apply andb_false_iff in H; destruct H
    end; bool_to_prop;
    cbn [app length map GuillotineBinPack3d.sumZ fold_right
         Rect3d.x Rect3d.y Rect3d.z Rect3d.width Rect3d.height Rect3d.depth];
    (split; [lia|]);
    (split; [repeat (apply Forall_cons; [simpl; lia|]); apply Forall_nil | simpl; nia]).
Qed.

(** The theorem on a box (4,5,6) placed into the free volume (1,2,3,10,10,10). *)
Lemma split_up_over_placed_box_witness :
  exists up rest,
    GuillotineBinPack3d.SplitFreeRectAlongAxis
      (Rect3d.mk 1 2 3 10 10 10) (Rect3d.mk 1 2 3 4 5 6) false = up :: rest
    /\ Rect3d.x up = 1 /\ Rect3d.y up = 2 /\ Rect3d.z up = 3 + 6
    /\ Rect3d.width up = 4 /\ Rect3d.height up = 5 /\ Rect3d.depth up = 10 - 6
    /\ (length rest <= 2)%nat
    /\ Forall (fun p => Rect3d.z p = 3 /\ Rect3d.depth p = 10) rest.
Proof.
  destruct (split_up_over_placed_box (Rect3d.mk 1 2 3 10 10 10) (Rect3d.mk 1 2 3 4 5 6) false)
    as (up & rest & E & H1 & H2 & H3 & H4 & H5 & H6 & H7 & H8 & _).
  - unfold positive. simpl. lia.
  - simpl. lia.
  - simpl. lia.
  - simpl. lia.
  - exists up, rest. repeat (split; [assumption|]).
    eapply Forall_impl; [|exact H8]. cbv beta. simpl. intros p Hp. tauto.
Defined.

(** ** The support gate of the max-rects packer *)

(** C1 (the code at the failing input).  The threshold member is 0, so the
    gate only asks for a support footprint of non-negative extent: on top
    of a 2 x 2 x 2 box the packer accepts a 10 x 10 x 8 box, upright, from
    the free volume whose support footprint is 2 wide and 2 high, which is
    less than 0.8 of the width and of the height of the box. *)
Theorem support_gate_threshold_is_zero :
  MaxRectsBinPack.supportTh = 0
  /\ (forall f w h d,
        MaxRectsBinPack.accepts_upright f w h d =
        (FreeRect3d.width f >=? w) && (FreeRect3d.height f >=? h)
        && (FreeRect3d.depth f >=? d)
        && (MaxRectsBinPack.supportHeight f >=? 0)
        && (MaxRectsBinPack.supportWidth f >=? 0))
  /\ let f := FreeRect3d.mk 0 0 2 10 10 8 0 2 0 2 in
     In f (MaxRectsBinPack.freeRectangles one_small_box)
     /\ 10 * MaxRectsBinPack.supportWidth f < 8 * 10
     /\ 10 * MaxRectsBinPack.supportHeight f < 8 * 10
     /\ option_map fst
          (MaxRectsBinPack.Insert one_small_box 10 10 8 MaxRectsBinPack.RectBottomLeftRule)
        = Some (MaxRectsBinPack.at_support_of f 10 10 8).
Proof.
  split; [reflexivity|]. split.
  - intros f w h d. unfold MaxRectsBinPack.accepts_upright.
    change MaxRectsBinPack.supportTh with 0. rewrite !Z.mul_0_r. reflexivity.
  - vm_compute. repeat split; auto.
Qed.

(** ** Containment *)

(** C3 (the code at the failing input).  Max-rects packer, container
    10 x 10 x 10, boxes (8,10,5), (2,10,8), (10,10,2): the third box is put
    at the support origin x = 8 of a free volume that starts at x = 0, and
    ends at x = 18, outside the container. *)
Theorem maxrects_box_outside_container :
  let s := MaxRectsBinPack.run (MaxRectsBinPack.Init 10 10 10 true)
             [RectSize3d.mk 8 10 5; RectSize3d.mk 2 10 8; RectSize3d.mk 10 10 2] in
  MaxRectsBinPack.usedRectangles s
    = [Rect3d.mk 0 0 0 8 10 5; Rect3d.mk 8 0 0 2 10 8; Rect3d.mk 8 0 8 10 10 2]
  /\ ~ Forall (within 10 10 10) (MaxRectsBinPack.usedRectangles s).
Proof.
  vm_compute. split; [reflexivity|].
  intros H. inversion H as [|? ? _ H1]; subst. inversion H1 as [|? ? _ H2]; subst.
  inversion H2 as [|? ? H3 _]; subst.
  destruct H3 as (_ & _ & _ & Hx & _). apply Hx. reflexivity.
Qed.

(** ** The batch insert of the guillotine packer *)

(** C10 (the code at the failing input).  One free volume and two boxes
    that both pass the width and height tests: for the second box the
    depth comparison reads [freeRectangles[1]], past the end of the free
    list, whatever the merge flag and the two rules are. *)
Theorem batch_upright_test_reads_out_of_bounds (merge : bool)
    (rc : GuillotineBinPack3d.FreeRectChoiceHeuristic)
    (sm : GuillotineBinPack3d.GuillotineSplitHeuristic) :
  length (GuillotineBinPack3d.freeRectangles (GuillotineBinPack3d.Init 10 10 10)) = 1%nat
  /\ GuillotineBinPack3d.InsertBatch (GuillotineBinPack3d.Init 10 10 10)
       [RectSize3d.mk 2 2 2; RectSize3d.mk 3 3 3] merge rc sm
     = GuillotineBinPack3d.OutOfBounds.
Proof.
  split; [reflexivity|]. destruct merge, rc, sm; vm_compute; reflexivity.
Qed.

(** C6 (the code at the failing input).  The upright test of the batch
    insert compares the depth of the box with [freeRectangles[j]], here
    the free volume 0 of depth 10, while the box goes into the free volume
    1 of depth 5: a box of depth 8 is placed there, and free plus placed
    volume is 1075 in a container of volume 1000. *)
Theorem batch_breaks_volume_balance :
  exists s,
    GuillotineBinPack3d.run (GuillotineBinPack3d.Init 10 10 10) three_batches
      = GuillotineBinPack3d.Ok s
    /\ GuillotineBinPack3d.usedRectangles s
       = [Rect3d.mk 0 0 0 5 5 10; Rect3d.mk 5 0 0 5 5 5; Rect3d.mk 5 0 5 5 5 8]
    /\ GuillotineBinPack3d.freeRectangles s = [Rect3d.mk 0 5 0 10 5 10]
    /\ total_volume s = 1075
    /\ GuillotineBinPack3d.binWidth s * GuillotineBinPack3d.binHeight s
       * GuillotineBinPack3d.binDepth s = 1000.
Proof.
  eexists. split; [cbv; reflexivity|]. repeat split; reflexivity.
Qed.

(** ** Selection in the single-box insert of the guillotine packer *)

(** C4 (as stated, refuted).  After one box (2,2,2) in a 10 x 10 x 10
    container, a box (2,2,7) has no perfect fit; under [RectBestAreaFit]
    the free volume (0,0,2,2,2,8) fits upright with score 4, but the
    packer selects the free volume (2,0,0,8,2,10), of score 132. *)
Lemma insertOne_not_min_score :
  let '(s1, node, i) :=
    GuillotineBinPack3d.FindPositionForNewNode guillotine_one_box 2 2 7
      GuillotineBinPack3d.RectBestAreaFit in
  (forall f, In f (GuillotineBinPack3d.freeRectangles s1) ->
     GuillotineBinPack3d.perfect_upright 2 2 7 f = false
     /\ GuillotineBinPack3d.perfect_sideways 2 2 7 f = false)
  /\ nth_error (GuillotineBinPack3d.freeRectangles s1) i = Some (Rect3d.mk 2 0 0 8 2 10)
  /\ node = Rect3d.mk 2 0 0 2 2 7
  /\ GuillotineBinPack3d.ScoreByHeuristic 2 2 7 (Rect3d.mk 2 0 0 8 2 10)
       GuillotineBinPack3d.RectBestAreaFit = 132
  /\ In (Rect3d.mk 0 0 2 2 2 8) (GuillotineBinPack3d.freeRectangles s1)
  /\ GuillotineBinPack3d.fits_upright 2 2 7 (Rect3d.mk 0 0 2 2 2 8) = true
  /\ GuillotineBinPack3d.ScoreByHeuristic 2 2 7 (Rect3d.mk 0 0 2 2 2 8)
       GuillotineBinPack3d.RectBestAreaFit = 4.
Proof.
  vm_compute. split.
  - intros f [ <- | [ <- | [ <- | [] ] ] ]; split; reflexivity.
  - repeat split; auto.
Qed.

Lemma find_loop_orientation (w h d : Z) (l : list Rect3d.t) :
  forall i0 n i f,
  GuillotineBinPack3d.find_loop w h d l i0 = Some (n, i) ->
  nth_error l (i - i0) = Some f ->
  if GuillotineBinPack3d.fits_upright w h d f
  then Rect3d.width n = w /\ Rect3d.height n = h
  else Rect3d.width n = h /\ Rect3d.height n = w.
Proof.
  induction l as [|g rest IH]; intros i0 n i f E Hf; simpl in E; [discriminate|].
  pose proof (perfect_fits w h d g) as [Hpu Hps].
  assert (Hps' : GuillotineBinPack3d.perfect_upright w h d g = false ->
                 GuillotineBinPack3d.perfect_sideways w h d g = true ->
                 GuillotineBinPack3d.fits_upright w h d g = false).
  { unfold GuillotineBinPack3d.perfect_upright, GuillotineBinPack3d.perfect_sideways,
      GuillotineBinPack3d.fits_upright.
    intros H1 H2. bool_to_prop. subst.
    destruct (Z.eq_dec (Rect3d.width g) (Rect3d.height g)) as [e|ne].
    - rewrite e, !Z.eqb_refl in H1. discriminate.
    - rewrite !andb_false_iff, !Z.leb_gt. lia. }
  destruct (GuillotineBinPack3d.perfect_upright w h d g) eqn:E1;
    [|destruct (GuillotineBinPack3d.perfect_sideways w h d g) eqn:E2;
      [|destruct (GuillotineBinPack3d.fits_upright w h d g) eqn:E3;
        [|destruct (GuillotineBinPack3d.fits_sideways w h d g) eqn:E4]]];
    try (inversion E; subst; rewrite Nat.sub_diag in Hf; simpl in Hf;
         inversion Hf; subst; clear Hf).
  - rewrite Hpu by reflexivity. simpl. auto.
  - rewrite Hps' by reflexivity. simpl. auto.
  - rewrite E3. simpl. auto.
  - rewrite E3. simpl. auto.
  - pose proof (find_loop_spec w h d rest (S i0)) as Hspec. rewrite E in Hspec.
    destruct Hspec as [Hle _].
    replace (i - i0)%nat with (S (i - S i0)) in Hf by lia. simpl in Hf.
    eapply IH; eauto.
Qed.

Lemma sortFreeRectsByZ_asym (s : GuillotineBinPack3d.t) (a b : Rect3d.t) :
  GuillotineBinPack3d.sortFreeRectsByZ s a b = true ->
  GuillotineBinPack3d.sortFreeRectsByZ s b a = false.
Proof. unfold GuillotineBinPack3d.sortFreeRectsByZ. rewrite Z.ltb_lt, Z.ltb_ge. lia. Qed.

Lemma sortFreeRectsByZ_trans (s : GuillotineBinPack3d.t) (a b c : Rect3d.t) :
  GuillotineBinPack3d.sortFreeRectsByZ s a b = true ->
  GuillotineBinPack3d.sortFreeRectsByZ s b c = true ->
  GuillotineBinPack3d.sortFreeRectsByZ s a c = true.
Proof. unfold GuillotineBinPack3d.sortFreeRectsByZ. rewrite !Z.ltb_lt. lia. Qed.

(** C4 (amended).  The single-box search leaves the free list a
    permutation of what it was, ordered by the key x + y*W + z*W*H as the
    source evaluates it in [int], and selects the first free volume of
    that list that the box fits in either orientation: no entry before it
    fits, and no free volume with a smaller key fits, however the sort
    orders equal keys.  The node sits at the minimum corner of the
    selected volume, upright when the box fits upright and flipped
    otherwise.  When no free volume fits, the node is all zero.  The
    scoring rule is not consulted. *)
Theorem insertOne_selects_first_fit (s : GuillotineBinPack3d.t) (w h d : Z)
    (rc : GuillotineBinPack3d.FreeRectChoiceHeuristic) :
  let '(s1, node, i) := GuillotineBinPack3d.FindPositionForNewNode s w h d rc in
  Permutation (GuillotineBinPack3d.freeRectangles s1) (GuillotineBinPack3d.freeRectangles s)
  /\ sorted_by (GuillotineBinPack3d.sortFreeRectsByZ s) (GuillotineBinPack3d.freeRectangles s1)
  /\ GuillotineBinPack3d.usedRectangles s1 = GuillotineBinPack3d.usedRectangles s
  /\ (forall rc', GuillotineBinPack3d.FindPositionForNewNode s w h d rc' = (s1, node, i))
  /\ ((node = zeroRect
       /\ forall f, In f (GuillotineBinPack3d.freeRectangles s) -> fits w h d f = false)
      \/ exists f,
           nth_error (GuillotineBinPack3d.freeRectangles s1) i = Some f
           /\ fits w h d f = true
           /\ (forall k g, (k < i)%nat ->
                 nth_error (GuillotineBinPack3d.freeRectangles s1) k = Some g ->
                 fits w h d g = false)
           /\ (forall g, In g (GuillotineBinPack3d.freeRectangles s) ->
                 GuillotineBinPack3d.rect_hash_val s g < GuillotineBinPack3d.rect_hash_val s f ->
                 fits w h d g = false)
           /\ node = (if GuillotineBinPack3d.fits_upright w h d f
                      then GuillotineBinPack3d.at_origin_of f w h d
                      else GuillotineBinPack3d.at_origin_of f h w d)).
Proof.
  unfold GuillotineBinPack3d.FindPositionForNewNode.
  set (sorted := sort_by (GuillotineBinPack3d.sortFreeRectsByZ s)
                   (GuillotineBinPack3d.freeRectangles s)).
  assert (Hperm : Permutation sorted (GuillotineBinPack3d.freeRectangles s))
    by apply sort_by_perm.
  assert (Hsorted : sorted_by (GuillotineBinPack3d.sortFreeRectsByZ s) sorted).
  { apply sort_by_sorted; [apply sortFreeRectsByZ_asym|apply sortFreeRectsByZ_trans]. }
  pose proof (find_loop_spec w h d sorted 0) as Hspec.
  pose proof (find_loop_orientation w h d sorted 0) as Hor.
  destruct (GuillotineBinPack3d.find_loop w h d sorted 0) as [[n i]|];
    cbn [GuillotineBinPack3d.with_free GuillotineBinPack3d.freeRectangles
         GuillotineBinPack3d.usedRectangles].
  - split; [exact Hperm|]. split; [exact Hsorted|]. split; [reflexivity|].
    split; [reflexivity|]. right.
    destruct Hspec as (_ & f & Hf & Hfit & Hbefore & Hn & _).
    rewrite Nat.sub_0_r in *. exists f.
    split; [exact Hf|]. split; [exact Hfit|]. split; [exact Hbefore|]. split.
    + intros g Hg Hkey.
      destruct (sorted_by_before (GuillotineBinPack3d.sortFreeRectsByZ s)
                  (sortFreeRectsByZ_asym s) sorted i f g Hsorted Hf) as (k & Hk & Hgk).
      * eapply Permutation_in; [apply Permutation_sym; exact Hperm|exact Hg].
      * unfold GuillotineBinPack3d.sortFreeRectsByZ. apply Z.ltb_lt. exact Hkey.
      * eapply Hbefore; eauto.
    + specialize (Hor n i f eq_refl). rewrite Nat.sub_0_r in Hor. specialize (Hor Hf).
      destruct Hn as (Hx & Hy & Hz & Hd & _).
      destruct n as [nx ny nz nw nh nd]; simpl in *.
      unfold GuillotineBinPack3d.at_origin_of.
      destruct (GuillotineBinPack3d.fits_upright w h d f); destruct Hor; subst; reflexivity.
  - split; [exact Hperm|]. split; [exact Hsorted|]. split; [reflexivity|].
    split; [reflexivity|]. left. split; [reflexivity|].
    intros f Hf. apply Hspec.
    eapply Permutation_in; [apply Permutation_sym; exact Hperm|exact Hf].
Qed.

(** ** Inserts that place nothing *)

(** C5 (as stated, refuted).  After one box (2,2,2) in a 10 x 10 x 10
    container, a box (11,11,11) fits no free volume; the call returns the
    all-zero box and leaves the placed boxes alone, but the free list is
    left in sorted order, which is not the order it had. *)
Lemma no_fit_reorders_free_list :
  let call := GuillotineBinPack3d.Insert guillotine_one_box 11 11 11 false
                GuillotineBinPack3d.RectBestAreaFit
                GuillotineBinPack3d.SplitShorterLeftoverAxis in
  (forall f, In f (GuillotineBinPack3d.freeRectangles guillotine_one_box) ->
     fits 11 11 11 f = false)
  /\ fst call = zeroRect
  /\ GuillotineBinPack3d.freeRectangles guillotine_one_box
     = [Rect3d.mk 0 0 2 2 2 8; Rect3d.mk 0 2 0 10 8 10; Rect3d.mk 2 0 0 8 2 10]
  /\ GuillotineBinPack3d.freeRectangles (snd call)
     = [Rect3d.mk 2 0 0 8 2 10; Rect3d.mk 0 2 0 10 8 10; Rect3d.mk 0 0 2 2 2 8]
  /\ snd call <> guillotine_one_box.
Proof.
  vm_compute. split.
  - intros f [ <- | [ <- | [ <- | [] ] ] ]; reflexivity.
  - repeat split; auto. discriminate.
Qed.

Lemma find_loop_none (w h d : Z) (l : list Rect3d.t) (i0 : nat) :
  (forall f, In f l -> fits w h d f = false) ->
  GuillotineBinPack3d.find_loop w h d l i0 = None.
Proof.
  intros Hno. pose proof (find_loop_spec w h d l i0) as Hspec.
  destruct (GuillotineBinPack3d.find_loop w h d l i0) as [[n i]|]; auto.
  destruct Hspec as (_ & f & Hf & Hfit & _).
  rewrite Hno in Hfit by (eapply nth_error_In; eauto). discriminate.
Qed.

Lemma bottomLeft_loop_no_fit (flip : bool) (used : list Rect3d.t) (w h d : Z)
    (l : list FreeRect3d.t) :
  (forall f, In f l -> maxrects_fits flip w h d f = false) ->
  forall blocked, MaxRectsBinPack.bottomLeft_loop flip used w h d l blocked = zeroRect.
Proof.
  induction l as [|f rest IH]; intros Hno blocked; simpl; auto.
  assert (Hf : maxrects_fits flip w h d f = false) by (apply Hno; left; reflexivity).
  unfold maxrects_fits in Hf. apply orb_false_iff in Hf. destruct Hf as [Hu Hfl].
  unfold MaxRectsBinPack.accepts_upright, MaxRectsBinPack.accepts_flipped.
  rewrite Hu, Hfl. simpl. apply IH. intros g Hg. apply Hno. right. exact Hg.
Qed.

Lemma sortFreeSpace_lt_iff (a b : FreeRect3d.t) :
  MaxRectsBinPack.sortFreeSpace_lt a b = true <->
  FreeRect3d.y a < FreeRect3d.y b
  \/ (FreeRect3d.y a = FreeRect3d.y b /\ FreeRect3d.z a < FreeRect3d.z b)
  \/ (FreeRect3d.y a = FreeRect3d.y b /\ FreeRect3d.z a = FreeRect3d.z b
      /\ FreeRect3d.x a < FreeRect3d.x b).
Proof.
  unfold MaxRectsBinPack.sortFreeSpace_lt.
  repeat match goal with
  | |- context [if ?c then _ else _] => destruct c eqn:?
  end; bool_to_prop; split; intros; try discriminate; try reflexivity; try lia;
  repeat match goal with
  | H : _ && _ = false |- _ => apply andb_false_iff in H; destruct H
  end; bool_to_prop; lia.
Qed.

Lemma sortFreeSpace_lt_asym (a b : FreeRect3d.t) :
  MaxRectsBinPack.sortFreeSpace_lt a b = true -> MaxRectsBinPack.sortFreeSpace_lt b a = false.
Proof.
  intros H. apply not_true_iff_false. rewrite sortFreeSpace_lt_iff in *. lia.
Qed.

Lemma sortFreeSpace_lt_trans (a b c : FreeRect3d.t) :
  MaxRectsBinPack.sortFreeSpace_lt a b = true -> MaxRectsBinPack.sortFreeSpace_lt b c = true ->
  MaxRectsBinPack.sortFreeSpace_lt a c = true.
Proof. rewrite !sortFreeSpace_lt_iff. lia. Qed.

(** What [sortFreeSpace] leaves: the same packer with its free list
    permuted into the order of the comparator. *)
Lemma sortFreeSpace_spec (s : MaxRectsBinPack.t) :
  let s1 := MaxRectsBinPack.sortFreeSpace s in
  Permutation (MaxRectsBinPack.freeRectangles s1) (MaxRectsBinPack.freeRectangles s)
  /\ sorted_by MaxRectsBinPack.sortFreeSpace_lt (MaxRectsBinPack.freeRectangles s1)
  /\ MaxRectsBinPack.usedRectangles s1 = MaxRectsBinPack.usedRectangles s
  /\ MaxRectsBinPack.binWidth s1 = MaxRectsBinPack.binWidth s
  /\ MaxRectsBinPack.binHeight s1 = MaxRectsBinPack.binHeight s
  /\ MaxRectsBinPack.binDepth s1 = MaxRectsBinPack.binDepth s
  /\ MaxRectsBinPack.binAllowFlip s1 = MaxRectsBinPack.binAllowFlip s.
Proof.
  cbn. split; [apply sort_by_perm|]. split; [|repeat split].
  apply sort_by_sorted; [apply sortFreeSpace_lt_asym|apply sortFreeSpace_lt_trans].
Qed.

(** C5 (amended).  For either packer, a single-box insert with a size that
    fits no free volume returns the all-zero box and leaves the placed
    boxes and the container extents unchanged; the free list keeps its
    entries (it is a permutation of what it was) and is left ordered by
    the comparator of the packer's sort, so the order of its entries can
    change. *)
Theorem no_fit_returns_zero_and_sorts :
  (forall s w h d merge rc sm,
     (forall f, In f (GuillotineBinPack3d.freeRectangles s) -> fits w h d f = false) ->
     let r := GuillotineBinPack3d.Insert s w h d merge rc sm in
     fst r = zeroRect
     /\ GuillotineBinPack3d.usedRectangles (snd r) = GuillotineBinPack3d.usedRectangles s
     /\ GuillotineBinPack3d.binWidth (snd r) = GuillotineBinPack3d.binWidth s
     /\ GuillotineBinPack3d.binHeight (snd r) = GuillotineBinPack3d.binHeight s
     /\ GuillotineBinPack3d.binDepth (snd r) = GuillotineBinPack3d.binDepth s
     /\ Permutation (GuillotineBinPack3d.freeRectangles (snd r))
          (GuillotineBinPack3d.freeRectangles s)
     /\ sorted_by (GuillotineBinPack3d.sortFreeRectsByZ s)
          (GuillotineBinPack3d.freeRectangles (snd r)))
  /\ (forall s w h d,
        (forall f, In f (MaxRectsBinPack.freeRectangles s) ->
           maxrects_fits (MaxRectsBinPack.binAllowFlip s) w h d f = false) ->
        exists s',
          MaxRectsBinPack.Insert s w h d MaxRectsBinPack.RectBottomLeftRule
            = Some (zeroRect, s')
          /\ MaxRectsBinPack.usedRectangles s' = MaxRectsBinPack.usedRectangles s
          /\ MaxRectsBinPack.binWidth s' = MaxRectsBinPack.binWidth s
          /\ MaxRectsBinPack.binHeight s' = MaxRectsBinPack.binHeight s
          /\ MaxRectsBinPack.binDepth s' = MaxRectsBinPack.binDepth s
          /\ MaxRectsBinPack.binAllowFlip s' = MaxRectsBinPack.binAllowFlip s
          /\ Permutation (MaxRectsBinPack.freeRectangles s')
               (MaxRectsBinPack.freeRectangles s)
          /\ sorted_by MaxRectsBinPack.sortFreeSpace_lt (MaxRectsBinPack.freeRectangles s')).
Proof.
  split.
  - intros s w h d merge rc sm Hno r.
    assert (E : r = (zeroRect,
                     GuillotineBinPack3d.with_free s
                       (sort_by (GuillotineBinPack3d.sortFreeRectsByZ s)
                          (GuillotineBinPack3d.freeRectangles s)))).
    { unfold r, GuillotineBinPack3d.Insert, GuillotineBinPack3d.FindPositionForNewNode.
      rewrite find_loop_none; [reflexivity|].
      intros f Hf. apply Hno.
      eapply Permutation_in; [apply sort_by_perm|exact Hf]. }
    rewrite E. cbn. repeat split; try reflexivity; [apply sort_by_perm|].
    apply sort_by_sorted; [apply sortFreeRectsByZ_asym|apply sortFreeRectsByZ_trans].
  - intros s w h d Hno. exists (MaxRectsBinPack.sortFreeSpace s). split.
    + unfold MaxRectsBinPack.Insert, MaxRectsBinPack.FindPositionForNewNodeBottomLeft.
      rewrite bottomLeft_loop_no_fit; [reflexivity|].
      intros f Hf. apply Hno.
      eapply Permutation_in; [apply sort_by_perm|exact Hf].
    + pose proof (sortFreeSpace_spec s) as (H1 & H2 & H3 & H4 & H5 & H6 & H7).
      repeat split; assumption.
Qed.

(** The theorem on a box (11,11,11) in 10 x 10 x 10 containers: the
    guillotine packer after one box, the max-rects packer when empty. *)
Lemma no_fit_returns_zero_and_sorts_witness :
  (fst (GuillotineBinPack3d.Insert guillotine_one_box 11 11 11 false
          GuillotineBinPack3d.RectBestAreaFit GuillotineBinPack3d.SplitShorterLeftoverAxis)
   = zeroRect
   /\ sorted_by (GuillotineBinPack3d.sortFreeRectsByZ guillotine_one_box)
        (GuillotineBinPack3d.freeRectangles
           (snd (GuillotineBinPack3d.Insert guillotine_one_box 11 11 11 false
                   GuillotineBinPack3d.RectBestAreaFit
                   GuillotineBinPack3d.SplitShorterLeftoverAxis))))
  /\ exists s',
       MaxRectsBinPack.Insert (MaxRectsBinPack.Init 10 10 10 true) 11 11 11
         MaxRectsBinPack.RectBottomLeftRule = Some (zeroRect, s')
       /\ MaxRectsBinPack.usedRectangles s' = [].
Proof.
  split.
  - assert (Hno : forall f, In f (GuillotineBinPack3d.freeRectangles guillotine_one_box) ->
                    fits 11 11 11 f = false).
    { vm_compute. intros f [ <- | [ <- | [ <- | [] ] ] ]; reflexivity. }
    destruct (proj1 no_fit_returns_zero_and_sorts guillotine_one_box 11 11 11 false
                GuillotineBinPack3d.RectBestAreaFit
                GuillotineBinPack3d.SplitShorterLeftoverAxis Hno)
      as (H1 & _ & _ & _ & _ & _ & H2).
    split; [exact H1|exact H2].
  - assert (Hno : forall f,
                    In f (MaxRectsBinPack.freeRectangles (MaxRectsBinPack.Init 10 10 10 true)) ->
                    maxrects_fits
                      (MaxRectsBinPack.binAllowFlip (MaxRectsBinPack.Init 10 10 10 true))
                      11 11 11 f = false).
    { simpl. intros f [ <- | [] ]; reflexivity. }
    destruct (proj2 no_fit_returns_zero_and_sorts (MaxRectsBinPack.Init 10 10 10 true)
                11 11 11 Hno) as (s' & E & Hu & _).
    exists s'. split; [exact E|exact Hu].
Defined.

(** ** Degenerate volumes *)

(** C9 (as stated, refuted).  The pairwise predicate reports a box of zero
    width inside another box as overlapping it, and an insert request of
    zero width puts a degenerate box into the placed-box set (guillotine
    and max-rects alike). *)
Lemma degenerate_not_ignored :
  DisjointRectCollection3d.degenerate (Rect3d.mk 5 5 5 0 1 1) = true
  /\ DisjointRectCollection3d.Disjoint (Rect3d.mk 5 5 5 0 1 1) (Rect3d.mk 0 0 0 10 10 10)
     = false
  /\ GuillotineBinPack3d.usedRectangles
       (snd (GuillotineBinPack3d.Insert (GuillotineBinPack3d.Init 10 10 10) 0 5 5 false
               GuillotineBinPack3d.RectBestAreaFit
               GuillotineBinPack3d.SplitShorterLeftoverAxis))
     = [Rect3d.mk 0 0 0 0 5 5]
  /\ option_map (fun p => MaxRectsBinPack.usedRectangles (snd p))
       (MaxRectsBinPack.Insert (MaxRectsBinPack.Init 10 10 10 true) 0 5 5
          MaxRectsBinPack.RectBottomLeftRule)
     = Some [Rect3d.mk 0 0 0 0 5 5].
Proof. vm_compute. repeat split; reflexivity. Qed.

Lemma bottomLeft_loop_height (flip : bool) (used : list Rect3d.t) (w h d : Z)
    (l : list FreeRect3d.t) :
  forall blocked,
  let n := MaxRectsBinPack.bottomLeft_loop flip used w h d l blocked in
  Rect3d.height n = h \/ Rect3d.height n = w \/ Rect3d.height n = 0.
Proof.
  induction l as [|f rest IH]; intros blocked; simpl; auto.
  repeat match goal with
  | |- context [if ?c then _ else _] => destruct c
  end; simpl; auto; apply IH.
Qed.

Lemma snoc_neq {A : Type} (l : list A) (a : A) : l ++ [a] <> l.
Proof.
  intros E. apply (f_equal (@length A)) in E. rewrite length_app in E. simpl in E. lia.
Qed.

(** Without flipping the search returns an upright node or the all-zero
    box. *)
Lemma bottomLeft_loop_no_flip (used : list Rect3d.t) (w h d : Z) (l : list FreeRect3d.t) :
  forall blocked,
  let n := MaxRectsBinPack.bottomLeft_loop false used w h d l blocked in
  Rect3d.height n = h \/ n = zeroRect.
Proof.
  induction l as [|f rest IH]; intros blocked; cbn zeta; [right; reflexivity|].
  cbn [MaxRectsBinPack.bottomLeft_loop]. cbn zeta.
  unfold MaxRectsBinPack.accepts_flipped. cbn [andb].
  destruct (MaxRectsBinPack.accepts_upright f w h d && negb _).
  - left. reflexivity.
  - apply IH.
Qed.

(** When no accepted upright position is blocked and every free volume
    that accepts the box flipped accepts it upright, the search returns an
    upright node or the all-zero box. *)
Lemma bottomLeft_loop_upright (flip : bool) (used : list Rect3d.t) (w h d : Z)
    (l : list FreeRect3d.t) :
  (forall f, In f l -> MaxRectsBinPack.accepts_upright f w h d = true ->
     existsb (fun u => MaxRectsBinPack.isBlocked u (MaxRectsBinPack.at_support_of f w h d))
       used = false) ->
  (forall f, In f l -> MaxRectsBinPack.accepts_flipped flip f w h d = true ->
     MaxRectsBinPack.accepts_upright f w h d = true) ->
  let n := MaxRectsBinPack.bottomLeft_loop flip used w h d l false in
  Rect3d.height n = h \/ n = zeroRect.
Proof.
  induction l as [|f rest IH]; intros Hfree Hflip; cbn zeta; [right; reflexivity|].
  cbn [MaxRectsBinPack.bottomLeft_loop]. cbn zeta.
  destruct (MaxRectsBinPack.accepts_upright f w h d) eqn:Eu.
  - rewrite (Hfree f (or_introl eq_refl) Eu). cbn. left. reflexivity.
  - cbn [andb].
    destruct (MaxRectsBinPack.accepts_flipped flip f w h d) eqn:Ef.
    + rewrite (Hflip f (or_introl eq_refl) Ef) in Eu. discriminate.
    + cbn [andb]. apply IH; intros g Hg; [apply Hfree|apply Hflip]; right; exact Hg.
Qed.

(** C9 (amended).  The operations of the checker collection ignore a
    degenerate box: the member [Disjoint] answers true and [Add] succeeds
    without storing it.  In both packers a single-box insert places
    nothing exactly when the box the search returns has height zero.  A
    request of height zero places nothing whenever the search takes it
    upright: in the guillotine packer when its width is zero too, or when
    every free volume that the box fits sideways it also fits upright; in
    the max-rects packer when its width is zero too, when flipping is off,
    or when no placed box blocks an accepted upright position and every
    free volume that accepts the box flipped also accepts it upright. *)
Theorem degenerate_ignored_by_checker_and_flat_insert :
  (forall rects r,
     DisjointRectCollection3d.degenerate r = true ->
     DisjointRectCollection3d.DisjointFromAll rects r = true
     /\ DisjointRectCollection3d.Add rects r = (true, rects))
  /\ (forall s w h d merge rc sm,
        let n := fst (GuillotineBinPack3d.Insert s w h d merge rc sm) in
        let s' := snd (GuillotineBinPack3d.Insert s w h d merge rc sm) in
        (Rect3d.height n = 0
         <-> GuillotineBinPack3d.usedRectangles s' = GuillotineBinPack3d.usedRectangles s)
        /\ (h = 0 ->
            (w = 0
             \/ forall f, In f (GuillotineBinPack3d.freeRectangles s) ->
                  GuillotineBinPack3d.fits_sideways w h d f = true ->
                  GuillotineBinPack3d.fits_upright w h d f = true) ->
            GuillotineBinPack3d.usedRectangles s' = GuillotineBinPack3d.usedRectangles s))
  /\ (forall s w h d n s',
        MaxRectsBinPack.Insert s w h d MaxRectsBinPack.RectBottomLeftRule = Some (n, s') ->
        (Rect3d.height n = 0
         <-> MaxRectsBinPack.usedRectangles s' = MaxRectsBinPack.usedRectangles s)
        /\ (h = 0 ->
            (w = 0
             \/ MaxRectsBinPack.binAllowFlip s = false
             \/ ((forall f, In f (MaxRectsBinPack.freeRectangles s) ->
                    MaxRectsBinPack.accepts_upright f w h d = true ->
                    existsb (fun u => MaxRectsBinPack.isBlocked u
                                        (MaxRectsBinPack.at_support_of f w h d))
                      (MaxRectsBinPack.usedRectangles s) = false)
                 /\ (forall f, In f (MaxRectsBinPack.freeRectangles s) ->
                       MaxRectsBinPack.accepts_flipped (MaxRectsBinPack.binAllowFlip s)
                         f w h d = true ->
                       MaxRectsBinPack.accepts_upright f w h d = true))) ->
            MaxRectsBinPack.usedRectangles s' = MaxRectsBinPack.usedRectangles s)).
Proof.
  split; [|split].
  - intros rects r Hd.
    unfold DisjointRectCollection3d.DisjointFromAll, DisjointRectCollection3d.Add.
    rewrite Hd. split; reflexivity.
  - intros s w h d merge rc sm n s'.
    assert (Hiff : Rect3d.height n = 0
                   <-> GuillotineBinPack3d.usedRectangles s'
                       = GuillotineBinPack3d.usedRectangles s).
    { unfold n, s', GuillotineBinPack3d.Insert, GuillotineBinPack3d.FindPositionForNewNode.
      destruct (GuillotineBinPack3d.find_loop _ _ _ _ _) as [[m i]|]; cbn [fst snd].
      - destruct (Rect3d.height m =? 0) eqn:Eh; cbn [fst snd].
        + apply Z.eqb_eq in Eh. split; [reflexivity|intros _; exact Eh].
        + apply Z.eqb_neq in Eh. cbn. split; [intros H0; contradiction|].
          intros E. exfalso. exact (snoc_neq _ _ E).
      - rewrite Z.eqb_refl. cbn. split; reflexivity. }
    split; [exact Hiff|]. intros Hh Hcase. apply Hiff.
    unfold n, GuillotineBinPack3d.Insert, GuillotineBinPack3d.FindPositionForNewNode.
    set (sorted := sort_by _ _).
    pose proof (find_loop_spec w h d sorted 0) as Hspec.
    pose proof (find_loop_orientation w h d sorted 0) as Hor.
    destruct (GuillotineBinPack3d.find_loop w h d sorted 0) as [[m i]|];
      [|rewrite Z.eqb_refl; reflexivity].
    assert (Hm : Rect3d.height m = 0).
    { destruct Hspec as (_ & f & Hf & Hfit & _ & (_ & _ & _ & _ & Hwh & _) & _).
      rewrite Nat.sub_0_r in Hf.
      destruct Hcase as [Hw|Hside]; [lia|].
      specialize (Hor m i f eq_refl). rewrite Nat.sub_0_r in Hor. specialize (Hor Hf).
      destruct (GuillotineBinPack3d.fits_upright w h d f) eqn:Eu; [lia|].
      unfold fits in Hfit. rewrite Eu in Hfit. cbn [orb] in Hfit.
      rewrite (Hside f) in Eu; [discriminate| |exact Hfit].
      eapply Permutation_in; [apply sort_by_perm|]. eapply nth_error_In; eauto. }
    destruct (Rect3d.height m =? 0); exact Hm.
  - intros s w h d n s' E.
    assert (Hn : n = MaxRectsBinPack.FindPositionForNewNodeBottomLeft
                       (MaxRectsBinPack.sortFreeSpace s) w h d).
    { unfold MaxRectsBinPack.Insert in E.
      destruct (Rect3d.height _ =? 0); [injection E as <- _; reflexivity|].
      destruct (MaxRectsBinPack.split_loop _ _). injection E as <- _. reflexivity. }
    assert (Hiff : Rect3d.height n = 0
                   <-> MaxRectsBinPack.usedRectangles s' = MaxRectsBinPack.usedRectangles s).
    { unfold MaxRectsBinPack.Insert in E. rewrite <- Hn in E.
      destruct (Rect3d.height n =? 0) eqn:Eh.
      - apply Z.eqb_eq in Eh. injection E as <-. split; [reflexivity|intros _; exact Eh].
      - apply Z.eqb_neq in Eh. destruct (MaxRectsBinPack.split_loop _ _).
        injection E as <-. cbn. split; [intros H0; contradiction|].
        intros E'. exfalso. exact (snoc_neq _ _ E'). }
    split; [exact Hiff|]. intros Hh Hcase. apply Hiff. rewrite Hn.
    unfold MaxRectsBinPack.FindPositionForNewNodeBottomLeft.
    cbn [MaxRectsBinPack.sortFreeSpace MaxRectsBinPack.with_free
         MaxRectsBinPack.freeRectangles MaxRectsBinPack.usedRectangles
         MaxRectsBinPack.binAllowFlip].
    set (sorted := sort_by MaxRectsBinPack.sortFreeSpace_lt (MaxRectsBinPack.freeRectangles s)).
    destruct Hcase as [Hw|[Hflip|[Hfree Hup]]].
    + pose proof (bottomLeft_loop_height (MaxRectsBinPack.binAllowFlip s)
                    (MaxRectsBinPack.usedRectangles s) w h d sorted false) as H.
      cbn zeta in H. lia.
    + rewrite Hflip.
      pose proof (bottomLeft_loop_no_flip (MaxRectsBinPack.usedRectangles s) w h d sorted
                    false) as H.
      cbn zeta in H. destruct H as [H|H]; [lia|rewrite H; reflexivity].
    + pose proof (bottomLeft_loop_upright (MaxRectsBinPack.binAllowFlip s)
                    (MaxRectsBinPack.usedRectangles s) w h d sorted) as H.
      cbn zeta in H. destruct H as [H|H].
      * intros f Hf. apply Hfree. eapply Permutation_in; [apply sort_by_perm|exact Hf].
      * intros f Hf. apply Hup. eapply Permutation_in; [apply sort_by_perm|exact Hf].
      * lia.
      * rewrite H. reflexivity.
Qed.

(** The theorem on a box of zero width and a collection of one box, and on
    a request (5,0,5) in empty 10 x 10 x 10 containers. *)
Lemma degenerate_ignored_by_checker_and_flat_insert_witness :
  (DisjointRectCollection3d.DisjointFromAll [Rect3d.mk 0 0 0 10 10 10] (Rect3d.mk 5 5 5 0 1 1)
     = true
   /\ DisjointRectCollection3d.Add [Rect3d.mk 0 0 0 10 10 10] (Rect3d.mk 5 5 5 0 1 1)
      = (true, [Rect3d.mk 0 0 0 10 10 10]))
  /\ GuillotineBinPack3d.usedRectangles
       (snd (GuillotineBinPack3d.Insert (GuillotineBinPack3d.Init 10 10 10) 5 0 5 false
               GuillotineBinPack3d.RectBestAreaFit
               GuillotineBinPack3d.SplitShorterLeftoverAxis)) = []
  /\ (exists n s',
        MaxRectsBinPack.Insert (MaxRectsBinPack.Init 10 10 10 true) 5 0 5
          MaxRectsBinPack.RectBottomLeftRule = Some (n, s')
        /\ MaxRectsBinPack.usedRectangles s' = []).
Proof.
  split; [|split].
  - exact (proj1 degenerate_ignored_by_checker_and_flat_insert
             [Rect3d.mk 0 0 0 10 10 10] (Rect3d.mk 5 5 5 0 1 1) eq_refl).
  - refine (proj2 (proj1 (proj2 degenerate_ignored_by_checker_and_flat_insert)
                     (GuillotineBinPack3d.Init 10 10 10) 5 0 5 false
                     GuillotineBinPack3d.RectBestAreaFit
                     GuillotineBinPack3d.SplitShorterLeftoverAxis) eq_refl _).
    right. simpl. intros f [ <- | [] ] _. reflexivity.
  - eexists. eexists. split; [cbv; reflexivity|].
    refine (proj2 (proj2 (proj2 degenerate_ignored_by_checker_and_flat_insert)
                     (MaxRectsBinPack.Init 10 10 10 true) 5 0 5 _ _ eq_refl) eq_refl _).
    right. right. simpl. split; intros f [ <- | [] ] _; reflexivity.
Defined.

(** ** Volume balance of the single-box insert of the guillotine packer *)

Lemma sumZ_app (l1 l2 : list Z) :
  GuillotineBinPack3d.sumZ (l1 ++ l2)
  = GuillotineBinPack3d.sumZ l1 + GuillotineBinPack3d.sumZ l2.
Proof.
  induction l1 as [|a l1 IH]; simpl; [reflexivity|]. rewrite IH. ring.
Qed.

Lemma sum_volume_perm (l l' : list Rect3d.t) :
  Permutation l l' ->
  GuillotineBinPack3d.sumZ (map GuillotineBinPack3d.volume l)
  = GuillotineBinPack3d.sumZ (map GuillotineBinPack3d.volume l').
Proof.
  induction 1; simpl; try lia.
Qed.

Lemma push_volume (p : Rect3d.t) :
  0 <= Rect3d.width p -> 0 <= Rect3d.height p -> 0 <= Rect3d.depth p ->
  GuillotineBinPack3d.sumZ
    (map GuillotineBinPack3d.volume (GuillotineBinPack3d.push_if_nondegenerate p))
  = GuillotineBinPack3d.volume p.
Proof.
  intros Hw Hh Hd. unfold GuillotineBinPack3d.push_if_nondegenerate.
  destruct (GuillotineBinPack3d.nondegenerate p) eqn:E; simpl; [lia|].
  unfold GuillotineBinPack3d.nondegenerate in E. unfold GuillotineBinPack3d.volume.
  repeat (apply andb_false_iff in E; destruct E as [E|E]); bool_to_prop.
  - assert (Rect3d.width p = 0) as -> by lia. ring.
  - assert (Rect3d.height p = 0) as -> by lia. ring.
  - assert (Rect3d.depth p = 0) as -> by lia. ring.
Qed.

(** The pieces of a split and the placed box make up the free volume. *)
Lemma split_volume (f n : Rect3d.t) (sm : GuillotineBinPack3d.GuillotineSplitHeuristic) :
  positive n ->
  Rect3d.width n <= Rect3d.width f -> Rect3d.height n <= Rect3d.height f ->
  Rect3d.depth n <= Rect3d.depth f ->
  GuillotineBinPack3d.sumZ
    (map GuillotineBinPack3d.volume (GuillotineBinPack3d.SplitFreeRectByHeuristic f n sm))
  + GuillotineBinPack3d.volume n
  = GuillotineBinPack3d.volume f.
Proof.
  intros (Hw & Hh & Hd) Hfw Hfh Hfd.
  unfold GuillotineBinPack3d.SplitFreeRectByHeuristic,
    GuillotineBinPack3d.SplitFreeRectAlongAxis.
  rewrite !map_app, !sumZ_app.
  destruct (GuillotineBinPack3d.splitHorizontal_of f n sm);
    rewrite !push_volume by (simpl; lia);
    unfold GuillotineBinPack3d.volume; simpl; ring.
Qed.

Lemma merge_inner_volume (l : list Rect3d.t) :
  forall ri,
  GuillotineBinPack3d.volume (fst (GuillotineBinPack3d.merge_inner ri l))
  + GuillotineBinPack3d.sumZ
      (map GuillotineBinPack3d.volume (snd (GuillotineBinPack3d.merge_inner ri l)))
  = GuillotineBinPack3d.volume ri
    + GuillotineBinPack3d.sumZ (map GuillotineBinPack3d.volume l).
Proof.
  induction l as [|rj rest IH]; intros ri; simpl; [reflexivity|].
  assert (Hkeep :
    let keep := let (r, l') := GuillotineBinPack3d.merge_inner ri rest in (r, rj :: l') in
    GuillotineBinPack3d.volume (fst keep)
    + GuillotineBinPack3d.sumZ (map GuillotineBinPack3d.volume (snd keep))
    = GuillotineBinPack3d.volume ri
      + (GuillotineBinPack3d.volume rj
         + GuillotineBinPack3d.sumZ (map GuillotineBinPack3d.volume rest))).
  { specialize (IH ri). destruct (GuillotineBinPack3d.merge_inner ri rest) as [r l'].
    simpl in *. lia. }
  repeat match goal with
  | |- context [if ?c then _ else _] => destruct c eqn:?
  end; bool_to_prop; try exact Hkeep;
  rewrite IH; unfold GuillotineBinPack3d.volume; simpl;
  repeat match goal with
  | H : Rect3d.width ri = _ |- _ => rewrite H in *; clear H
  | H : Rect3d.height ri = _ |- _ => rewrite H in *; clear H
  | H : Rect3d.depth ri = _ |- _ => rewrite H in *; clear H
  end; ring.
Qed.

Lemma merge_outer_volume (fuel : nat) :
  forall l,
  GuillotineBinPack3d.sumZ (map GuillotineBinPack3d.volume
                              (GuillotineBinPack3d.merge_outer fuel l))
  = GuillotineBinPack3d.sumZ (map GuillotineBinPack3d.volume l).
Proof.
  induction fuel as [|fuel IH]; intros l; simpl; [reflexivity|].
  destruct l as [|ri rest]; [reflexivity|].
  pose proof (merge_inner_volume rest ri) as Hm.
  destruct (GuillotineBinPack3d.merge_inner ri rest) as [r l']. simpl in *.
  rewrite IH. lia.
Qed.

Lemma place_volume (s : GuillotineBinPack3d.t) (i : nat) (n : Rect3d.t) (merge : bool)
    (sm : GuillotineBinPack3d.GuillotineSplitHeuristic) :
  (i < length (GuillotineBinPack3d.freeRectangles s))%nat ->
  let f := nth i (GuillotineBinPack3d.freeRectangles s) zeroRect in
  positive n ->
  Rect3d.width n <= Rect3d.width f -> Rect3d.height n <= Rect3d.height f ->
  Rect3d.depth n <= Rect3d.depth f ->
  total_volume (GuillotineBinPack3d.place s i n merge sm) = total_volume s.
Proof.
  intros Hi f Hpos Hw Hh Hd.
  unfold total_volume, GuillotineBinPack3d.placed_volume, GuillotineBinPack3d.place.
  fold f. simpl. rewrite erase_app_l by exact Hi.
  assert (Hfree :
    GuillotineBinPack3d.sumZ (map GuillotineBinPack3d.volume
      (if merge
       then GuillotineBinPack3d.MergeFreeList
              (erase (GuillotineBinPack3d.freeRectangles s) i
               ++ GuillotineBinPack3d.SplitFreeRectByHeuristic f n sm)
       else erase (GuillotineBinPack3d.freeRectangles s) i
            ++ GuillotineBinPack3d.SplitFreeRectByHeuristic f n sm))
    = GuillotineBinPack3d.sumZ (map GuillotineBinPack3d.volume
        (erase (GuillotineBinPack3d.freeRectangles s) i))
      + GuillotineBinPack3d.sumZ (map GuillotineBinPack3d.volume
          (GuillotineBinPack3d.SplitFreeRectByHeuristic f n sm))).
  { destruct merge.
    - unfold GuillotineBinPack3d.MergeFreeList.
      rewrite merge_outer_volume, map_app, sumZ_app. reflexivity.
    - rewrite map_app, sumZ_app. reflexivity. }
  rewrite Hfree, map_app, sumZ_app. simpl.
  pose proof (split_volume f n sm Hpos Hw Hh Hd) as Hsplit.
  pose proof (sum_volume_perm _ _ (erase_perm (GuillotineBinPack3d.freeRectangles s) i
                                     zeroRect Hi)) as Hperm.
  simpl in Hperm. fold f in Hperm. lia.
Qed.

Lemma Insert_volume (s : GuillotineBinPack3d.t) (w h d : Z) (merge : bool)
    (rc : GuillotineBinPack3d.FreeRectChoiceHeuristic)
    (sm : GuillotineBinPack3d.GuillotineSplitHeuristic) :
  0 < w -> 0 < h -> 0 < d ->
  total_volume (snd (GuillotineBinPack3d.Insert s w h d merge rc sm)) = total_volume s.
Proof.
  intros Hw Hh Hd.
  unfold GuillotineBinPack3d.Insert, GuillotineBinPack3d.FindPositionForNewNode.
  set (sorted := sort_by (GuillotineBinPack3d.sortFreeRectsByZ s)
                   (GuillotineBinPack3d.freeRectangles s)).
  assert (Hs : total_volume (GuillotineBinPack3d.with_free s sorted) = total_volume s).
  { unfold total_volume, GuillotineBinPack3d.placed_volume, GuillotineBinPack3d.with_free.
    cbn [GuillotineBinPack3d.freeRectangles GuillotineBinPack3d.usedRectangles].
    unfold sorted. rewrite (sum_volume_perm _ _ (sort_by_perm _ _)). reflexivity. }
  pose proof (find_loop_spec w h d sorted 0) as Hspec.
  destruct (GuillotineBinPack3d.find_loop w h d sorted 0) as [[n i]|]; simpl; auto.
  destruct (Rect3d.height n =? 0); simpl; auto.
  destruct Hspec as (_ & f & Hf & _ & _ & Hn & Hnd).
  rewrite Nat.sub_0_r in Hf. rewrite <- Hs.
  destruct Hn as (_ & _ & _ & Hdn & Hwh & Hnw & Hnh).
  apply place_volume; simpl.
  - apply nth_error_Some. congruence.
  - unfold positive. lia.
  - rewrite (nth_error_nth _ _ zeroRect Hf). exact Hnw.
  - rewrite (nth_error_nth _ _ zeroRect Hf). exact Hnh.
  - rewrite (nth_error_nth _ _ zeroRect Hf). exact Hnd.
Qed.

(** ** Quotients and exact sums for the occupancy *)





Lemma Insert_bin (s : GuillotineBinPack3d.t) (w h d : Z) (merge : bool)
    (rc : GuillotineBinPack3d.FreeRectChoiceHeuristic)
    (sm : GuillotineBinPack3d.GuillotineSplitHeuristic) :
  let s' := snd (GuillotineBinPack3d.Insert s w h d merge rc sm) in
  GuillotineBinPack3d.binWidth s' = GuillotineBinPack3d.binWidth s
  /\ GuillotineBinPack3d.binHeight s' = GuillotineBinPack3d.binHeight s
  /\ GuillotineBinPack3d.binDepth s' = GuillotineBinPack3d.binDepth s.
Proof.
  unfold GuillotineBinPack3d.Insert, GuillotineBinPack3d.FindPositionForNewNode.
  destruct (GuillotineBinPack3d.find_loop _ _ _ _ _) as [[n i]|]; simpl; auto.
  destruct (Rect3d.height n =? 0); simpl; auto.
Qed.

Lemma Insert_used_grows (s : GuillotineBinPack3d.t) (w h d : Z) (merge : bool)
    (rc : GuillotineBinPack3d.FreeRectChoiceHeuristic)
    (sm : GuillotineBinPack3d.GuillotineSplitHeuristic) :
  0 < w -> 0 < h -> 0 < d ->
  GuillotineBinPack3d.placed_volume s
  <= GuillotineBinPack3d.placed_volume
       (snd (GuillotineBinPack3d.Insert s w h d merge rc sm)).
Proof.
  intros Hw Hh Hd.
  unfold GuillotineBinPack3d.Insert, GuillotineBinPack3d.FindPositionForNewNode.
  set (sorted := sort_by _ _).
  pose proof (find_loop_spec w h d sorted 0) as Hspec.
  unfold GuillotineBinPack3d.placed_volume.
  destruct (GuillotineBinPack3d.find_loop w h d sorted 0) as [[n i]|];
    [|apply Z.le_refl].
  destruct (Rect3d.height n =? 0); [apply Z.le_refl|].
  destruct Hspec as (_ & f & _ & _ & _ & (_ & _ & _ & Hnd & Hwh & _) & _).
  cbn [snd GuillotineBinPack3d.place GuillotineBinPack3d.usedRectangles
       GuillotineBinPack3d.with_free].
  rewrite map_app, sumZ_app.
  assert (Hn : 0 <= GuillotineBinPack3d.volume n).
  { unfold GuillotineBinPack3d.volume. nia. }
  cbn [map GuillotineBinPack3d.sumZ fold_right]. lia.
Qed.

Lemma single_step_inv (W H D : Z) (s s' : GuillotineBinPack3d.t) (o : GuillotineBinPack3d.op) :
  single_inv W H D s ->
  GuillotineBinPack3d.positive_op o = true -> GuillotineBinPack3d.is_InsertOne o = true ->
  GuillotineBinPack3d.step s o = GuillotineBinPack3d.Ok s' ->
  single_inv W H D s'
  /\ GuillotineBinPack3d.placed_volume s <= GuillotineBinPack3d.placed_volume s'.
Proof.
  intros (Hinv & Hvol & HW & HH & HD) Hpos Hone E.
  destruct o as [w h d merge rc sm|]; [|discriminate]. simpl in *.
  injection E as <-. bool_to_prop.
  pose proof (Insert_bin s w h d merge rc sm) as (Hb1 & Hb2 & Hb3).
  split; [|apply Insert_used_grows; assumption].
  split; [apply Insert_inv; assumption|].
  rewrite Insert_volume by assumption. repeat split; congruence.
Qed.

Lemma single_run_inv (W H D : Z) (ops : list GuillotineBinPack3d.op) :
  forall s s',
  single_inv W H D s ->
  forallb GuillotineBinPack3d.positive_op ops = true ->
  forallb GuillotineBinPack3d.is_InsertOne ops = true ->
  GuillotineBinPack3d.run s ops = GuillotineBinPack3d.Ok s' ->
  single_inv W H D s'.
Proof.
  induction ops as [|o ops IH]; intros s s' Hinv Hpos Hone E; simpl in *.
  - inversion E; subst; auto.
  - bool_to_prop.
    destruct (GuillotineBinPack3d.step s o) as [s1|] eqn:E1; [|discriminate].
    eapply (IH s1); eauto. eapply single_step_inv; eauto.
Qed.

(** *** Max-rects: the placed footprints *)




(** ** The loop bounds of the model are enough *)

Lemma merge_inner_length (l : list Rect3d.t) :
  forall ri, (length (snd (GuillotineBinPack3d.merge_inner ri l)) <= length l)%nat.
Proof.
  induction l as [|rj rest IH]; intros ri; simpl; [lia|].
  assert (Hkeep :
    (length (snd (let (r, l') := GuillotineBinPack3d.merge_inner ri rest in (r, rj :: l')))
     <= S (length rest))%nat).
  { specialize (IH ri). destruct (GuillotineBinPack3d.merge_inner ri rest). simpl in *. lia. }
  repeat match goal with
  | |- context [if ?c then _ else _] => destruct c
  end; try exact Hkeep;
  match goal with
  | |- (length (snd (GuillotineBinPack3d.merge_inner ?r rest)) <= _)%nat =>
      specialize (IH r); lia
  end.
Qed.

(** [MergeFreeList] runs its outer loop to the end of the list: more
    rounds than [length free] change nothing. *)
Lemma merge_outer_fuel (n : nat) :
  forall l fuel1 fuel2,
  (length l <= n)%nat -> (n <= fuel1)%nat -> (n <= fuel2)%nat ->
  GuillotineBinPack3d.merge_outer fuel1 l = GuillotineBinPack3d.merge_outer fuel2 l.
Proof.
  induction n as [|n IH]; intros l fuel1 fuel2 Hl H1 H2.
  - destruct l; [|simpl in Hl; lia]. destruct fuel1, fuel2; reflexivity.
  - destruct fuel1 as [|f1]; [lia|]. destruct fuel2 as [|f2]; [lia|].
    destruct l as [|ri rest]; [reflexivity|]. simpl.
    pose proof (merge_inner_length rest ri) as Hlen.
    destruct (GuillotineBinPack3d.merge_inner ri rest) as [r l']. simpl in *.
    f_equal. apply IH; lia.
Qed.

Lemma prune_inner_length (l : list FreeRect3d.t) :
  forall fi, (length (snd (MaxRectsBinPack.prune_inner fi l)) <= length l)%nat.
Proof.
  induction l as [|fj rest IH]; intros fi; simpl; [lia|].
  destruct (IsContainedInFree3d fi fj); [simpl; lia|].
  destruct (IsContainedInFree3d fj fi).
  - specialize (IH fi). lia.
  - specialize (IH fi). destruct (MaxRectsBinPack.prune_inner fi rest). simpl in *. lia.
Qed.

(** [PruneFreeList] likewise. *)
Lemma prune_outer_fuel (n : nat) :
  forall l fuel1 fuel2,
  (length l <= n)%nat -> (n <= fuel1)%nat -> (n <= fuel2)%nat ->
  MaxRectsBinPack.prune_outer fuel1 l = MaxRectsBinPack.prune_outer fuel2 l.
Proof.
  induction n as [|n IH]; intros l fuel1 fuel2 Hl H1 H2.
  - destruct l; [|simpl in Hl; lia]. destruct fuel1, fuel2; reflexivity.
  - destruct fuel1 as [|f1]; [lia|]. destruct fuel2 as [|f2]; [lia|].
    destruct l as [|fi rest]; [reflexivity|]. simpl.
    pose proof (prune_inner_length rest fi) as Hlen.
    destruct (MaxRectsBinPack.prune_inner fi rest) as [stays l']. simpl in *.
    destruct stays; [f_equal|]; apply IH; lia.
Qed.

Lemma erase_length {A : Type} (l : list A) (i : nat) :
  (i < length l)%nat -> length (erase l i) = pred (length l).
Proof.
  revert i; induction l as [|a l IH]; intros [|i]; simpl; try lia.
  intros Hi. rewrite IH by lia. destruct l; simpl in *; lia.
Qed.

(** The [while] loop of the batch insert ends within [length rects]
    rounds: every round that goes on erases one entry of [rects]. *)
Lemma batch_while_fuel (merge : bool) (rc : GuillotineBinPack3d.FreeRectChoiceHeuristic)
    (sm : GuillotineBinPack3d.GuillotineSplitHeuristic) (n : nat) :
  forall s rects b0 fuel1 fuel2,
  (length rects <= n)%nat -> (n <= fuel1)%nat -> (n <= fuel2)%nat ->
  GuillotineBinPack3d.batch_while fuel1 s rects b0 merge rc sm
  = GuillotineBinPack3d.batch_while fuel2 s rects b0 merge rc sm.
Proof.
  induction n as [|n IH]; intros s rects b0 fuel1 fuel2 Hl H1 H2.
  - destruct rects; [|simpl in Hl; lia]. destruct fuel1, fuel2; reflexivity.
  - destruct fuel1 as [|f1]; [lia|]. destruct fuel2 as [|f2]; [lia|].
    destruct rects as [|r0 rects0]; [reflexivity|].
    set (rects := r0 :: rects0) in *. cbn [GuillotineBinPack3d.batch_while].
    unfold rects at 1 3. cbv iota. fold rects.
    destruct (GuillotineBinPack3d.batch_outer (GuillotineBinPack3d.freeRectangles s) rc
                rects (GuillotineBinPack3d.freeRectangles s) 0 _) as [b|] eqn:Eb;
      [|reflexivity].
    assert (Hb : best_ok (GuillotineBinPack3d.freeRectangles s) rects b).
    { eapply batch_outer_ok; [| |exact Eb].
      - intros k. reflexivity.
      - split; simpl; [lia|]. intros H; lia. }
    destruct (GuillotineBinPack3d.bestScore b =? INT_MAX) eqn:Es; [reflexivity|].
    bool_to_prop. destruct Hb as [Hle Hb].
    destruct Hb as (f & r & Hf & Hr & _); [lia|].
    apply IH; try lia.
    rewrite erase_length by (apply nth_error_Some; congruence).
    simpl in Hl. unfold rects. simpl. lia.
Qed.

(** ** Containment and volume balance under single-box inserts (guillotine) *)

Lemma merge_inner_boxed (W H D : Z) (l : list Rect3d.t) :
  forall ri,
  boxed W H D ri -> Forall (boxed W H D) l ->
  boxed W H D (fst (GuillotineBinPack3d.merge_inner ri l))
  /\ Forall (boxed W H D) (snd (GuillotineBinPack3d.merge_inner ri l)).
Proof.
  induction l as [|rj rest IH]; intros ri Hri Hl; simpl; [auto|].
  inversion Hl as [|? ? Hrj Hrest]; subst.
  assert (Hkeep :
    let keep := let (r, l') := GuillotineBinPack3d.merge_inner ri rest in (r, rj :: l') in
    boxed W H D (fst keep) /\ Forall (boxed W H D) (snd keep)).
  { destruct (IH ri Hri Hrest) as [H1 H2].
    destruct (GuillotineBinPack3d.merge_inner ri rest). simpl in *. auto. }
  repeat match goal with
  | |- context [if ?c then _ else _] => destruct c eqn:?
  end; bool_to_prop; try exact Hkeep;
  (apply IH; [|exact Hrest]);
  destruct Hri as [(? & ? & ?) (? & ? & ? & ? & ? & ?)];
  destruct Hrj as [(? & ? & ?) (? & ? & ? & ? & ? & ?)];
  unfold boxed, positive, within; simpl; lia.
Qed.

Lemma merge_outer_boxed (W H D : Z) (fuel : nat) :
  forall l, Forall (boxed W H D) l ->
  Forall (boxed W H D) (GuillotineBinPack3d.merge_outer fuel l).
Proof.
  induction fuel as [|fuel IH]; intros l Hl; simpl; auto.
  destruct l as [|ri rest]; auto.
  inversion Hl as [|? ? Hri Hrest]; subst.
  destruct (merge_inner_boxed W H D rest ri Hri Hrest) as [H1 H2].
  destruct (GuillotineBinPack3d.merge_inner ri rest) as [r l']. simpl in *.
  constructor; auto.
Qed.

Lemma split_pieces_boxed (W H D : Z) (f n : Rect3d.t)
    (sm : GuillotineBinPack3d.GuillotineSplitHeuristic) :
  boxed W H D f -> positive n ->
  Rect3d.width n <= Rect3d.width f -> Rect3d.height n <= Rect3d.height f ->
  Rect3d.depth n <= Rect3d.depth f ->
  Forall (boxed W H D) (GuillotineBinPack3d.SplitFreeRectByHeuristic f n sm).
Proof.
  intros [_ (Hx & Hy & Hz & Hxw & Hyh & Hzd)] (Hnw & Hnh & Hnd) Hw Hh Hd.
  apply Forall_forall. intros p Hp.
  destruct (split_pieces_cases f n sm p Hp) as [Hnon Hc].
  split; [apply nondegenerate_positive; exact Hnon|].
  unfold within.
  destruct Hc as [ -> | [ -> | -> ] ];
    destruct (GuillotineBinPack3d.splitHorizontal_of f n sm); simpl; lia.
Qed.

Lemma place_boxed (W H D : Z) (s : GuillotineBinPack3d.t) (i : nat) (n : Rect3d.t)
    (merge : bool) (sm : GuillotineBinPack3d.GuillotineSplitHeuristic) (w h d : Z) :
  Forall (boxed W H D) (GuillotineBinPack3d.freeRectangles s) ->
  Forall (within W H D) (GuillotineBinPack3d.usedRectangles s) ->
  (i < length (GuillotineBinPack3d.freeRectangles s))%nat ->
  let f := nth i (GuillotineBinPack3d.freeRectangles s) zeroRect in
  placed_in_footprint w h d f n -> Rect3d.depth n <= Rect3d.depth f -> positive n ->
  Forall (boxed W H D) (GuillotineBinPack3d.freeRectangles
                          (GuillotineBinPack3d.place s i n merge sm))
  /\ Forall (within W H D) (GuillotineBinPack3d.usedRectangles
                              (GuillotineBinPack3d.place s i n merge sm)).
Proof.
  intros Hfree Hused Hi f (Hx & Hy & Hz & _ & _ & Hw & Hh) Hd Hpos.
  assert (Hf : boxed W H D f).
  { rewrite Forall_forall in Hfree. apply Hfree. apply nth_In. exact Hi. }
  unfold GuillotineBinPack3d.place. fold f. rewrite erase_app_l by exact Hi.
  cbn [GuillotineBinPack3d.freeRectangles GuillotineBinPack3d.usedRectangles].
  assert (Hall : Forall (boxed W H D)
                   (erase (GuillotineBinPack3d.freeRectangles s) i
                    ++ GuillotineBinPack3d.SplitFreeRectByHeuristic f n sm)).
  { apply Forall_app. split; [apply Forall_erase; exact Hfree|].
    apply split_pieces_boxed; auto. }
  split.
  - destruct merge; [apply merge_outer_boxed|]; exact Hall.
  - apply Forall_app. split; [exact Hused|]. constructor; [|constructor].
    destruct Hf as [_ (? & ? & ? & ? & ? & ?)]. destruct Hpos as (? & ? & ?).
    unfold within. lia.
Qed.

Lemma Insert_boxed (W H D : Z) (s : GuillotineBinPack3d.t) (w h d : Z) (merge : bool)
    (rc : GuillotineBinPack3d.FreeRectChoiceHeuristic)
    (sm : GuillotineBinPack3d.GuillotineSplitHeuristic) :
  0 < w -> 0 < h -> 0 < d ->
  Forall (boxed W H D) (GuillotineBinPack3d.freeRectangles s) ->
  Forall (within W H D) (GuillotineBinPack3d.usedRectangles s) ->
  Forall (boxed W H D)
    (GuillotineBinPack3d.freeRectangles (snd (GuillotineBinPack3d.Insert s w h d merge rc sm)))
  /\ Forall (within W H D)
       (GuillotineBinPack3d.usedRectangles
          (snd (GuillotineBinPack3d.Insert s w h d merge rc sm))).
Proof.
  intros Hw Hh Hd Hfree Hused.
  unfold GuillotineBinPack3d.Insert, GuillotineBinPack3d.FindPositionForNewNode.
  set (sorted := sort_by (GuillotineBinPack3d.sortFreeRectsByZ s)
                   (GuillotineBinPack3d.freeRectangles s)).
  assert (Hsorted : Forall (boxed W H D) sorted).
  { eapply Permutation_Forall; [|exact Hfree]. symmetry. apply sort_by_perm. }
  pose proof (find_loop_spec w h d sorted 0) as Hspec.
  destruct (GuillotineBinPack3d.find_loop w h d sorted 0) as [[n i]|];
    [|split; assumption].
  destruct (Rect3d.height n =? 0); [split; assumption|].
  destruct Hspec as (_ & f & Hf & _ & _ & Hn & Hnd).
  rewrite Nat.sub_0_r in Hf. cbn [snd].
  apply place_boxed with (w := w) (h := h) (d := d); cbn; auto.
  - apply nth_error_Some. congruence.
  - rewrite (nth_error_nth _ _ zeroRect Hf). exact Hn.
  - rewrite (nth_error_nth _ _ zeroRect Hf). exact Hnd.
  - destruct Hn as (_ & _ & _ & Hdn & Hwh & _). unfold positive. lia.
Qed.

(** Under single-box inserts with positive extents the guillotine packer
    keeps every placed box inside the container, and free plus placed
    volume equal to the volume of the container. *)
Theorem guillotine_single_inserts_contained_and_balanced (W H D : Z) :
  0 < W -> 0 < H -> 0 < D ->
  forall ops s,
  forallb GuillotineBinPack3d.positive_op ops = true ->
  forallb GuillotineBinPack3d.is_InsertOne ops = true ->
  GuillotineBinPack3d.run (GuillotineBinPack3d.Init W H D) ops = GuillotineBinPack3d.Ok s ->
  Forall (within W H D) (GuillotineBinPack3d.usedRectangles s)
  /\ total_volume s = W * H * D.
Proof.
  intros HW HH HD ops s Hpos Hone E. split.
  - assert (Hgen : forall ops s0 s1,
      Forall (boxed W H D) (GuillotineBinPack3d.freeRectangles s0) ->
      Forall (within W H D) (GuillotineBinPack3d.usedRectangles s0) ->
      forallb GuillotineBinPack3d.positive_op ops = true ->
      forallb GuillotineBinPack3d.is_InsertOne ops = true ->
      GuillotineBinPack3d.run s0 ops = GuillotineBinPack3d.Ok s1 ->
      Forall (within W H D) (GuillotineBinPack3d.usedRectangles s1)).
    { clear. induction ops as [|o ops IH]; intros s0 s1 Hf Hu Hpos Hone E.
      - simpl in E. injection E as <-. exact Hu.
      - cbn [forallb] in Hpos, Hone.
        apply andb_true_iff in Hpos. destruct Hpos as [Ho Hpos].
        apply andb_true_iff in Hone. destruct Hone as [Ho1 Hone].
        destruct o as [w h d merge rc sm|]; [|discriminate].
        cbn [GuillotineBinPack3d.run GuillotineBinPack3d.step] in E.
        cbn [GuillotineBinPack3d.positive_op] in Ho. bool_to_prop.
        destruct (Insert_boxed W H D s0 w h d merge rc sm) as [Hb1 Hb2]; auto.
        eapply IH; eauto. }
    eapply Hgen; eauto; simpl; auto.
    constructor; auto. unfold boxed, positive, within; simpl. lia.
  - eapply (single_run_inv W H D ops); eauto.
    split; [apply Init_inv; assumption|].
    unfold total_volume, GuillotineBinPack3d.placed_volume, GuillotineBinPack3d.volume.
    simpl. repeat split; ring.
Qed.

(** * Further properties of the code *)

(** ** The disjointness checker collection *)

(** [Add] refuses a box exactly when the box is not degenerate and overlaps
    a stored box; a refused or degenerate box leaves the collection as it
    is, any other box is appended. *)
Theorem Add_result (rects : DisjointRectCollection3d.t) (r : Rect3d.t) :
  (fst (DisjointRectCollection3d.Add rects r) = false <->
   DisjointRectCollection3d.degenerate r = false
   /\ exists a, In a rects /\ DisjointRectCollection3d.Disjoint a r = false)
  /\ snd (DisjointRectCollection3d.Add rects r)
     = (if fst (DisjointRectCollection3d.Add rects r)
           && negb (DisjointRectCollection3d.degenerate r)
        then rects ++ [r] else rects).
Proof.
  unfold DisjointRectCollection3d.Add, DisjointRectCollection3d.DisjointFromAll.
  destruct (DisjointRectCollection3d.degenerate r) eqn:Ed; simpl.
  - split; [|reflexivity]. split; [discriminate|]. intros [H _]. discriminate.
  - destruct (forallb (fun a => DisjointRectCollection3d.Disjoint a r) rects) eqn:Ef; simpl.
    + split; [|reflexivity]. split; [discriminate|].
      intros [_ (a & Ha & Hd)]. rewrite forallb_forall in Ef.
      rewrite (Ef a Ha) in Hd. discriminate.
    + split; [|reflexivity]. split; [|reflexivity]. intros _. split; [reflexivity|].
      clear Ed. induction rects as [|b l IH]; simpl in Ef; [discriminate|].
      apply andb_false_iff in Ef. destruct Ef as [Hb|Hl].
      * exists b. split; [left; reflexivity|exact Hb].
      * destruct (IH Hl) as (a & Ha & Hd). exists a. split; [right; exact Ha|exact Hd].
Qed.

Lemma add_all_inv (rs : list Rect3d.t) :
  forall c,
  pairwise disjoint c ->
  Forall (fun a => DisjointRectCollection3d.degenerate a = false) c ->
  pairwise disjoint (add_all c rs)
  /\ Forall (fun a => DisjointRectCollection3d.degenerate a = false) (add_all c rs).
Proof.
  induction rs as [|r rs IH]; intros c Hp Hd; simpl; [auto|].
  apply IH; unfold DisjointRectCollection3d.Add, DisjointRectCollection3d.DisjointFromAll;
    destruct (DisjointRectCollection3d.degenerate r) eqn:Ed; simpl; auto;
    destruct (forallb (fun a => DisjointRectCollection3d.Disjoint a r) c) eqn:Ef;
    simpl; auto.
  - apply pairwise_snoc; auto. apply Forall_forall. intros a Ha.
    rewrite forallb_forall in Ef. apply Ef. exact Ha.
  - apply Forall_app. split; auto.
Qed.

(** Whatever boxes are offered to [Add] after [Clear], in whatever order,
    the collection holds no degenerate box and its boxes are pairwise
    disjoint. *)
Theorem checker_collection_stays_disjoint (c0 : DisjointRectCollection3d.t)
    (rs : list Rect3d.t) :
  let c := add_all (DisjointRectCollection3d.Clear c0) rs in
  pairwiseb DisjointRectCollection3d.Disjoint c = true
  /\ forallb (fun a => negb (DisjointRectCollection3d.degenerate a)) c = true.
Proof.
  intros c.
  destruct (add_all_inv rs (DisjointRectCollection3d.Clear c0)) as [H1 H2];
    [exact I|constructor|].
  split; [apply pairwiseb_spec; exact H1|].
  apply forallb_forall. intros a Ha. rewrite Forall_forall in H2.
  fold c in H2. rewrite (H2 a Ha). reflexivity.
Qed.

(** ** The free functions *)

(** For two intervals of [int]s with start <= end whose lengths fit in
    [int], [CommonIntervalLength] does not depend on the order of the two
    intervals and is the length of their intersection: non-negative, at
    most the length of either interval, and 0 when the intervals only
    touch or are apart. *)
Theorem CommonIntervalLength_is_overlap (s1 e1 s2 e2 : Z) :
  INT_MIN <= s1 -> s1 <= e1 -> e1 <= INT_MAX ->
  INT_MIN <= s2 -> s2 <= e2 -> e2 <= INT_MAX ->
  e1 - s1 <= INT_MAX -> e2 - s2 <= INT_MAX ->
  CommonIntervalLength s1 e1 s2 e2 = CommonIntervalLength s2 e2 s1 e1
  /\ CommonIntervalLength s1 e1 s2 e2 = Z.max 0 (Z.min e1 e2 - Z.max s1 s2)
  /\ 0 <= CommonIntervalLength s1 e1 s2 e2 <= Z.min (e1 - s1) (e2 - s2)
  /\ (e1 <= s2 \/ e2 <= s1 -> CommonIntervalLength s1 e1 s2 e2 = 0).
Proof.
  intros Hs1 H1 He1 Hs2 H2 He2 Hl1 Hl2. unfold CommonIntervalLength.
  rewrite (Z.min_comm e2 e1), (Z.max_comm s2 s1).
  unfold INT_MIN, INT_MAX in *.
  destruct ((e1 <? s2) || (e2 <? s1)) eqn:E1; destruct ((e2 <? s1) || (e1 <? s2)) eqn:E2;
    bool_to_prop; try lia;
    rewrite wrap_int_small by (unfold INT_MIN, INT_MAX; lia); lia.
Qed.

(** The theorem on the intervals [0,5] and [3,9], of overlap 2, and on two
    copies of the longest interval that starts at 0. *)
Lemma CommonIntervalLength_is_overlap_witness :
  CommonIntervalLength 0 5 3 9 = Z.max 0 (Z.min 5 9 - Z.max 0 3)
  /\ CommonIntervalLength 0 5 3 9 = 2
  /\ 0 <= CommonIntervalLength 0 INT_MAX 0 INT_MAX.
Proof.
  split; [|split; [reflexivity|]].
  - refine (proj1 (proj2 (CommonIntervalLength_is_overlap 0 5 3 9 _ _ _ _ _ _ _ _)));
      unfold INT_MIN, INT_MAX; lia.
  - refine (proj1 (proj1 (proj2 (proj2
              (CommonIntervalLength_is_overlap 0 INT_MAX 0 INT_MAX _ _ _ _ _ _ _ _)))));
      unfold INT_MIN, INT_MAX; lia.
Defined.

(** For a box and a free volume of positive extents, [FitsPerfectly] holds
    exactly when the box fits and leaves no volume over. *)
Theorem FitsPerfectly_iff_no_leftover (r : RectSize3d.t) (f : Rect3d.t) :
  positive_size r = true -> positive f ->
  (FitsPerfectly r f = true <->
   Fits r f = true
   /\ RectSize3d.width r * RectSize3d.height r * RectSize3d.depth r
      = GuillotineBinPack3d.volume f).
Proof.
  unfold positive_size, positive, FitsPerfectly, Fits, GuillotineBinPack3d.volume.
  rewrite !andb_true_iff, !Z.ltb_lt.
  intros ((Hrw & Hrh) & Hrd) (Hw & Hh & Hd).
  rewrite !orb_true_iff, !andb_true_iff, !Z.eqb_eq, !Z.leb_le.
  assert (Hprod : forall a b c a' b' c',
            0 < a -> 0 < b -> 0 < c -> a <= a' -> b <= b' -> c <= c' ->
            a * b * c = a' * b' * c' -> a = a' /\ b = b' /\ c = c').
  { intros a b c a' b' c' Ha Hb Hc Ha' Hb' Hc' He.
    assert (Hab : a * b <= a' * b') by nia.
    assert (Hab0 : 0 < a * b) by nia.
    assert (Hc1 : c = c').
    { destruct (Z.eq_dec c c') as [e|ne]; [exact e|]. exfalso.
      assert (c + 1 <= c') by lia. nia. }
    subst c'. assert (Hab1 : a * b = a' * b') by nia.
    assert (Ha1 : a = a').
    { destruct (Z.eq_dec a a') as [e|ne]; [exact e|]. exfalso.
      assert (a + 1 <= a') by lia. nia. }
    subst a'. split; [reflexivity|]. split; [nia|reflexivity]. }
  split.
  - intros [((Ea & Eb) & Ec)|((Ea & Eb) & Ec)]; rewrite Ea, Eb, Ec; split; try lia; ring.
  - intros [[((La & Lb) & Lc)|((La & Lb) & Lc)] Hv].
    + left. destruct (Hprod _ _ _ _ _ _ Hrw Hrh Hrd La Lb Lc Hv) as (? & ? & ?). tauto.
    + right.
      assert (Hv' : RectSize3d.height r * RectSize3d.width r * RectSize3d.depth r
                    = Rect3d.width f * Rect3d.height f * Rect3d.depth f) by lia.
      destruct (Hprod _ _ _ _ _ _ Hrh Hrw Hrd La Lb Lc Hv') as (? & ? & ?). tauto.
Qed.

(** The theorem on a 3 x 5 x 2 box and a 5 x 3 x 2 free volume. *)
Lemma FitsPerfectly_iff_no_leftover_witness :
  FitsPerfectly (RectSize3d.mk 3 5 2) (Rect3d.mk 0 0 0 5 3 2) = true.
Proof.
  apply (proj2 (FitsPerfectly_iff_no_leftover (RectSize3d.mk 3 5 2) (Rect3d.mk 0 0 0 5 3 2)
                  eq_refl (conj eq_refl (conj eq_refl eq_refl)))).
  split; reflexivity.
Defined.

(** ** Containment predicates and sort comparators *)

(** [IsContainedInFree3d] is reflexive and transitive, and two free volumes
    contained in each other have the same extent; [IsContainedIn3d] is
    reflexive and transitive. *)
Theorem containment_is_preorder :
  (forall a, IsContainedInFree3d a a = true)
  /\ (forall a b c, IsContainedInFree3d a b = true -> IsContainedInFree3d b c = true ->
        IsContainedInFree3d a c = true)
  /\ (forall a b, IsContainedInFree3d a b = true -> IsContainedInFree3d b a = true ->
        FreeRect3d.x a = FreeRect3d.x b /\ FreeRect3d.y a = FreeRect3d.y b
        /\ FreeRect3d.z a = FreeRect3d.z b /\ FreeRect3d.width a = FreeRect3d.width b
        /\ FreeRect3d.height a = FreeRect3d.height b
        /\ FreeRect3d.depth a = FreeRect3d.depth b)
  /\ (forall a, IsContainedIn3d a a = true)
  /\ (forall a b c, IsContainedIn3d a b = true -> IsContainedIn3d b c = true ->
        IsContainedIn3d a c = true).
Proof.
  unfold IsContainedInFree3d, IsContainedIn3d.
  repeat split; intros;
    repeat match goal with
    | H : _ && _ = true |- _ => apply andb_true_iff in H; destruct H
    end;
    rewrite ?andb_true_iff, ?Z.geb_leb, ?Z.leb_le in *; lia.
Qed.

(** The theorem on a slice of a free volume and the volume itself. *)
Lemma containment_is_preorder_witness :
  IsContainedInFree3d (FreeRect3d.mk 2 2 5 3 3 5 0 0 0 0)
    (FreeRect3d.mk 0 0 0 10 10 10 0 0 0 0) = true.
Proof.
  exact (proj1 (proj2 containment_is_preorder)
           (FreeRect3d.mk 2 2 5 3 3 5 0 0 0 0) (FreeRect3d.mk 1 1 2 5 5 8 0 0 0 0)
           (FreeRect3d.mk 0 0 0 10 10 10 0 0 0 0) eq_refl eq_refl).
Defined.

(** The comparator of [sortFreeSpace] is a strict weak ordering, as
    [std::sort] requires: it is irreflexive and transitive, and the entries
    it does not order either way are those with the same (y, z, x), an
    equivalence. *)
Theorem sortFreeSpace_lt_strict_weak_order :
  (forall a, MaxRectsBinPack.sortFreeSpace_lt a a = false)
  /\ (forall a b c, MaxRectsBinPack.sortFreeSpace_lt a b = true ->
        MaxRectsBinPack.sortFreeSpace_lt b c = true ->
        MaxRectsBinPack.sortFreeSpace_lt a c = true)
  /\ (forall a b,
        (MaxRectsBinPack.sortFreeSpace_lt a b = false
         /\ MaxRectsBinPack.sortFreeSpace_lt b a = false)
        <-> (FreeRect3d.y a = FreeRect3d.y b /\ FreeRect3d.z a = FreeRect3d.z b
             /\ FreeRect3d.x a = FreeRect3d.x b)).
Proof.
  split; [|split].
  - intros a. apply not_true_iff_false. rewrite sortFreeSpace_lt_iff. lia.
  - intros a b c. rewrite !sortFreeSpace_lt_iff. lia.
  - intros a b. rewrite <- !not_true_iff_false, !sortFreeSpace_lt_iff. lia.
Qed.

(** The theorem on three free volumes in increasing (y, z, x). *)
Lemma sortFreeSpace_lt_strict_weak_order_witness :
  MaxRectsBinPack.sortFreeSpace_lt (FreeRect3d.mk 9 0 0 1 1 1 0 0 0 0)
    (FreeRect3d.mk 0 1 0 1 1 1 0 0 0 0) = true.
Proof.
  exact (proj1 (proj2 sortFreeSpace_lt_strict_weak_order)
           (FreeRect3d.mk 9 0 0 1 1 1 0 0 0 0) (FreeRect3d.mk 0 0 3 1 1 1 0 0 0 0)
           (FreeRect3d.mk 0 1 0 1 1 1 0 0 0 0) eq_refl eq_refl).
Defined.

(** The sort key of a corner inside a container whose volume fits in
    [int] is evaluated without wrap-around. *)
Lemma rect_hash_val_exact (s : GuillotineBinPack3d.t) (r : Rect3d.t) :
  0 < GuillotineBinPack3d.binWidth s -> 0 < GuillotineBinPack3d.binHeight s ->
  GuillotineBinPack3d.binWidth s * GuillotineBinPack3d.binHeight s
    * GuillotineBinPack3d.binDepth s <= INT_MAX ->
  0 <= Rect3d.x r < GuillotineBinPack3d.binWidth s ->
  0 <= Rect3d.y r < GuillotineBinPack3d.binHeight s ->
  0 <= Rect3d.z r < GuillotineBinPack3d.binDepth s ->
  GuillotineBinPack3d.rect_hash_val s r
  = Rect3d.x r + Rect3d.y r * GuillotineBinPack3d.binWidth s
    + Rect3d.z r * GuillotineBinPack3d.binWidth s * GuillotineBinPack3d.binHeight s.
Proof.
  intros HW HH HV Hx Hy Hz. unfold GuillotineBinPack3d.rect_hash_val.
  set (W := GuillotineBinPack3d.binWidth s) in *.
  set (H := GuillotineBinPack3d.binHeight s) in *.
  set (D := GuillotineBinPack3d.binDepth s) in *.
  unfold INT_MAX in HV.
  assert (HWH : 0 < W * H) by nia.
  assert (Hy1 : 0 <= Rect3d.y r * W <= (H - 1) * W) by nia.
  assert (Hz1 : 0 <= Rect3d.z r * W <= (D - 1) * W) by nia.
  assert (Hz2 : 0 <= Rect3d.z r * W * H <= (D - 1) * (W * H)) by nia.
  assert (HD : W * H <= W * H * D) by nia.
  rewrite (wrap_int_small (Rect3d.y r * W)) by (unfold INT_MIN, INT_MAX; nia).
  rewrite (wrap_int_small (Rect3d.x r + _)) by (unfold INT_MIN, INT_MAX; nia).
  rewrite (wrap_int_small (Rect3d.z r * W)) by (unfold INT_MIN, INT_MAX; nia).
  rewrite (wrap_int_small (Rect3d.z r * W * H)) by (unfold INT_MIN, INT_MAX; nia).
  apply wrap_int_small. unfold INT_MIN, INT_MAX. nia.
Qed.

(** In a packer of positive width and height whose container volume fits
    in [int], the comparator of the guillotine search orders free volumes
    whose minimum corner lies in the container by (z, y, x): lowest first,
    then smallest y, then smallest x. *)
Theorem sortFreeRectsByZ_orders_by_z_y_x (s : GuillotineBinPack3d.t) (a b : Rect3d.t) :
  0 < GuillotineBinPack3d.binWidth s -> 0 < GuillotineBinPack3d.binHeight s ->
  GuillotineBinPack3d.binWidth s * GuillotineBinPack3d.binHeight s
    * GuillotineBinPack3d.binDepth s <= INT_MAX ->
  0 <= Rect3d.x a < GuillotineBinPack3d.binWidth s ->
  0 <= Rect3d.y a < GuillotineBinPack3d.binHeight s ->
  0 <= Rect3d.z a < GuillotineBinPack3d.binDepth s ->
  0 <= Rect3d.x b < GuillotineBinPack3d.binWidth s ->
  0 <= Rect3d.y b < GuillotineBinPack3d.binHeight s ->
  0 <= Rect3d.z b < GuillotineBinPack3d.binDepth s ->
  (GuillotineBinPack3d.sortFreeRectsByZ s a b = true <->
   Rect3d.z a < Rect3d.z b
   \/ (Rect3d.z a = Rect3d.z b /\ Rect3d.y a < Rect3d.y b)
   \/ (Rect3d.z a = Rect3d.z b /\ Rect3d.y a = Rect3d.y b /\ Rect3d.x a < Rect3d.x b)).
Proof.
  intros HW HH HV Hax Hay Haz Hbx Hby Hbz.
  unfold GuillotineBinPack3d.sortFreeRectsByZ.
  rewrite !rect_hash_val_exact by assumption.
  rewrite Z.ltb_lt. clear HV Haz Hbz.
  set (W := GuillotineBinPack3d.binWidth s) in *.
  set (H := GuillotineBinPack3d.binHeight s) in *.
  assert (Hkey : forall x y z, x + y * W + z * W * H = x + W * (y + H * z)) by (intros; ring).
  rewrite !Hkey.
  destruct (Z.lt_trichotomy (Rect3d.z a) (Rect3d.z b)) as [Hz|[Hz|Hz]].
  - split; [tauto|]. intros _.
    assert (Rect3d.y a + H * Rect3d.z a + 1 <= Rect3d.y b + H * Rect3d.z b) by nia. nia.
  - rewrite Hz. split.
    + intros Hlt. right.
      destruct (Z.lt_trichotomy (Rect3d.y a) (Rect3d.y b)) as [Hy|[Hy|Hy]].
      * left. tauto.
      * right. rewrite Hy in Hlt. split; [reflexivity|]. split; [exact Hy|]. lia.
      * exfalso.
        assert (Rect3d.y b + H * Rect3d.z b + 1 <= Rect3d.y a + H * Rect3d.z b) by lia. nia.
    + intros [Hlt|[(_ & Hy)|(_ & Hy & Hx)]]; [lia| |].
      * assert (Rect3d.y a + H * Rect3d.z b + 1 <= Rect3d.y b + H * Rect3d.z b) by lia. nia.
      * rewrite Hy. lia.
  - split; [|lia]. intros Hlt. exfalso.
    assert (Rect3d.y b + H * Rect3d.z b + 1 <= Rect3d.y a + H * Rect3d.z a) by nia. nia.
Qed.

(** The theorem on two free volumes of a 10 x 10 x 10 container, and on
    two corners near the top of a 1000 x 1000 x 2000 container,
    whose volume is close to the largest an [int] holds. *)
Lemma sortFreeRectsByZ_orders_by_z_y_x_witness :
  GuillotineBinPack3d.sortFreeRectsByZ (GuillotineBinPack3d.Init 10 10 10)
    (Rect3d.mk 9 9 0 1 1 1) (Rect3d.mk 0 0 1 1 1 1) = true
  /\ GuillotineBinPack3d.sortFreeRectsByZ (GuillotineBinPack3d.Init 1000 1000 2000)
       (Rect3d.mk 999 999 1998 1 1 1) (Rect3d.mk 0 0 1999 1 1 1) = true.
Proof.
  split.
  - refine (proj2 (sortFreeRectsByZ_orders_by_z_y_x (GuillotineBinPack3d.Init 10 10 10)
                     (Rect3d.mk 9 9 0 1 1 1) (Rect3d.mk 0 0 1 1 1 1) _ _ _ _ _ _ _ _ _) _);
      unfold INT_MAX; simpl; lia.
  - refine (proj2 (sortFreeRectsByZ_orders_by_z_y_x (GuillotineBinPack3d.Init 1000 1000 2000)
                     (Rect3d.mk 999 999 1998 1 1 1) (Rect3d.mk 0 0 1999 1 1 1)
                     _ _ _ _ _ _ _ _ _) _);
      unfold INT_MAX; simpl; lia.
Defined.

(** ** The guillotine packer: split, merge, scores *)

Lemma xy_disjoint_disjoint (a b : Rect3d.t) : xy_disjoint a b -> disjoint a b.
Proof. rewrite Disjoint_true_iff. unfold xy_disjoint. tauto. Qed.

Lemma pairwise_impl {A : Type} (R R' : A -> A -> Prop) (l : list A) :
  (forall a b, R a b -> R' a b) -> pairwise R l -> pairwise R' l.
Proof.
  intros HR. induction l as [|a l IH]; simpl; auto.
  intros [H1 H2]. split; auto. eapply Forall_impl; [|exact H1]. auto.
Qed.

(** A box of positive extents placed at the minimum corner of a free
    volume it fits: the split pushes at most three volumes, none
    degenerate, all inside the free volume; together with the box they are
    pairwise disjoint, and their volumes and the volume of the box add up
    to the volume of the free volume. *)
Theorem guillotine_split_is_partition (f n : Rect3d.t)
    (method : GuillotineBinPack3d.GuillotineSplitHeuristic) :
  positive n ->
  Rect3d.x n = Rect3d.x f -> Rect3d.y n = Rect3d.y f -> Rect3d.z n = Rect3d.z f ->
  Rect3d.width n <= Rect3d.width f -> Rect3d.height n <= Rect3d.height f ->
  Rect3d.depth n <= Rect3d.depth f ->
  let pieces := GuillotineBinPack3d.SplitFreeRectByHeuristic f n method in
  (length pieces <= 3)%nat
  /\ Forall positive pieces
  /\ Forall (inside f) pieces
  /\ pairwiseb DisjointRectCollection3d.Disjoint (n :: pieces) = true
  /\ GuillotineBinPack3d.sumZ (map GuillotineBinPack3d.volume pieces)
     + GuillotineBinPack3d.volume n
     = GuillotineBinPack3d.volume f.
Proof.
  intros Hpos Hx Hy Hz Hw Hh Hd pieces.
  assert (Hgeo : forall p, In p pieces ->
            positive p /\ inside f p /\ beside_or_below p n).
  { intros p Hp.
    destruct (split_piece_geometry f n method Hx Hy Hz Hpos Hw Hh p Hp)
      as (H1 & H2 & H3 & H4 & H5 & H6 & H7).
    split; [exact H1|]. split; [|exact H7].
    destruct (split_pieces_cases f n method p Hp) as [_ Hc].
    destruct Hpos as (? & ? & ?). unfold inside. repeat split; auto.
    destruct Hc as [ -> | [ -> | -> ] ];
      destruct (GuillotineBinPack3d.splitHorizontal_of f n method); simpl; lia. }
  split; [|split; [|split; [|split]]].
  - unfold pieces, GuillotineBinPack3d.SplitFreeRectByHeuristic,
      GuillotineBinPack3d.SplitFreeRectAlongAxis, GuillotineBinPack3d.push_if_nondegenerate.
    repeat match goal with
    | |- context [if ?c then _ else _] => destruct c
    end; simpl; lia.
  - apply Forall_forall. intros p Hp. apply Hgeo. exact Hp.
  - apply Forall_forall. intros p Hp. apply Hgeo. exact Hp.
  - apply pairwiseb_spec. cbn [pairwise]. split.
    + apply Forall_forall. intros p Hp. destruct (Hgeo p Hp) as (_ & _ & Hb).
      fold (disjoint n p). apply Disjoint_true_iff.
      unfold beside_or_below, xy_disjoint in Hb. lia.
    + apply (pairwise_impl xy_disjoint); [exact xy_disjoint_disjoint|].
      apply split_pieces_pairwise; assumption.
  - apply split_volume; assumption.
Qed.

(** The theorem on a box (2,3,4) in the free volume (1,1,1,10,10,10). *)
Lemma guillotine_split_is_partition_witness :
  pairwiseb DisjointRectCollection3d.Disjoint
    (Rect3d.mk 1 1 1 2 3 4
     :: GuillotineBinPack3d.SplitFreeRectByHeuristic (Rect3d.mk 1 1 1 10 10 10)
          (Rect3d.mk 1 1 1 2 3 4) GuillotineBinPack3d.SplitShorterLeftoverAxis) = true.
Proof.
  refine (proj1 (proj2 (proj2 (proj2
            (guillotine_split_is_partition (Rect3d.mk 1 1 1 10 10 10) (Rect3d.mk 1 1 1 2 3 4)
               GuillotineBinPack3d.SplitShorterLeftoverAxis _ _ _ _ _ _ _)))));
    unfold positive; simpl; lia.
Defined.

Lemma merge_outer_length (fuel : nat) :
  forall l, (length (GuillotineBinPack3d.merge_outer fuel l) <= length l)%nat.
Proof.
  induction fuel as [|fuel IH]; intros l; simpl; [lia|].
  destruct l as [|ri rest]; [simpl; lia|].
  pose proof (merge_inner_length rest ri) as Hlen.
  destruct (GuillotineBinPack3d.merge_inner ri rest) as [r l']. simpl in *.
  specialize (IH l'). lia.
Qed.

(** [MergeFreeList] never changes the sum of the volumes of the free list
    and never makes the list longer, whatever the list holds. *)
Theorem MergeFreeList_keeps_volume (free : list Rect3d.t) :
  GuillotineBinPack3d.sumZ (map GuillotineBinPack3d.volume
                              (GuillotineBinPack3d.MergeFreeList free))
  = GuillotineBinPack3d.sumZ (map GuillotineBinPack3d.volume free)
  /\ (length (GuillotineBinPack3d.MergeFreeList free) <= length free)%nat.
Proof.
  unfold GuillotineBinPack3d.MergeFreeList.
  split; [apply merge_outer_volume|apply merge_outer_length].
Qed.

(** Two free volumes of positive extents with the same footprint, [a]
    directly below [b]: [MergeFreeList] merges them when the upper one
    comes first in the list and leaves them apart when the lower one comes
    first.  Two free volumes adjacent in y are merged in either order. *)
Theorem MergeFreeList_pair_order (a b : Rect3d.t) :
  positive a -> positive b ->
  (Rect3d.x a = Rect3d.x b -> Rect3d.y a = Rect3d.y b ->
   Rect3d.width a = Rect3d.width b -> Rect3d.height a = Rect3d.height b ->
   Rect3d.z a + Rect3d.depth a = Rect3d.z b ->
   GuillotineBinPack3d.MergeFreeList [a; b] = [a; b]
   /\ GuillotineBinPack3d.MergeFreeList [b; a]
      = [Rect3d.mk (Rect3d.x b) (Rect3d.y b) (Rect3d.z b - Rect3d.depth a)
           (Rect3d.width b) (Rect3d.height b) (Rect3d.depth b + Rect3d.depth a)])
  /\ (Rect3d.x a = Rect3d.x b -> Rect3d.z a = Rect3d.z b ->
      Rect3d.width a = Rect3d.width b -> Rect3d.depth a = Rect3d.depth b ->
      Rect3d.y a + Rect3d.height a = Rect3d.y b ->
      GuillotineBinPack3d.MergeFreeList [a; b]
        = [Rect3d.mk (Rect3d.x a) (Rect3d.y a) (Rect3d.z a)
             (Rect3d.width a) (Rect3d.height a + Rect3d.height b) (Rect3d.depth a)]
      /\ GuillotineBinPack3d.MergeFreeList [b; a]
         = [Rect3d.mk (Rect3d.x b) (Rect3d.y b - Rect3d.height a) (Rect3d.z b)
              (Rect3d.width b) (Rect3d.height b + Rect3d.height a) (Rect3d.depth b)]).
Proof.
  intros (Haw & Hah & Had) (Hbw & Hbh & Hbd).
  assert (Hne : forall p q, p <> q -> (p =? q) = false) by (intros; apply Z.eqb_neq; auto).
  split.
  - intros Hx Hy Hw Hh Hz.
    unfold GuillotineBinPack3d.MergeFreeList. cbn [length GuillotineBinPack3d.merge_outer
      GuillotineBinPack3d.merge_inner].
    rewrite <- Hx, <- Hy, <- Hw, <- Hh, <- Hz, !Z.eqb_refl.
    rewrite (Hne (Rect3d.z a) (Rect3d.z a + Rect3d.depth a)) by lia.
    rewrite (Hne (Rect3d.z a + Rect3d.depth a) (Rect3d.z a)) by lia.
    rewrite (Hne (Rect3d.z a) (Rect3d.z a + Rect3d.depth a + Rect3d.depth b)) by lia.
    rewrite (Hne (Rect3d.x a + Rect3d.depth a) (Rect3d.x a)) by lia.
    rewrite ?andb_false_r. cbn. split; reflexivity.
  - intros Hx Hz Hw Hd Hy.
    unfold GuillotineBinPack3d.MergeFreeList. cbn [length GuillotineBinPack3d.merge_outer
      GuillotineBinPack3d.merge_inner].
    rewrite <- Hx, <- Hz, <- Hw, <- Hd, <- Hy, !Z.eqb_refl.
    rewrite (Hne (Rect3d.y a) (Rect3d.y a + Rect3d.height a + Rect3d.height b)) by lia.
    cbn. split; reflexivity.
Qed.

(** The theorem on two unit cubes stacked in z. *)
Lemma MergeFreeList_pair_order_witness :
  GuillotineBinPack3d.MergeFreeList [Rect3d.mk 0 0 0 1 1 1; Rect3d.mk 0 0 1 1 1 1]
  = [Rect3d.mk 0 0 0 1 1 1; Rect3d.mk 0 0 1 1 1 1]
  /\ GuillotineBinPack3d.MergeFreeList [Rect3d.mk 0 0 1 1 1 1; Rect3d.mk 0 0 0 1 1 1]
     = [Rect3d.mk 0 0 (1 - 1) 1 1 (1 + 1)].
Proof.
  exact (proj1 (MergeFreeList_pair_order (Rect3d.mk 0 0 0 1 1 1) (Rect3d.mk 0 0 1 1 1 1)
                  (conj eq_refl (conj eq_refl eq_refl)) (conj eq_refl (conj eq_refl eq_refl)))
           eq_refl eq_refl eq_refl eq_refl eq_refl).
Defined.

(** ** The guillotine packer: what an insert returns and keeps *)

Lemma Fits_fits (w h d : Z) (f : Rect3d.t) : Fits (RectSize3d.mk w h d) f = fits w h d f.
Proof. reflexivity. Qed.

(** A single-box insert of positive extents places the box exactly when
    [Fits] holds for some free volume.  The box returned then has the
    requested depth and the requested width and height, in this or the
    exchanged order; it sits at the minimum corner of a free volume of the
    packer and inside it, and it is the one entry added to the placed
    boxes.  Otherwise the box returned is all zero and the placed boxes are
    as before. *)
Theorem guillotine_insert_places_iff_fits (s : GuillotineBinPack3d.t) (w h d : Z)
    (merge : bool) (rc : GuillotineBinPack3d.FreeRectChoiceHeuristic)
    (sm : GuillotineBinPack3d.GuillotineSplitHeuristic) :
  0 < w -> 0 < h -> 0 < d ->
  let r := fst (GuillotineBinPack3d.Insert s w h d merge rc sm) in
  let s' := snd (GuillotineBinPack3d.Insert s w h d merge rc sm) in
  if existsb (Fits (RectSize3d.mk w h d)) (GuillotineBinPack3d.freeRectangles s)
  then GuillotineBinPack3d.usedRectangles s' = GuillotineBinPack3d.usedRectangles s ++ [r]
       /\ Rect3d.depth r = d
       /\ ((Rect3d.width r = w /\ Rect3d.height r = h)
           \/ (Rect3d.width r = h /\ Rect3d.height r = w))
       /\ exists f, In f (GuillotineBinPack3d.freeRectangles s)
            /\ Rect3d.x r = Rect3d.x f /\ Rect3d.y r = Rect3d.y f /\ Rect3d.z r = Rect3d.z f
            /\ inside f r
  else r = zeroRect
       /\ GuillotineBinPack3d.usedRectangles s' = GuillotineBinPack3d.usedRectangles s.
Proof.
  intros Hw Hh Hd.
  unfold GuillotineBinPack3d.Insert, GuillotineBinPack3d.FindPositionForNewNode.
  set (sorted := sort_by (GuillotineBinPack3d.sortFreeRectsByZ s)
                   (GuillotineBinPack3d.freeRectangles s)).
  pose proof (find_loop_spec w h d sorted 0) as Hspec.
  destruct (existsb (Fits (RectSize3d.mk w h d)) (GuillotineBinPack3d.freeRectangles s))
    eqn:Ex.
  - apply existsb_exists in Ex. destruct Ex as (g & Hg & Hfit).
    destruct (GuillotineBinPack3d.find_loop w h d sorted 0) as [[n i]|].
    + destruct Hspec as (_ & f & Hf & _ & _ & Hn & Hnd). rewrite Nat.sub_0_r in Hf.
      destruct Hn as (Hx & Hy & Hz & Hdn & Hwh & Hnw & Hnh).
      assert (Hne : (Rect3d.height n =? 0) = false) by (apply Z.eqb_neq; lia).
      rewrite Hne. cbn [fst snd].
      split; [reflexivity|]. split; [exact Hdn|]. split; [exact Hwh|].
      exists f. split.
      * eapply Permutation_in; [apply sort_by_perm|]. eapply nth_error_In; eauto.
      * unfold inside. repeat split; auto; lia.
    + exfalso. rewrite Fits_fits in Hfit.
      rewrite Hspec in Hfit; [discriminate|].
      eapply Permutation_in; [symmetry; apply sort_by_perm|exact Hg].
  - destruct (GuillotineBinPack3d.find_loop w h d sorted 0) as [[n i]|].
    + exfalso. destruct Hspec as (_ & f & Hf & Hfit & _).
      assert (Hin : In f (GuillotineBinPack3d.freeRectangles s)).
      { eapply Permutation_in; [apply sort_by_perm|]. eapply nth_error_In; eauto. }
      assert (Ht : existsb (Fits (RectSize3d.mk w h d))
                     (GuillotineBinPack3d.freeRectangles s) = true).
      { apply existsb_exists. exists f. split; [exact Hin|exact Hfit]. }
      rewrite Ht in Ex. discriminate.
    + cbn. split; reflexivity.
Qed.

(** The theorem on a box (2,3,4) in an empty 10 x 10 x 10 container. *)
Lemma guillotine_insert_places_iff_fits_witness :
  GuillotineBinPack3d.usedRectangles
    (snd (GuillotineBinPack3d.Insert (GuillotineBinPack3d.Init 10 10 10) 2 3 4 true
            GuillotineBinPack3d.RectBestAreaFit GuillotineBinPack3d.SplitShorterLeftoverAxis))
  = [] ++ [fst (GuillotineBinPack3d.Insert (GuillotineBinPack3d.Init 10 10 10) 2 3 4 true
                  GuillotineBinPack3d.RectBestAreaFit
                  GuillotineBinPack3d.SplitShorterLeftoverAxis)].
Proof.
  exact (proj1 (guillotine_insert_places_iff_fits (GuillotineBinPack3d.Init 10 10 10) 2 3 4
                  true GuillotineBinPack3d.RectBestAreaFit
                  GuillotineBinPack3d.SplitShorterLeftoverAxis eq_refl eq_refl eq_refl)).
Defined.

(** After any run of insert calls with positive extents (single or batch,
    with or without merge) on a container of positive extents, no free
    volume is degenerate, the free volumes are pairwise disjoint, and every
    placed box is disjoint from every free volume. *)
Theorem guillotine_free_volumes_disjoint (W H D : Z) :
  0 < W -> 0 < H -> 0 < D ->
  forall ops s,
  forallb GuillotineBinPack3d.positive_op ops = true ->
  GuillotineBinPack3d.run (GuillotineBinPack3d.Init W H D) ops = GuillotineBinPack3d.Ok s ->
  forallb GuillotineBinPack3d.nondegenerate (GuillotineBinPack3d.freeRectangles s) = true
  /\ pairwiseb DisjointRectCollection3d.Disjoint (GuillotineBinPack3d.freeRectangles s) = true
  /\ forallb (fun u => forallb (DisjointRectCollection3d.Disjoint u)
                         (GuillotineBinPack3d.freeRectangles s))
       (GuillotineBinPack3d.usedRectangles s) = true.
Proof.
  intros HW HH HD ops s Hpos E.
  assert (Hinv : guillotine_inv s).
  { eapply run_inv; eauto. apply Init_inv; assumption. }
  destruct Hinv as [Hok Hxy Hup Hu]. split; [|split].
  - apply forallb_forall. intros f Hf. rewrite Forall_forall in Hok.
    destruct (Hok f Hf) as [(Hw & Hh & Hd) _].
    unfold GuillotineBinPack3d.nondegenerate.
    rewrite !andb_true_iff, !Z.gtb_ltb, !Z.ltb_lt. tauto.
  - apply pairwiseb_spec. apply (pairwise_impl xy_disjoint); [exact xy_disjoint_disjoint|].
    exact Hxy.
  - apply forallb_forall. intros u Hu'. apply forallb_forall. intros f Hf.
    rewrite Forall_forall in Hok. destruct (Hok f Hf) as [_ Hb].
    rewrite Forall_forall in Hb. specialize (Hb u Hu').
    rewrite Forall_forall in Hup. destruct (Hup u Hu') as (? & ? & ?).
    fold (disjoint u f). apply Disjoint_true_iff.
    unfold beside_or_below, xy_disjoint in Hb. lia.
Qed.

(** The theorem on a run of three calls in a 10 x 10 x 10 container. *)
Lemma guillotine_free_volumes_disjoint_witness :
  exists s,
    GuillotineBinPack3d.run (GuillotineBinPack3d.Init 10 10 10) sample_calls
    = GuillotineBinPack3d.Ok s
    /\ pairwiseb DisjointRectCollection3d.Disjoint (GuillotineBinPack3d.freeRectangles s) = true.
Proof.
  eexists. split; [cbv; reflexivity|].
  exact (proj1 (proj2 (guillotine_free_volumes_disjoint 10 10 10 eq_refl eq_refl eq_refl
                         sample_calls _ eq_refl eq_refl))).
Defined.

(** The theorem of containment and volume balance on two single-box
    inserts in a 10 x 10 x 10 container. *)
Lemma guillotine_single_inserts_contained_and_balanced_witness :
  exists s,
    GuillotineBinPack3d.run (GuillotineBinPack3d.Init 10 10 10) two_inserts
    = GuillotineBinPack3d.Ok s
    /\ Forall (within 10 10 10) (GuillotineBinPack3d.usedRectangles s)
    /\ total_volume s = 10 * 10 * 10.
Proof.
  eexists. split; [cbv; reflexivity|].
  exact (guillotine_single_inserts_contained_and_balanced 10 10 10 eq_refl eq_refl eq_refl
           two_inserts _ eq_refl eq_refl eq_refl).
Defined.

(** The indices the two inserts use on their vectors are in range: when
    the single-box search returns a box of non-zero height, the index it
    leaves is an index of the free list; when the batch search records a
    score, the two indices it leaves are indices of the free list and of
    the remaining boxes. *)
Theorem insert_indices_in_bounds :
  (forall s w h d rc,
     let '(s1, node, i) := GuillotineBinPack3d.FindPositionForNewNode s w h d rc in
     Rect3d.height node <> 0 ->
     (i < length (GuillotineBinPack3d.freeRectangles s1))%nat)
  /\ (forall s rects rc b0 b,
        GuillotineBinPack3d.batch_outer (GuillotineBinPack3d.freeRectangles s) rc rects
          (GuillotineBinPack3d.freeRectangles s) 0
          (GuillotineBinPack3d.mkBest (GuillotineBinPack3d.bestFreeRect b0)
             (GuillotineBinPack3d.bestRect b0) (GuillotineBinPack3d.bestFlipped b0) INT_MAX)
        = GuillotineBinPack3d.Ok b ->
        GuillotineBinPack3d.bestScore b <> INT_MAX ->
        (GuillotineBinPack3d.bestFreeRect b < length (GuillotineBinPack3d.freeRectangles s))%nat
        /\ (GuillotineBinPack3d.bestRect b < length rects)%nat).
Proof.
  split.
  - intros s w h d rc. unfold GuillotineBinPack3d.FindPositionForNewNode.
    set (sorted := sort_by _ _).
    pose proof (find_loop_spec w h d sorted 0) as Hspec.
    destruct (GuillotineBinPack3d.find_loop w h d sorted 0) as [[n i]|].
    + intros _. destruct Hspec as (_ & f & Hf & _). rewrite Nat.sub_0_r in Hf.
      cbn. apply nth_error_Some. congruence.
    + cbn. intros H. exfalso. apply H. reflexivity.
  - intros s rects rc b0 b E Hne.
    assert (Hb : best_ok (GuillotineBinPack3d.freeRectangles s) rects b).
    { eapply batch_outer_ok; [| |exact E].
      - intros k. reflexivity.
      - split; simpl; [lia|]. intros H; lia. }
    destruct Hb as [Hle Hb]. destruct Hb as (f & r & Hf & Hr & _); [lia|].
    split; apply nth_error_Some; congruence.
Qed.

(** The theorem on the packer after one box (2,2,2) in a 10 x 10 x 10
    container, which has three free volumes: the single-box search of a box
    (9,8,1) leaves index 1, and the batch search of the boxes (9,8,1) and
    (2,2,2) records a choice. *)
Lemma insert_indices_in_bounds_witness :
  (let '(s1, node, i) :=
     GuillotineBinPack3d.FindPositionForNewNode guillotine_one_box 9 8 1
       GuillotineBinPack3d.RectBestAreaFit in
   i = 1%nat /\ (i < length (GuillotineBinPack3d.freeRectangles s1))%nat)
  /\ exists b,
       GuillotineBinPack3d.batch_outer (GuillotineBinPack3d.freeRectangles guillotine_one_box)
         GuillotineBinPack3d.RectBestAreaFit [RectSize3d.mk 9 8 1; RectSize3d.mk 2 2 2]
         (GuillotineBinPack3d.freeRectangles guillotine_one_box) 0
         (GuillotineBinPack3d.mkBest 0 0 false INT_MAX) = GuillotineBinPack3d.Ok b
       /\ (GuillotineBinPack3d.bestFreeRect b
            < length (GuillotineBinPack3d.freeRectangles guillotine_one_box))%nat
       /\ (GuillotineBinPack3d.bestRect b < length [RectSize3d.mk 9 8 1; RectSize3d.mk 2 2 2])%nat.
Proof.
  split.
  - split; [reflexivity|].
    exact (proj1 insert_indices_in_bounds guillotine_one_box 9 8 1
             GuillotineBinPack3d.RectBestAreaFit ltac:(discriminate)).
  - eexists. split; [cbv; reflexivity|].
    refine (proj2 insert_indices_in_bounds guillotine_one_box
              [RectSize3d.mk 9 8 1; RectSize3d.mk 2 2 2] GuillotineBinPack3d.RectBestAreaFit
              (GuillotineBinPack3d.mkBest 0 0 false INT_MAX) _ eq_refl _).
    discriminate.
Defined.

(** ** The batch insert: what it moves and when it has a result *)

Lemma sublist_refl {A : Type} (l : list A) : sublist l l.
Proof. induction l; [apply sublist_nil|apply sublist_keep; assumption]. Qed.

Lemma sublist_In {A : Type} (l' l : list A) (a : A) : sublist l' l -> In a l' -> In a l.
Proof.
  induction 1 as [|b l' l _ IH|b l' l _ IH]; simpl; auto.
  intros [H|H]; auto.
Qed.

Lemma sublist_trans {A : Type} (l1 l2 l3 : list A) :
  sublist l1 l2 -> sublist l2 l3 -> sublist l1 l3.
Proof.
  intros H12 H23. revert l1 H12.
  induction H23 as [|a l2 l3 _ IH|a l2 l3 _ IH]; intros l1 H12.
  - exact H12.
  - apply sublist_skip. apply IH. exact H12.
  - inversion H12; subst.
    + apply sublist_skip. apply IH. assumption.
    + apply sublist_keep. apply IH. assumption.
Qed.

Lemma sublist_erase {A : Type} (l : list A) (i : nat) : sublist (erase l i) l.
Proof.
  revert i; induction l as [|a l IH]; intros [|i]; simpl.
  - apply sublist_nil.
  - apply sublist_nil.
  - apply sublist_skip. apply sublist_refl.
  - apply sublist_keep. apply IH.
Qed.

Lemma batch_while_moves (merge : bool) (rc : GuillotineBinPack3d.FreeRectChoiceHeuristic)
    (sm : GuillotineBinPack3d.GuillotineSplitHeuristic) (fuel : nat) :
  forall s rects b0 s' rest,
  GuillotineBinPack3d.batch_while fuel s rects b0 merge rc sm
    = GuillotineBinPack3d.Ok (s', rest) ->
  exists placed,
    GuillotineBinPack3d.usedRectangles s' = GuillotineBinPack3d.usedRectangles s ++ placed
    /\ (length placed + length rest = length rects)%nat
    /\ sublist rest rects
    /\ Forall (fun p => exists r, In r rects /\ placed_for r p) placed.
Proof.
  induction fuel as [|fuel IH]; intros s rects b0 s' rest E; simpl in E.
  - injection E as <- <-. exists []. rewrite app_nil_r.
    repeat split; auto using sublist_refl.
  - destruct rects as [|r0 rects0].
    { injection E as <- <-. exists []. rewrite app_nil_r.
      repeat split; auto using sublist_refl. }
    set (rects := r0 :: rects0) in *.
    match type of E with
    | match ?m with _ => _ end = _ => destruct m as [b|] eqn:Eb; [|discriminate]
    end.
    assert (Hb : best_ok (GuillotineBinPack3d.freeRectangles s) rects b).
    { eapply batch_outer_ok; [| |exact Eb].
      - intros k. reflexivity.
      - split; simpl; [lia|]. intros H; lia. }
    destruct (GuillotineBinPack3d.bestScore b =? INT_MAX) eqn:Es.
    { injection E as <- <-. exists []. rewrite app_nil_r.
      repeat split; auto using sublist_refl. }
    apply Z.eqb_neq in Es. destruct Hb as [Hle Hb].
    destruct Hb as (f & r & Hf & Hr & _); [lia|].
    rewrite (nth_error_nth _ _ (RectSize3d.mk 0 0 0) Hr) in E.
    destruct (IH _ _ _ _ _ E) as (placed & Hused & Hlen & Hsub & Hall).
    cbn [GuillotineBinPack3d.place GuillotineBinPack3d.usedRectangles] in Hused.
    rewrite <- app_assoc in Hused.
    eexists. split; [exact Hused|].
    assert (Hj : (GuillotineBinPack3d.bestRect b < length rects)%nat).
    { apply nth_error_Some. congruence. }
    rewrite erase_length in Hlen by exact Hj.
    split; [clear - Hlen; unfold rects in *; simpl in *; lia|].
    split; [eapply sublist_trans; [exact Hsub|apply sublist_erase]|].
    constructor.
    + exists r. split; [eapply nth_error_In; eauto|].
      unfold placed_for. destruct (GuillotineBinPack3d.bestFlipped b); simpl; auto.
    + eapply Forall_impl; [|exact Hall]. intros p (r' & Hr' & Hp).
      exists r'. split; [eapply erase_In; eauto|exact Hp].
Qed.

(** A batch insert that has a result only moves boxes: the placed boxes of
    before stay in place, every box added was placed for one of the
    requested sizes (same depth, width and height possibly exchanged), the
    sizes left over are requested sizes in their order, and the numbers of
    added boxes and of left-over sizes add up to the number of requests. *)
Theorem batch_insert_moves_boxes (s s' : GuillotineBinPack3d.t)
    (rects rest : list RectSize3d.t) (merge : bool)
    (rc : GuillotineBinPack3d.FreeRectChoiceHeuristic)
    (sm : GuillotineBinPack3d.GuillotineSplitHeuristic) :
  GuillotineBinPack3d.InsertBatch s rects merge rc sm = GuillotineBinPack3d.Ok (s', rest) ->
  exists placed,
    GuillotineBinPack3d.usedRectangles s' = GuillotineBinPack3d.usedRectangles s ++ placed
    /\ (length placed + length rest = length rects)%nat
    /\ sublist rest rects
    /\ Forall (fun p => exists r, In r rects /\ placed_for r p) placed.
Proof. apply batch_while_moves. Qed.

(** The theorem on a batch of one box (2,3,4) in a 10 x 10 x 10 container. *)
Lemma batch_insert_moves_boxes_witness :
  exists s' rest placed,
    GuillotineBinPack3d.InsertBatch (GuillotineBinPack3d.Init 10 10 10)
      [RectSize3d.mk 2 3 4] true GuillotineBinPack3d.RectBestAreaFit
      GuillotineBinPack3d.SplitShorterLeftoverAxis = GuillotineBinPack3d.Ok (s', rest)
    /\ GuillotineBinPack3d.usedRectangles s' = [] ++ placed
    /\ (length placed + length rest = 1)%nat.
Proof.
  eexists _, _.
  destruct (batch_insert_moves_boxes (GuillotineBinPack3d.Init 10 10 10) _
              [RectSize3d.mk 2 3 4] _ true GuillotineBinPack3d.RectBestAreaFit
              GuillotineBinPack3d.SplitShorterLeftoverAxis eq_refl)
    as (placed & H1 & H2 & _).
  exists placed. split; [reflexivity|]. split; [exact H1|exact H2].
Defined.

Lemma batch_outer_one (free : list Rect3d.t) (rc : GuillotineBinPack3d.FreeRectChoiceHeuristic)
    (r : RectSize3d.t) :
  free <> [] ->
  forall l i b, exists b', GuillotineBinPack3d.batch_outer free rc [r] l i b
                           = GuillotineBinPack3d.Ok b'.
Proof.
  intros Hne. induction l as [|fi rest IH]; intros i b; simpl; [eauto|].
  destruct free as [|f0 free0]; [contradiction|]. cbn [nth_error].
  repeat match goal with
  | |- context [if ?c then _ else _] => destruct c
  end; eauto.
Qed.

(** A batch insert of at most one box always has a result: with one box
    the depth comparison reads [freeRectangles[0]], and it is only reached
    when the free list is not empty. *)
Theorem batch_of_one_has_result (s : GuillotineBinPack3d.t) (rects : list RectSize3d.t)
    (merge : bool) (rc : GuillotineBinPack3d.FreeRectChoiceHeuristic)
    (sm : GuillotineBinPack3d.GuillotineSplitHeuristic) :
  (length rects <= 1)%nat ->
  exists s' rest,
    GuillotineBinPack3d.InsertBatch s rects merge rc sm = GuillotineBinPack3d.Ok (s', rest).
Proof.
  intros Hlen. destruct rects as [|r [|r' rects]]; [| |simpl in Hlen; lia].
  - cbn. eauto.
  - unfold GuillotineBinPack3d.InsertBatch. cbn [length GuillotineBinPack3d.batch_while].
    destruct (GuillotineBinPack3d.freeRectangles s) as [|f0 free0] eqn:Ef.
    + cbn. eauto.
    + destruct (batch_outer_one (f0 :: free0) rc r ltac:(discriminate) (f0 :: free0) 0%nat
                  (GuillotineBinPack3d.mkBest 0 0 false INT_MAX)) as [b' Eb].
      cbn [GuillotineBinPack3d.bestFreeRect GuillotineBinPack3d.bestRect
           GuillotineBinPack3d.bestFlipped].
      rewrite Eb. destruct (GuillotineBinPack3d.bestScore b' =? INT_MAX); eauto.
Qed.

(** The theorem on one box in an empty 10 x 10 x 10 container. *)
Lemma batch_of_one_has_result_witness :
  exists s' rest,
    GuillotineBinPack3d.InsertBatch (GuillotineBinPack3d.Init 10 10 10) [RectSize3d.mk 2 3 4]
      false GuillotineBinPack3d.RectBestAreaFit GuillotineBinPack3d.SplitShorterLeftoverAxis
    = GuillotineBinPack3d.Ok (s', rest).
Proof.
  exact (batch_of_one_has_result (GuillotineBinPack3d.Init 10 10 10) [RectSize3d.mk 2 3 4]
           false GuillotineBinPack3d.RectBestAreaFit
           GuillotineBinPack3d.SplitShorterLeftoverAxis (le_n 1)).
Defined.

Lemma int_abs_diff_exact (a b : Z) :
  0 <= a <= INT_MAX -> 0 <= b <= INT_MAX ->
  GuillotineBinPack3d.int_abs_diff a b = Z.abs (a - b).
Proof.
  unfold GuillotineBinPack3d.int_abs_diff, INT_MAX. intros Ha Hb.
  rewrite (wrap_int_small (a - b)) by (unfold INT_MIN, INT_MAX; lia).
  apply wrap_int_small. unfold INT_MIN, INT_MAX. lia.
Qed.

Lemma int_volume_exact_nonneg (w h d : Z) :
  0 <= w -> 0 <= h -> 0 <= d -> w * h <= INT_MAX -> w * h * d <= INT_MAX ->
  GuillotineBinPack3d.int_volume w h d = w * h * d.
Proof.
  intros Hw Hh Hd Hwh Hv. unfold GuillotineBinPack3d.int_volume.
  assert (0 <= w * h) by nia. assert (0 <= w * h * d) by nia.
  rewrite (wrap_int_small (w * h)) by (unfold INT_MIN; lia).
  apply wrap_int_small. unfold INT_MIN. lia.
Qed.

(** The scores, for a box and a free volume whose extents are non-negative
    [int]s.  The short-side score is never negative and never above the
    long-side score; the long-side score is 0 exactly on a perfect upright
    fit; the Worst short-side and long-side rules are the negations of
    their Best rules.  When moreover the free volume has positive extents,
    its volume fits in [int] and the box fits upright, the area score is
    the volume of the free volume minus the volume of the box, it is not
    negative, and the Worst area rule is its negation. *)
Theorem score_rules_relate (w h d : Z) (f : Rect3d.t) :
  0 <= w <= INT_MAX -> 0 <= h <= INT_MAX -> 0 <= d <= INT_MAX ->
  0 <= Rect3d.width f <= INT_MAX -> 0 <= Rect3d.height f <= INT_MAX ->
  0 <= Rect3d.depth f <= INT_MAX ->
  0 <= GuillotineBinPack3d.ScoreBestShortSideFit w h d f
       <= GuillotineBinPack3d.ScoreBestLongSideFit w h d f
  /\ (GuillotineBinPack3d.ScoreBestLongSideFit w h d f = 0
      <-> GuillotineBinPack3d.perfect_upright w h d f = true)
  /\ GuillotineBinPack3d.ScoreByHeuristic w h d f GuillotineBinPack3d.RectWorstShortSideFit
     = - GuillotineBinPack3d.ScoreByHeuristic w h d f GuillotineBinPack3d.RectBestShortSideFit
  /\ GuillotineBinPack3d.ScoreByHeuristic w h d f GuillotineBinPack3d.RectWorstLongSideFit
     = - GuillotineBinPack3d.ScoreByHeuristic w h d f GuillotineBinPack3d.RectBestLongSideFit
  /\ (0 < Rect3d.width f -> 0 < Rect3d.height f -> 0 < Rect3d.depth f ->
      GuillotineBinPack3d.volume f <= INT_MAX ->
      GuillotineBinPack3d.fits_upright w h d f = true ->
      GuillotineBinPack3d.ScoreBestAreaFit w h d f = GuillotineBinPack3d.volume f - w * h * d
      /\ 0 <= GuillotineBinPack3d.ScoreBestAreaFit w h d f
      /\ GuillotineBinPack3d.ScoreByHeuristic w h d f GuillotineBinPack3d.RectWorstAreaFit
         = - GuillotineBinPack3d.ScoreByHeuristic w h d f GuillotineBinPack3d.RectBestAreaFit).
Proof.
  intros Hw Hh Hd Hfw Hfh Hfd.
  unfold GuillotineBinPack3d.ScoreByHeuristic, GuillotineBinPack3d.ScoreWorstShortSideFit,
    GuillotineBinPack3d.ScoreWorstLongSideFit, GuillotineBinPack3d.ScoreWorstAreaFit.
  unfold GuillotineBinPack3d.ScoreBestShortSideFit, GuillotineBinPack3d.ScoreBestLongSideFit,
    GuillotineBinPack3d.perfect_upright, GuillotineBinPack3d.fits_upright.
  rewrite !int_abs_diff_exact by assumption.
  unfold INT_MAX in *.
  split; [lia|]. split; [rewrite !andb_true_iff, !Z.eqb_eq; lia|].
  split; [apply wrap_int_small; unfold INT_MIN, INT_MAX; lia|].
  split; [apply wrap_int_small; unfold INT_MIN, INT_MAX; lia|].
  intros Hpw Hph Hpd Hv Hfit. unfold GuillotineBinPack3d.volume in *. bool_to_prop.
  assert (Hwh : w * h <= Rect3d.width f * Rect3d.height f) by nia.
  assert (Hwh0 : 0 <= w * h) by nia.
  assert (Hfwh : Rect3d.width f * Rect3d.height f
                 <= Rect3d.width f * Rect3d.height f * Rect3d.depth f) by nia.
  assert (Hwhd : 0 <= w * h * d <= Rect3d.width f * Rect3d.height f * Rect3d.depth f) by nia.
  assert (Hbest : GuillotineBinPack3d.ScoreBestAreaFit w h d f
                  = Rect3d.width f * Rect3d.height f * Rect3d.depth f - w * h * d).
  { unfold GuillotineBinPack3d.ScoreBestAreaFit.
    rewrite !int_volume_exact_nonneg by (unfold INT_MAX; lia).
    apply wrap_int_small. unfold INT_MIN, INT_MAX. lia. }
  rewrite Hbest. split; [reflexivity|]. split; [lia|].
  apply wrap_int_small. unfold INT_MIN, INT_MAX. lia.
Qed.

(** The theorem on a box (2,3,4) and the free volume (0,0,0,10,10,10), and
    on a unit box in a free volume 1000 x 1000 x 2000. *)
Lemma score_rules_relate_witness :
  0 <= GuillotineBinPack3d.ScoreBestAreaFit 2 3 4 (Rect3d.mk 0 0 0 10 10 10)
  /\ GuillotineBinPack3d.ScoreBestAreaFit 1 1 1 (Rect3d.mk 0 0 0 1000 1000 2000)
     = 2000000000 - 1.
Proof.
  split.
  - refine (proj1 (proj2 (proj2 (proj2 (proj2 (proj2
              (score_rules_relate 2 3 4 (Rect3d.mk 0 0 0 10 10 10) _ _ _ _ _ _))))
              _ _ _ _ eq_refl)));
      unfold INT_MAX, GuillotineBinPack3d.volume; simpl; lia.
  - refine (proj1 (proj2 (proj2 (proj2 (proj2
              (score_rules_relate 1 1 1 (Rect3d.mk 0 0 0 1000 1000 2000) _ _ _ _ _ _))))
              _ _ _ _ eq_refl));
      unfold INT_MAX, GuillotineBinPack3d.volume; simpl; lia.
Defined.

(** ** The max-rects packer: splitting and pruning *)

Lemma SplitFreeNode_piece_cases (f : FreeRect3d.t) (u : Rect3d.t) (ps : list FreeRect3d.t)
    (p : FreeRect3d.t) :
  MaxRectsBinPack.SplitFreeNode f u = Some ps -> In p ps ->
  MaxRectsBinPack.separated f u = false
  /\ ((p = MaxRectsBinPack.set_y_top f u
       /\ FreeRect3d.y f < Rect3d.y u < FreeRect3d.y f + FreeRect3d.height f)
      \/ (p = MaxRectsBinPack.set_y_bottom f u
          /\ Rect3d.y u + Rect3d.height u < FreeRect3d.y f + FreeRect3d.height f)
      \/ (p = MaxRectsBinPack.set_x_left f u
          /\ FreeRect3d.x f < Rect3d.x u < FreeRect3d.x f + FreeRect3d.width f)
      \/ (p = MaxRectsBinPack.set_x_right f u
          /\ Rect3d.x u + Rect3d.width u < FreeRect3d.x f + FreeRect3d.width f)
      \/ (p = MaxRectsBinPack.set_z_bottom f u
          /\ FreeRect3d.z f < Rect3d.z u < FreeRect3d.z f + FreeRect3d.depth f)
      \/ (p = MaxRectsBinPack.set_z_top f u
          /\ Rect3d.z u + Rect3d.depth u < FreeRect3d.z f + FreeRect3d.depth f)).
Proof.
  unfold MaxRectsBinPack.SplitFreeNode.
  destruct (MaxRectsBinPack.separated f u) eqn:Es; [discriminate|].
  intros E Hp. injection E as <-. split; [reflexivity|].
  rewrite !in_app_iff in Hp.
  repeat match type of Hp with
  | _ \/ _ => destruct Hp as [Hp|Hp]
  end;
  match type of Hp with
  | In _ (if ?c then _ else _) => destruct c eqn:Ec; [|destruct Hp]
  end; destruct Hp as [ <- | [] ]; bool_to_prop; tauto.
Qed.

(** [SplitFreeNode] returns false exactly when the separating-axis test
    succeeds.  Otherwise it pushes at most six volumes; each lies inside
    the free volume, is separated from the placed box by the same test,
    and has positive extents when the free volume has. *)
Theorem SplitFreeNode_pieces (f : FreeRect3d.t) (u : Rect3d.t) :
  (MaxRectsBinPack.SplitFreeNode f u = None <-> MaxRectsBinPack.separated f u = true)
  /\ forall ps, MaxRectsBinPack.SplitFreeNode f u = Some ps ->
       (length ps <= 6)%nat
       /\ Forall (fun p => inside_free f p /\ MaxRectsBinPack.separated p u = true
                           /\ (0 < FreeRect3d.width f -> 0 < FreeRect3d.height f ->
                               0 < FreeRect3d.depth f ->
                               0 < FreeRect3d.width p /\ 0 < FreeRect3d.height p
                               /\ 0 < FreeRect3d.depth p)) ps.
Proof.
  split.
  - unfold MaxRectsBinPack.SplitFreeNode.
    destruct (MaxRectsBinPack.separated f u); split; intros; try reflexivity; discriminate.
  - intros ps E. split.
    + unfold MaxRectsBinPack.SplitFreeNode in E.
      destruct (MaxRectsBinPack.separated f u); [discriminate|]. injection E as <-.
      rewrite !length_app.
      repeat match goal with
      | |- context [if ?c then _ else _] => destruct c
      end; simpl; lia.
    + apply Forall_forall. intros p Hp.
      destruct (SplitFreeNode_piece_cases f u ps p E Hp) as [Hs Hc].
      unfold MaxRectsBinPack.separated in Hs.
      repeat (apply orb_false_iff in Hs; destruct Hs as [Hs ?]). bool_to_prop.
      unfold inside_free, MaxRectsBinPack.separated.
      rewrite !orb_true_iff, !Z.geb_leb, !Z.leb_le.
      destruct Hc as [[-> Hc]|[[-> Hc]|[[-> Hc]|[[-> Hc]|[[-> Hc]|[-> Hc]]]]]];
        simpl; repeat split; try lia.
Qed.

(** The theorem on the container 10 x 10 x 10 and a box (2,2,2) at its
    origin. *)
Lemma SplitFreeNode_pieces_witness :
  exists ps,
    MaxRectsBinPack.SplitFreeNode (FreeRect3d.mk 0 0 0 10 10 10 0 10 0 10)
      (Rect3d.mk 0 0 0 2 2 2) = Some ps
    /\ (length ps <= 6)%nat.
Proof.
  eexists. split; [reflexivity|].
  exact (proj1 (proj2 (SplitFreeNode_pieces (FreeRect3d.mk 0 0 0 10 10 10 0 10 0 10)
                         (Rect3d.mk 0 0 0 2 2 2)) _ eq_refl)).
Defined.

Lemma prune_inner_sublist (fi : FreeRect3d.t) (l : list FreeRect3d.t) :
  sublist (snd (MaxRectsBinPack.prune_inner fi l)) l.
Proof.
  induction l as [|fj rest IH]; simpl; [apply sublist_nil|].
  destruct (IsContainedInFree3d fi fj); [apply sublist_refl|].
  destruct (IsContainedInFree3d fj fi); [apply sublist_skip; exact IH|].
  destruct (MaxRectsBinPack.prune_inner fi rest). simpl in *.
  apply sublist_keep. exact IH.
Qed.

Lemma contained_trans (a b c : FreeRect3d.t) :
  IsContainedInFree3d a b = true -> IsContainedInFree3d b c = true ->
  IsContainedInFree3d a c = true.
Proof.
  unfold IsContainedInFree3d. intros H1 H2.
  repeat match goal with
  | H : _ && _ = true |- _ => apply andb_true_iff in H; destruct H
  end.
  rewrite ?andb_true_iff, ?Z.geb_leb, ?Z.leb_le in *. lia.
Qed.

Lemma contained_refl (a : FreeRect3d.t) : IsContainedInFree3d a a = true.
Proof.
  unfold IsContainedInFree3d. rewrite !andb_true_iff, !Z.geb_leb, !Z.leb_le. lia.
Qed.

(** The inner loop of [PruneFreeList]: what is left after it covers what
    was there, and an entry that stays is unrelated to the entries left. *)
Lemma prune_inner_spec (fi : FreeRect3d.t) (l : list FreeRect3d.t) :
  let stays := fst (MaxRectsBinPack.prune_inner fi l) in
  let l' := snd (MaxRectsBinPack.prune_inner fi l) in
  (stays = true -> Forall (unrelated fi) l')
  /\ (forall g, In g (fi :: l) ->
        exists g', In g' (if stays then fi :: l' else l') /\ IsContainedInFree3d g g' = true).
Proof.
  induction l as [|fj rest IH]; simpl.
  - split; [constructor|]. intros g [ <- | [] ]. exists fi.
    split; [left; reflexivity|apply contained_refl].
  - destruct (IsContainedInFree3d fi fj) eqn:E1; simpl.
    + split; [discriminate|]. intros g [ <- | Hg ].
      * exists fj. split; [left; reflexivity|exact E1].
      * exists g. split; [exact Hg|apply contained_refl].
    + destruct (IsContainedInFree3d fj fi) eqn:E2.
      * destruct IH as [IH1 IH2]. split; [exact IH1|].
        intros g [ <- | [ <- | Hg ] ].
        -- apply IH2. left. reflexivity.
        -- destruct (IH2 fi (or_introl eq_refl)) as (g' & Hg' & Hc).
           exists g'. split; [exact Hg'|]. eapply contained_trans; eauto.
        -- apply IH2. right. exact Hg.
      * destruct (MaxRectsBinPack.prune_inner fi rest) as [stays l'] eqn:Ep. simpl in *.
        destruct IH as [IH1 IH2]. split.
        -- intros Hs. constructor; [split; assumption|auto].
        -- intros g [ <- | [ <- | Hg ] ].
           ++ destruct (IH2 fi (or_introl eq_refl)) as (g' & Hg' & Hc).
              exists g'. split; [|exact Hc].
              destruct stays; simpl in *; tauto.
           ++ exists fj. split; [|apply contained_refl].
              destruct stays; simpl; tauto.
           ++ destruct (IH2 g (or_intror Hg)) as (g' & Hg' & Hc).
              exists g'. split; [|exact Hc].
              destruct stays; simpl in *; tauto.
Qed.

Lemma prune_outer_spec (fuel : nat) :
  forall l, (length l <= fuel)%nat ->
  sublist (MaxRectsBinPack.prune_outer fuel l) l
  /\ pairwise unrelated (MaxRectsBinPack.prune_outer fuel l)
  /\ (forall g, In g l ->
        exists g', In g' (MaxRectsBinPack.prune_outer fuel l)
                   /\ IsContainedInFree3d g g' = true).
Proof.
  induction fuel as [|fuel IH]; intros l Hlen.
  - destruct l; [|simpl in Hlen; lia]. simpl.
    split; [apply sublist_nil|]. split; [exact I|]. intros g [].
  - destruct l as [|fi rest].
    { simpl. split; [apply sublist_nil|]. split; [exact I|]. intros g []. }
    cbn [MaxRectsBinPack.prune_outer].
    pose proof (prune_inner_spec fi rest) as [Hs Hc].
    pose proof (prune_inner_sublist fi rest) as Hsub.
    pose proof (prune_inner_length rest fi) as Hl.
    destruct (MaxRectsBinPack.prune_inner fi rest) as [stays rest']. simpl in *.
    destruct (IH rest' ltac:(lia)) as (H1 & H2 & H3).
    destruct stays.
    + split; [apply sublist_keep; eapply sublist_trans; eauto|]. split.
      * split; [|exact H2]. specialize (Hs eq_refl).
        apply Forall_forall. intros g Hg. rewrite Forall_forall in Hs.
        apply Hs. eapply sublist_In; eauto.
      * intros g Hg. destruct (Hc g Hg) as (g' & [ <- | Hg' ] & Hgc).
        -- exists fi. split; [left; reflexivity|exact Hgc].
        -- destruct (H3 g' Hg') as (g'' & Hg'' & Hc').
           exists g''. split; [right; exact Hg''|]. eapply contained_trans; eauto.
    + split; [apply sublist_skip; eapply sublist_trans; eauto|]. split; [exact H2|].
      intros g Hg. destruct (Hc g Hg) as (g' & Hg' & Hgc).
      destruct (H3 g' Hg') as (g'' & Hg'' & Hc').
      exists g''. split; [exact Hg''|]. eapply contained_trans; eauto.
Qed.

(** [PruneFreeList] only removes entries and keeps the others in order;
    among the entries it leaves none is contained in another one, and
    every entry it had is contained in one it leaves. *)
Theorem PruneFreeList_irredundant_cover (free : list FreeRect3d.t) :
  sublist (MaxRectsBinPack.PruneFreeList free) free
  /\ pairwise unrelated (MaxRectsBinPack.PruneFreeList free)
  /\ (forall g, In g free ->
        exists g', In g' (MaxRectsBinPack.PruneFreeList free)
                   /\ IsContainedInFree3d g g' = true).
Proof. apply prune_outer_spec. apply le_n. Qed.

(** The theorem on a free volume and a higher slice of it. *)
Lemma PruneFreeList_irredundant_cover_witness :
  exists g',
    In g' (MaxRectsBinPack.PruneFreeList
             [FreeRect3d.mk 2 2 5 3 3 5 0 0 0 0; FreeRect3d.mk 0 0 0 10 10 10 0 0 0 0])
    /\ IsContainedInFree3d (FreeRect3d.mk 2 2 5 3 3 5 0 0 0 0) g' = true.
Proof.
  exact (proj2 (proj2 (PruneFreeList_irredundant_cover
                         [FreeRect3d.mk 2 2 5 3 3 5 0 0 0 0;
                          FreeRect3d.mk 0 0 0 10 10 10 0 0 0 0]))
           (FreeRect3d.mk 2 2 5 3 3 5 0 0 0 0) (or_introl eq_refl)).
Defined.

(** ** The max-rects packer: free volumes and the position search *)

Lemma PruneFreeList_sublist (free : list FreeRect3d.t) :
  sublist (MaxRectsBinPack.PruneFreeList free) free.
Proof. apply prune_outer_spec. apply le_n. Qed.

Lemma sublist_Forall {A : Type} (P : A -> Prop) (l' l : list A) :
  sublist l' l -> Forall P l -> Forall P l'.
Proof.
  intros Hs Hl. apply Forall_forall. intros a Ha.
  rewrite Forall_forall in Hl. apply Hl. eapply sublist_In; eauto.
Qed.

Lemma separated_inside (f p : FreeRect3d.t) (u : Rect3d.t) :
  inside_free f p -> MaxRectsBinPack.separated f u = true ->
  MaxRectsBinPack.separated p u = true.
Proof.
  unfold inside_free, MaxRectsBinPack.separated.
  rewrite !orb_true_iff, !Z.geb_leb, !Z.leb_le. lia.
Qed.

Lemma split_loop_inv (W H D : Z) (used : list Rect3d.t) (n : Rect3d.t)
    (l : list FreeRect3d.t) :
  Forall (fun f => free_boxed W H D f /\ clear_of used f) l ->
  Forall (fun f => free_boxed W H D f /\ clear_of (used ++ [n]) f)
    (fst (MaxRectsBinPack.split_loop n l) ++ snd (MaxRectsBinPack.split_loop n l)).
Proof.
  induction l as [|f rest IH]; intros Hl; simpl; [constructor|].
  inversion Hl as [|? ? [Hb Hc] Hrest]; subst.
  specialize (IH Hrest).
  destruct (MaxRectsBinPack.split_loop n rest) as [kept pushed]. simpl in IH.
  apply Forall_app in IH. destruct IH as [Hk Hp].
  destruct (MaxRectsBinPack.SplitFreeNode f n) as [pieces|] eqn:E; simpl.
  - apply Forall_app. split; [exact Hk|]. apply Forall_app. split; [|exact Hp].
    destruct (SplitFreeNode_pieces f n) as [_ Hps].
    destruct (Hps pieces E) as [_ Hall].
    eapply Forall_impl; [|exact Hall]. cbv beta.
    intros p (Hin & Hsep & Hpos).
    unfold free_boxed in Hb. destruct Hb as (Hw & Hh & Hd & Hb).
    destruct (Hpos Hw Hh Hd) as (Hpw & Hph & Hpd).
    split.
    + unfold free_boxed. unfold inside_free in Hin. lia.
    + unfold clear_of. apply Forall_app. split.
      * eapply Forall_impl; [|exact Hc]. cbv beta. intros u Hu.
        eapply separated_inside; eauto.
      * constructor; [exact Hsep|constructor].
  - constructor; [|apply Forall_app; split; assumption].
    split; [exact Hb|]. unfold clear_of. apply Forall_app. split; [exact Hc|].
    constructor; [|constructor].
    apply SplitFreeNode_pieces. exact E.
Qed.

Lemma MaxRects_Insert_free_inv (W H D : Z) (s s' : MaxRectsBinPack.t) (w h d : Z)
    (n : Rect3d.t) :
  Forall (fun f => free_boxed W H D f /\ clear_of (MaxRectsBinPack.usedRectangles s) f)
    (MaxRectsBinPack.freeRectangles s) ->
  MaxRectsBinPack.Insert s w h d MaxRectsBinPack.RectBottomLeftRule = Some (n, s') ->
  Forall (fun f => free_boxed W H D f /\ clear_of (MaxRectsBinPack.usedRectangles s') f)
    (MaxRectsBinPack.freeRectangles s').
Proof.
  intros Hinv E. unfold MaxRectsBinPack.Insert in E.
  assert (Hsorted : Forall (fun f => free_boxed W H D f
                                     /\ clear_of (MaxRectsBinPack.usedRectangles s) f)
                      (MaxRectsBinPack.freeRectangles (MaxRectsBinPack.sortFreeSpace s))).
  { cbn [MaxRectsBinPack.sortFreeSpace MaxRectsBinPack.with_free
         MaxRectsBinPack.freeRectangles].
    eapply Permutation_Forall; [|exact Hinv].
    apply Permutation_sym. apply sort_by_perm. }
  destruct (Rect3d.height _ =? 0).
  - injection E as _ <-. exact Hsorted.
  - pose proof (split_loop_inv W H D (MaxRectsBinPack.usedRectangles s)
                  (MaxRectsBinPack.FindPositionForNewNodeBottomLeft
                     (MaxRectsBinPack.sortFreeSpace s) w h d)
                  _ Hsorted) as Hsplit.
    destruct (MaxRectsBinPack.split_loop _ _) as [kept pushed].
    injection E as <- <-. cbn [MaxRectsBinPack.usedRectangles MaxRectsBinPack.freeRectangles].
    eapply sublist_Forall; [|exact Hsplit].
    apply PruneFreeList_sublist.
Qed.

(** In a container with positive extents, after any sequence of [Insert]
    calls under the bottom-left rule, every free volume has positive
    extents, lies in the container, and is separated from every placed box
    by the test at the head of [SplitFreeNode]. *)
Theorem maxrects_free_volumes_clear_of_boxes (W H D : Z) (flip : bool)
    (sizes : list RectSize3d.t) :
  0 < W -> 0 < H -> 0 < D ->
  let s := MaxRectsBinPack.run (MaxRectsBinPack.Init W H D flip) sizes in
  Forall (fun f => free_boxed W H D f /\ clear_of (MaxRectsBinPack.usedRectangles s) f)
    (MaxRectsBinPack.freeRectangles s).
Proof.
  intros HW HH HD.
  assert (Hinit : Forall (fun f => free_boxed W H D f
                         /\ clear_of (MaxRectsBinPack.usedRectangles
                                        (MaxRectsBinPack.Init W H D flip)) f)
                    (MaxRectsBinPack.freeRectangles (MaxRectsBinPack.Init W H D flip))).
  { simpl. constructor; [|constructor]. split; [|constructor].
    unfold free_boxed. simpl. lia. }
  generalize dependent (MaxRectsBinPack.Init W H D flip).
  induction sizes as [|r rest IH]; intros s0 Hs0; cbn zeta;
    cbn [MaxRectsBinPack.run]; [exact Hs0|].
  destruct (MaxRectsBinPack.Insert s0 (RectSize3d.width r) (RectSize3d.height r)
              (RectSize3d.depth r) MaxRectsBinPack.RectBottomLeftRule)
    as [[n s1]|] eqn:E; [|exact Hs0].
  apply IH. eapply MaxRects_Insert_free_inv; eauto.
Qed.

(** The theorem on three boxes in a 10 x 10 x 10 container. *)
Lemma maxrects_free_volumes_clear_of_boxes_witness :
  let s := MaxRectsBinPack.run (MaxRectsBinPack.Init 10 10 10 false)
             [RectSize3d.mk 4 4 2; RectSize3d.mk 3 2 5; RectSize3d.mk 3 2 9] in
  Forall (fun f => free_boxed 10 10 10 f /\ clear_of (MaxRectsBinPack.usedRectangles s) f)
    (MaxRectsBinPack.freeRectangles s).
Proof.
  apply (maxrects_free_volumes_clear_of_boxes 10 10 10 false
           [RectSize3d.mk 4 4 2; RectSize3d.mk 3 2 5; RectSize3d.mk 3 2 9]); lia.
Defined.

Lemma bottomLeft_loop_result (flip : bool) (used : list Rect3d.t) (w h d : Z)
    (l : list FreeRect3d.t) :
  forall blocked,
  let n := MaxRectsBinPack.bottomLeft_loop flip used w h d l blocked in
  n = zeroRect
  \/ exists f, In f l
       /\ ((MaxRectsBinPack.accepts_upright f w h d = true
            /\ n = MaxRectsBinPack.at_support_of f w h d)
           \/ (MaxRectsBinPack.accepts_flipped flip f w h d = true
               /\ n = MaxRectsBinPack.at_support_of f h w d))
       /\ existsb (fun u => MaxRectsBinPack.isBlocked u n) used = false.
Proof.
  induction l as [|f rest IH]; intros blocked; cbn zeta; [left; reflexivity|].
  cbn [MaxRectsBinPack.bottomLeft_loop]. cbn zeta.
  destruct (MaxRectsBinPack.accepts_upright f w h d) eqn:Eu.
  - destruct (negb (blocked
                    || existsb (fun u => MaxRectsBinPack.isBlocked u
                                  (MaxRectsBinPack.at_support_of f w h d)) used)) eqn:Eb.
    + cbn [andb]. right. exists f. split; [left; reflexivity|]. split; [left; auto|].
      apply negb_true_iff in Eb. apply orb_false_iff in Eb. tauto.
    + cbn [andb].
      destruct (MaxRectsBinPack.accepts_flipped flip f w h d) eqn:Ef.
      * destruct (negb (existsb (fun u => MaxRectsBinPack.isBlocked u
                                   (MaxRectsBinPack.at_support_of f h w d)) used)) eqn:Eb2.
        -- cbn [andb]. right. exists f. split; [left; reflexivity|]. split; [right; auto|].
           apply negb_true_iff in Eb2. exact Eb2.
        -- cbn [andb].
           destruct (IH (existsb (fun u => MaxRectsBinPack.isBlocked u
                                    (MaxRectsBinPack.at_support_of f h w d)) used))
             as [Hz|(g & Hg & Hrest)]; [left; exact Hz|].
           right. exists g. split; [right; exact Hg|exact Hrest].
      * cbn [andb].
        match goal with
        | |- context [MaxRectsBinPack.bottomLeft_loop flip used w h d rest ?b] =>
            destruct (IH b) as [Hz|(g & Hg & Hrest)]; [left; exact Hz|];
            right; exists g; split; [right; exact Hg|exact Hrest]
        end.
  - cbn [andb].
    destruct (MaxRectsBinPack.accepts_flipped flip f w h d) eqn:Ef.
    + destruct (negb (existsb (fun u => MaxRectsBinPack.isBlocked u
                                 (MaxRectsBinPack.at_support_of f h w d)) used)) eqn:Eb2.
      * cbn [andb]. right. exists f. split; [left; reflexivity|]. split; [right; auto|].
        apply negb_true_iff in Eb2. exact Eb2.
      * cbn [andb].
        destruct (IH (existsb (fun u => MaxRectsBinPack.isBlocked u
                                 (MaxRectsBinPack.at_support_of f h w d)) used))
          as [Hz|(g & Hg & Hrest)]; [left; exact Hz|].
        right. exists g. split; [right; exact Hg|exact Hrest].
    + cbn [andb].
      destruct (IH blocked) as [Hz|(g & Hg & Hrest)]; [left; exact Hz|].
      right. exists g. split; [right; exact Hg|exact Hrest].
Qed.

Lemma maxrects_insert_shape (s s' : MaxRectsBinPack.t) (w h d : Z) (n : Rect3d.t) :
  MaxRectsBinPack.Insert s w h d MaxRectsBinPack.RectBottomLeftRule = Some (n, s') ->
  n = zeroRect
  \/ exists f, In f (MaxRectsBinPack.freeRectangles s)
       /\ ((MaxRectsBinPack.accepts_upright f w h d = true
            /\ n = MaxRectsBinPack.at_support_of f w h d)
           \/ (MaxRectsBinPack.accepts_flipped (MaxRectsBinPack.binAllowFlip s) f w h d = true
               /\ n = MaxRectsBinPack.at_support_of f h w d)).
Proof.
  intros E. unfold MaxRectsBinPack.Insert in E.
  assert (Hn : n = MaxRectsBinPack.FindPositionForNewNodeBottomLeft
                     (MaxRectsBinPack.sortFreeSpace s) w h d).
  { destruct (Rect3d.height _ =? 0); [injection E as <- _; reflexivity|].
    destruct (MaxRectsBinPack.split_loop _ _). injection E as <- _. reflexivity. }
  subst n. unfold MaxRectsBinPack.FindPositionForNewNodeBottomLeft.
  cbn [MaxRectsBinPack.sortFreeSpace MaxRectsBinPack.with_free
       MaxRectsBinPack.freeRectangles MaxRectsBinPack.usedRectangles
       MaxRectsBinPack.binAllowFlip].
  destruct (bottomLeft_loop_result (MaxRectsBinPack.binAllowFlip s)
              (MaxRectsBinPack.usedRectangles s) w h d
              (sort_by MaxRectsBinPack.sortFreeSpace_lt (MaxRectsBinPack.freeRectangles s))
              false) as [Hz|(f & Hf & Hor & _)]; [left; exact Hz|].
  right. exists f. split; [|exact Hor].
  eapply Permutation_in; [apply sort_by_perm|exact Hf].
Qed.

(** What the max-rects [Insert] returns under the bottom-left rule.  The
    box is all zero, or it has the requested extents (exchanged only when
    flipping is allowed), stands at the support corner and floor of a free
    volume that passes the test of that orientation, and is blocked by no
    placed box.  The container extents and the flip setting stay as they
    were.  A box of height zero leaves the placed boxes as they were and
    the free list a permutation of what it was, ordered by the comparator
    of [sortFreeSpace]; any other box is appended to the placed boxes. *)
Theorem maxrects_insert_result (s s' : MaxRectsBinPack.t) (w h d : Z) (n : Rect3d.t) :
  MaxRectsBinPack.Insert s w h d MaxRectsBinPack.RectBottomLeftRule = Some (n, s') ->
  (n = zeroRect
   \/ exists f, In f (MaxRectsBinPack.freeRectangles s)
        /\ ((MaxRectsBinPack.accepts_upright f w h d = true
             /\ n = MaxRectsBinPack.at_support_of f w h d)
            \/ (MaxRectsBinPack.accepts_flipped (MaxRectsBinPack.binAllowFlip s) f w h d = true
                /\ n = MaxRectsBinPack.at_support_of f h w d))
        /\ existsb (fun u => MaxRectsBinPack.isBlocked u n)
             (MaxRectsBinPack.usedRectangles s) = false)
  /\ MaxRectsBinPack.binWidth s' = MaxRectsBinPack.binWidth s
  /\ MaxRectsBinPack.binHeight s' = MaxRectsBinPack.binHeight s
  /\ MaxRectsBinPack.binDepth s' = MaxRectsBinPack.binDepth s
  /\ MaxRectsBinPack.binAllowFlip s' = MaxRectsBinPack.binAllowFlip s
  /\ ((Rect3d.height n = 0
       /\ MaxRectsBinPack.usedRectangles s' = MaxRectsBinPack.usedRectangles s
       /\ Permutation (MaxRectsBinPack.freeRectangles s') (MaxRectsBinPack.freeRectangles s)
       /\ sorted_by MaxRectsBinPack.sortFreeSpace_lt (MaxRectsBinPack.freeRectangles s'))
      \/ (Rect3d.height n <> 0
          /\ MaxRectsBinPack.usedRectangles s' = MaxRectsBinPack.usedRectangles s ++ [n])).
Proof.
  intros E. unfold MaxRectsBinPack.Insert in E.
  assert (Hn : n = MaxRectsBinPack.FindPositionForNewNodeBottomLeft
                     (MaxRectsBinPack.sortFreeSpace s) w h d).
  { destruct (Rect3d.height _ =? 0); [injection E as <- _; reflexivity|].
    destruct (MaxRectsBinPack.split_loop _ _). injection E as <- _. reflexivity. }
  split.
  - subst n. unfold MaxRectsBinPack.FindPositionForNewNodeBottomLeft.
    cbn [MaxRectsBinPack.sortFreeSpace MaxRectsBinPack.with_free
         MaxRectsBinPack.freeRectangles MaxRectsBinPack.usedRectangles
         MaxRectsBinPack.binAllowFlip].
    destruct (bottomLeft_loop_result (MaxRectsBinPack.binAllowFlip s)
                (MaxRectsBinPack.usedRectangles s) w h d
                (sort_by MaxRectsBinPack.sortFreeSpace_lt (MaxRectsBinPack.freeRectangles s))
                false) as [Hz|(f & Hf & Hrest)]; [left; exact Hz|].
    right. exists f. split; [|exact Hrest].
    eapply Permutation_in; [apply sort_by_perm|exact Hf].
  - rewrite <- Hn in E.
    pose proof (sortFreeSpace_spec s) as (Hp & Hs & Hu & HW & HH & HD & HF).
    destruct (Rect3d.height n =? 0) eqn:Eh.
    + apply Z.eqb_eq in Eh. injection E as <-.
      repeat (split; [assumption|]). left. repeat split; assumption.
    + apply Z.eqb_neq in Eh.
      destruct (MaxRectsBinPack.split_loop _ _). injection E as <-. cbn.
      repeat (split; [reflexivity|]). right. split; [exact Eh|reflexivity].
Qed.

(** The theorem on the packer reached by three inserts, whose free list
    has six entries: a box (2,2,2) is placed and appended, and a request
    (5,0,5) of height zero leaves the placed boxes alone and the free list
    ordered. *)
Lemma maxrects_insert_result_witness :
  (exists n s',
     MaxRectsBinPack.Insert after_three_boxes 2 2 2 MaxRectsBinPack.RectBottomLeftRule
       = Some (n, s')
     /\ MaxRectsBinPack.usedRectangles s'
        = MaxRectsBinPack.usedRectangles after_three_boxes ++ [n])
  /\ (exists n s',
        MaxRectsBinPack.Insert after_three_boxes 5 0 5 MaxRectsBinPack.RectBottomLeftRule
          = Some (n, s')
        /\ MaxRectsBinPack.usedRectangles s'
           = MaxRectsBinPack.usedRectangles after_three_boxes
        /\ sorted_by MaxRectsBinPack.sortFreeSpace_lt (MaxRectsBinPack.freeRectangles s')).
Proof.
  split.
  - destruct (MaxRectsBinPack.Insert after_three_boxes 2 2 2
                MaxRectsBinPack.RectBottomLeftRule) as [[n s']|] eqn:E;
      [|vm_compute in E; discriminate E].
    exists n, s'. split; [reflexivity|].
    destruct (proj2 (proj2 (proj2 (proj2 (proj2
                (maxrects_insert_result after_three_boxes s' 2 2 2 n E))))))
      as [[Hh _]|(_ & Hu)]; [|exact Hu].
    vm_compute in E. injection E as <- _. discriminate Hh.
  - destruct (MaxRectsBinPack.Insert after_three_boxes 5 0 5
                MaxRectsBinPack.RectBottomLeftRule) as [[n s']|] eqn:E;
      [|vm_compute in E; discriminate E].
    exists n, s'. split; [reflexivity|].
    destruct (proj2 (proj2 (proj2 (proj2 (proj2
                (maxrects_insert_result after_three_boxes s' 5 0 5 n E))))))
      as [(_ & Hu & _ & Hs)|[Hh _]]; [split; [exact Hu|exact Hs]|].
    vm_compute in E. injection E as <- _. exfalso. apply Hh. reflexivity.
Defined.

Lemma bottomLeft_loop_stuck (used : list Rect3d.t) (w h d : Z) (l : list FreeRect3d.t) :
  MaxRectsBinPack.bottomLeft_loop false used w h d l true = zeroRect.
Proof.
  induction l as [|f rest IH]; simpl; [reflexivity|].
  unfold MaxRectsBinPack.accepts_flipped. simpl.
  destruct (MaxRectsBinPack.accepts_upright f w h d); simpl; exact IH.
Qed.

(** Without flipping, the position search tries one free volume only: the
    first one, in the order of the free list, that passes the upright test.
    When a placed box blocks the box there, the local flag [blocked] is
    never cleared again and the search returns the all-zero box, whatever
    free volumes follow. *)
Theorem maxrects_search_tries_one_volume (s : MaxRectsBinPack.t) (w h d : Z)
    (l1 l2 : list FreeRect3d.t) (f : FreeRect3d.t) :
  MaxRectsBinPack.binAllowFlip s = false ->
  MaxRectsBinPack.freeRectangles s = l1 ++ f :: l2 ->
  Forall (fun g => MaxRectsBinPack.accepts_upright g w h d = false) l1 ->
  MaxRectsBinPack.accepts_upright f w h d = true ->
  MaxRectsBinPack.FindPositionForNewNodeBottomLeft s w h d =
    if existsb (fun u => MaxRectsBinPack.isBlocked u
                  (MaxRectsBinPack.at_support_of f w h d))
         (MaxRectsBinPack.usedRectangles s)
    then zeroRect
    else MaxRectsBinPack.at_support_of f w h d.
Proof.
  intros Hflip Hfree Hl1 Hf.
  unfold MaxRectsBinPack.FindPositionForNewNodeBottomLeft. rewrite Hflip, Hfree.
  clear Hfree.
  induction Hl1 as [|g l1' Hg _ IH]; cbn [app MaxRectsBinPack.bottomLeft_loop]; cbn zeta.
  - rewrite Hf. cbn [orb andb].
    destruct (existsb _ (MaxRectsBinPack.usedRectangles s)); cbn [negb andb];
      [|reflexivity].
    unfold MaxRectsBinPack.accepts_flipped. cbn [andb].
    apply bottomLeft_loop_stuck.
  - rewrite Hg. unfold MaxRectsBinPack.accepts_flipped. cbn [andb]. exact IH.
Qed.

(** The theorem on a packer reached by three inserts: the first volume
    that accepts a box (5,2,1) puts it over a taller placed box, and the
    search returns the all-zero box although later volumes accept it. *)
Lemma maxrects_search_tries_one_volume_witness :
  MaxRectsBinPack.FindPositionForNewNodeBottomLeft after_three_boxes 5 2 1 = zeroRect
  /\ existsb (fun g => MaxRectsBinPack.accepts_upright g 5 2 1)
       (skipn 2 (MaxRectsBinPack.freeRectangles after_three_boxes)) = true.
Proof.
  split; [|vm_compute; reflexivity].
  refine (maxrects_search_tries_one_volume after_three_boxes 5 2 1
            (firstn 1 (MaxRectsBinPack.freeRectangles after_three_boxes))
            (skipn 2 (MaxRectsBinPack.freeRectangles after_three_boxes))
            (nth 1 (MaxRectsBinPack.freeRectangles after_three_boxes)
               (FreeRect3d.mk 0 0 0 0 0 0 0 0 0 0))
            eq_refl eq_refl _ eq_refl).
  vm_compute. repeat constructor.
Defined.

Lemma split_loop_based (W H D : Z) (n : Rect3d.t) (l : list FreeRect3d.t) :
  based D n ->
  Forall (fun f => free_boxed W H D f /\ support_based f) l ->
  Forall (fun f => free_boxed W H D f /\ support_based f)
    (fst (MaxRectsBinPack.split_loop n l) ++ snd (MaxRectsBinPack.split_loop n l)).
Proof.
  intros Hn. induction l as [|f rest IH]; intros Hl; simpl; [constructor|].
  inversion Hl as [|? ? [Hb Hs] Hrest]; subst.
  specialize (IH Hrest).
  destruct (MaxRectsBinPack.split_loop n rest) as [kept pushed]. simpl in IH.
  apply Forall_app in IH. destruct IH as [Hk Hp].
  destruct (MaxRectsBinPack.SplitFreeNode f n) as [pieces|] eqn:E; simpl.
  - apply Forall_app. split; [exact Hk|]. apply Forall_app. split; [|exact Hp].
    apply Forall_forall. intros p Hin.
    destruct (SplitFreeNode_pieces f n) as [_ Hps].
    destruct (Hps pieces E) as [_ Hall]. rewrite Forall_forall in Hall.
    destruct (Hall p Hin) as (Hinside & _ & Hpos).
    unfold free_boxed in Hb. destruct Hb as (Hw & Hh & Hd & Hb).
    destruct (Hpos Hw Hh Hd) as (Hpw & Hph & Hpd).
    split; [unfold free_boxed; unfold inside_free in Hinside; lia|].
    destruct (SplitFreeNode_piece_cases f n pieces p E Hin) as [_ Hc].
    unfold support_based in *. unfold based in Hn.
    destruct Hc as [[-> _]|[[-> _]|[[-> _]|[[-> _]|[[-> _]|[-> _]]]]]]; simpl; lia.
  - constructor; [split; assumption|]. apply Forall_app. split; assumption.
Qed.

Lemma MaxRects_Insert_based (W H D : Z) (s s' : MaxRectsBinPack.t) (w h d : Z)
    (n : Rect3d.t) :
  0 < D ->
  Forall (fun f => free_boxed W H D f /\ support_based f) (MaxRectsBinPack.freeRectangles s) ->
  Forall (based D) (MaxRectsBinPack.usedRectangles s) ->
  MaxRectsBinPack.Insert s w h d MaxRectsBinPack.RectBottomLeftRule = Some (n, s') ->
  based D n
  /\ Forall (fun f => free_boxed W H D f /\ support_based f) (MaxRectsBinPack.freeRectangles s')
  /\ Forall (based D) (MaxRectsBinPack.usedRectangles s').
Proof.
  intros HD Hfree Hused E.
  assert (Hn : based D n).
  { destruct (maxrects_insert_shape s s' w h d n E) as [-> |(f & Hf & Hor)].
    - unfold based, zeroRect. simpl. lia.
    - rewrite Forall_forall in Hfree. destruct (Hfree f Hf) as [Hb Hs].
      unfold free_boxed in Hb. unfold support_based in Hs. unfold based.
      destruct Hor as [[Ha ->]|[Ha ->]]; simpl.
      + unfold MaxRectsBinPack.accepts_upright in Ha.
        repeat (apply andb_true_iff in Ha; destruct Ha as [Ha ?]). bool_to_prop. lia.
      + unfold MaxRectsBinPack.accepts_flipped in Ha.
        repeat (apply andb_true_iff in Ha; destruct Ha as [Ha ?]). bool_to_prop. lia. }
  split; [exact Hn|].
  unfold MaxRectsBinPack.Insert in E.
  assert (Hsorted : Forall (fun f => free_boxed W H D f /\ support_based f)
                      (MaxRectsBinPack.freeRectangles (MaxRectsBinPack.sortFreeSpace s))).
  { cbn [MaxRectsBinPack.sortFreeSpace MaxRectsBinPack.with_free
         MaxRectsBinPack.freeRectangles].
    eapply Permutation_Forall; [|exact Hfree].
    apply Permutation_sym. apply sort_by_perm. }
  destruct (Rect3d.height _ =? 0).
  - injection E as _ <-. split; [exact Hsorted|exact Hused].
  - assert (En : MaxRectsBinPack.FindPositionForNewNodeBottomLeft
                   (MaxRectsBinPack.sortFreeSpace s) w h d = n).
    { destruct (MaxRectsBinPack.split_loop _ _). injection E as En _. exact En. }
    rewrite En in E.
    pose proof (split_loop_based W H D n _ Hn Hsorted) as Hsplit.
    destruct (MaxRectsBinPack.split_loop n _) as [kept pushed].
    injection E as <-.
    cbn [MaxRectsBinPack.usedRectangles MaxRectsBinPack.freeRectangles]. split.
    + eapply sublist_Forall; [apply PruneFreeList_sublist|]. exact Hsplit.
    + apply Forall_app. split; [exact Hused|]. constructor; [exact Hn|constructor].
Qed.

(** In a container with positive extents, after any sequence of max-rects
    [Insert] calls under the bottom-left rule, whatever the requested
    sizes, every placed box starts at non-negative x, y and z and ends at
    or below the top of the container. *)
Theorem maxrects_boxes_start_inside (W H D : Z) (flip : bool) (sizes : list RectSize3d.t) :
  0 < W -> 0 < H -> 0 < D ->
  Forall (based D)
    (MaxRectsBinPack.usedRectangles
       (MaxRectsBinPack.run (MaxRectsBinPack.Init W H D flip) sizes)).
Proof.
  intros HW HH HD.
  assert (Hinit : Forall (fun f => free_boxed W H D f /\ support_based f)
                    (MaxRectsBinPack.freeRectangles (MaxRectsBinPack.Init W H D flip))
                  /\ Forall (based D)
                       (MaxRectsBinPack.usedRectangles (MaxRectsBinPack.Init W H D flip))).
  { simpl. split; [|constructor]. constructor; [|constructor].
    unfold free_boxed, support_based. simpl. lia. }
  generalize dependent (MaxRectsBinPack.Init W H D flip).
  induction sizes as [|r rest IH]; intros s0 [Hf Hu]; cbn [MaxRectsBinPack.run];
    [exact Hu|].
  destruct (MaxRectsBinPack.Insert s0 (RectSize3d.width r) (RectSize3d.height r)
              (RectSize3d.depth r) MaxRectsBinPack.RectBottomLeftRule)
    as [[n s1]|] eqn:E; [|exact Hu].
  apply IH.
  destruct (MaxRects_Insert_based W H D s0 s1 _ _ _ n HD Hf Hu E) as (_ & H1 & H2).
  split; assumption.
Qed.

(** The theorem on three boxes in a 10 x 10 x 10 container. *)
Lemma maxrects_boxes_start_inside_witness :
  Forall (based 10)
    (MaxRectsBinPack.usedRectangles
       (MaxRectsBinPack.run (MaxRectsBinPack.Init 10 10 10 false)
          [RectSize3d.mk 4 4 2; RectSize3d.mk 3 2 5; RectSize3d.mk 3 2 9])).
Proof.
  apply (maxrects_boxes_start_inside 10 10 10 false
           [RectSize3d.mk 4 4 2; RectSize3d.mk 3 2 5; RectSize3d.mk 3 2 9]); lia.
Defined.

(** * Occupancy *)

(** ** The extents of the guillotine packer stay those of the container *)




(** *** The batch search records only depths that some free volume has *)









(** ** The sums of the two occupancies without wrap-around *)






(** ** The extents of the max-rects packer *)




(** ** The two occupancies *)







(** Outside the ranges of the theorems the values wrap as on the hardware.
    In a container 2000 x 2000 x 2000, whose volume does not fit in
    [int]: after a box (1000,2000,600) the key of the free volume at
    z = 600 is negative, that volume sorts first and takes the next box;
    the occupancy after a box (1000,1000,1000) is negative; the area score
    of a unit box in the whole container is negative.  The common length
    of two copies of an interval longer than [INT_MAX] is negative. *)
Remark int_values_wrap :
  (let s := snd (GuillotineBinPack3d.Insert (GuillotineBinPack3d.Init 2000 2000 2000)
                   1000 2000 600 false GuillotineBinPack3d.RectBestAreaFit
                   GuillotineBinPack3d.SplitShorterLeftoverAxis) in
   map (GuillotineBinPack3d.rect_hash_val s) (GuillotineBinPack3d.freeRectangles s)
     = [-1894967296; 1000]
   /\ fst (GuillotineBinPack3d.Insert s 500 500 500 false GuillotineBinPack3d.RectBestAreaFit
             GuillotineBinPack3d.SplitShorterLeftoverAxis)
      = Rect3d.mk 0 0 600 500 500 500)
  /\ (GuillotineBinPack3d.Occupancy
        (snd (GuillotineBinPack3d.Insert (GuillotineBinPack3d.Init 2000 2000 2000)
                1000 1000 1000 false GuillotineBinPack3d.RectBestAreaFit
                GuillotineBinPack3d.SplitShorterLeftoverAxis))
      == -1000000000 # 589934592)%Q
  /\ GuillotineBinPack3d.ScoreByHeuristic 1 1 1 (Rect3d.mk 0 0 0 2000 2000 2000)
       GuillotineBinPack3d.RectBestAreaFit = -589934593
  /\ CommonIntervalLength (-2000000000) 2000000000 (-2000000000) 2000000000 = -294967296.
Proof. vm_compute. repeat split; reflexivity. Qed.
